(** * URL shortener: allocation of short codes and recording of redirects

    A shallow embedding of [base/models.py], [base/views.py] and
    [base/urls.py].  The ORM tables are lists of rows inside a [World]; the
    views are programs of a small state-and-exception monad whose state
    survives an exception: [views.py] opens no transaction, so every ORM
    write is a statement of its own.  Whether the request handler runs a
    view inside a transaction is the setting [ATOMIC_REQUESTS] of the
    project, which no source file fixes: it is a field of [Externals], and
    [served_alone] is the handler around one call.

    What the embedding takes from outside the three source files:
    - [timezone.now()] and [random.choice] read oracles ([clock], [rand])
      through counters kept in the world, so that successive calls may
      return different values;
    - [user_agents.parse], [settings.DOMAIN], Django's
      [clean_ipv6_address] and the checks that the constructor of
      [HttpResponseRedirect] makes on its target are fields of [Externals];
    - a Python [str] is a [string] whose characters are the code points
      below 256; a [datetime] is the number of microseconds since
      0001-01-01T00:00:00, an integer is a [Z];
    - column length limits are not enforced (as on SQLite, Django's default
      backend); NOT NULL, UNIQUE and FOREIGN KEY constraints are;
    - of the decorators of the views only [require_http_methods] is
      embedded; rate limiting happens before the view is entered;
    - a response is the constructor call the view returns; what the
      framework does when it renders or sends the response (templates,
      headers) is outside; [reverse], which the routes of [urls.py]
      decide, and the exception that [HttpResponseRedirect] raises on a
      target it refuses happen inside the view and are embedded. *)

From Stdlib Require Import ZArith List String Ascii Bool Arith Lia.
Import ListNotations.
Open Scope string_scope.
Open Scope Z_scope.

(** ** Python built-ins used by the views *)

Module Py.

(** [str.isspace] on the code points below 256. *)
Definition isspace (c : ascii) : bool :=
  let n := nat_of_ascii c in
  ((9 <=? n) && (n <=? 13) || (28 <=? n) && (n <=? 32)
   || (n =? 133) || (n =? 160))%nat.

Fixpoint lstrip (s : string) : string :=
  match s with
  | EmptyString => EmptyString
  | String c r => if isspace c then lstrip r else s
  end.

Fixpoint rstrip (s : string) : string :=
  match s with
  | EmptyString => EmptyString
  | String c r =>
      match rstrip r with
      | EmptyString => if isspace c then EmptyString else String c EmptyString
      | r' => String c r'
      end
  end.

(** [s.strip()] *)
Definition strip (s : string) : string := rstrip (lstrip s).

(** [s.startswith(p)] *)
Definition startswith (s p : string) : bool := String.prefix p s.

(** truthiness of a [str] *)
Definition truthy (s : string) : bool :=
  match s with EmptyString => false | _ => true end.

(** [s.split(',')[0]]: the text before the first comma. *)
Fixpoint split_comma_head (s : string) : string :=
  match s with
  | EmptyString => EmptyString
  | String c r => if Ascii.eqb c "," then EmptyString
                  else String c (split_comma_head r)
  end.

Definition isdigit (c : ascii) : bool :=
  let n := nat_of_ascii c in ((48 <=? n) && (n <=? 57))%nat.

Definition digit_value (c : ascii) : Z := Z.of_nat (nat_of_ascii c) - 48.

Inductive int_state := NeedDigit | AfterDigit.

(** Decimal digits, single underscores allowed between two digits. *)
Fixpoint int_digits (st : int_state) (acc : Z) (s : string) : option Z :=
  match s with
  | EmptyString => match st with AfterDigit => Some acc | NeedDigit => None end
  | String c r =>
      if isdigit c then int_digits AfterDigit (10 * acc + digit_value c) r
      else if Ascii.eqb c "_" then
        match st with
        | AfterDigit => int_digits NeedDigit acc r
        | NeedDigit => None
        end
      else None
  end.

(** The default of [sys.get_int_max_str_digits()]. *)
Definition int_max_str_digits : N := 4300.

Fixpoint count_digits (s : string) : N :=
  match s with
  | EmptyString => 0%N
  | String c r => ((if isdigit c then 1 else 0) + count_digits r)%N
  end.

(** The white space [int] skips around the digits: the ASCII white space
    of C, and the other code points that are spaces for Unicode (below 256:
    U+0085 and U+00A0).  The separators U+001C to U+001F, which
    [str.strip] removes, are not among them. *)
Definition int_isspace (c : ascii) : bool :=
  let n := nat_of_ascii c in
  ((9 <=? n) && (n <=? 13) || (n =? 32) || (n =? 133) || (n =? 160))%nat.

Fixpoint int_lstrip (s : string) : string :=
  match s with
  | EmptyString => EmptyString
  | String c r => if int_isspace c then int_lstrip r else s
  end.

Fixpoint int_rstrip (s : string) : string :=
  match s with
  | EmptyString => EmptyString
  | String c r =>
      match int_rstrip r with
      | EmptyString => if int_isspace c then EmptyString else String c EmptyString
      | r' => String c r'
      end
  end.

Definition int_strip (s : string) : string := int_rstrip (int_lstrip s).

(** [int(s)] in base 10: [None] stands for [ValueError]. *)
Definition int (s : string) : option Z :=
  if (int_max_str_digits <? count_digits (int_strip s))%N then None
  else
    match int_strip s with
    | EmptyString => None
    | String c r =>
        if Ascii.eqb c "+" then int_digits NeedDigit 0 r
        else if Ascii.eqb c "-" then option_map Z.opp (int_digits NeedDigit 0 r)
        else int_digits NeedDigit 0 (String c r)
    end.

(** [string.ascii_letters + string.digits] *)
Definition ascii_letters_digits : string :=
  "abcdefghijklmnopqrstuvwxyzABCDEFGHIJKLMNOPQRSTUVWXYZ0123456789".

Definition isalnum_ascii (c : ascii) : bool :=
  let n := nat_of_ascii c in
  ((97 <=? n) && (n <=? 122) || (65 <=? n) && (n <=? 90)
   || (48 <=? n) && (n <=? 57))%nat.

Fixpoint all_chars (p : ascii -> bool) (s : string) : bool :=
  match s with
  | EmptyString => true
  | String c r => p c && all_chars p r
  end.

Fixpoint contains_char (c : ascii) (s : string) : bool :=
  match s with
  | EmptyString => false
  | String d r => Ascii.eqb c d || contains_char c r
  end.

(** [datetime]: microseconds since 0001-01-01T00:00:00; the representable
    values end with 9999-12-31T23:59:59.999999 (ordinal day 3652059). *)
Definition us_per_day : Z := 86400000000.
Definition datetime_end : Z := 3652059 * us_per_day.
Definition max_timedelta_days : Z := 999999999.

End Py.

(** ** Data model ([base/models.py]) *)

Definition datetime := Z.

(** A row of [URL], or a [URL] instance in memory ([pk = None] before the
    first save). *)
Record URL := mkURL {
  pk : option nat;
  original_url : string;
  short_code : string;
  title : string;
  description : string;
  created_at : option datetime;
  created_by : option nat;
  is_active : bool;
  expires_at : option datetime;
  click_count : Z;
  last_clicked : option datetime
}.

Record Click := mkClick {
  click_pk : option nat;
  url : nat;                      (* foreign key to [URL] *)
  clicked_at : option datetime;
  ip_address : option string;
  user_agent : string;
  referer : option string;
  browser : string;
  os : string;
  device : string;
  country : string;
  city : string
}.

(** The columns of [URL] that [save(update_fields=...)] can name. *)
Inductive url_field :=
| F_original_url | F_short_code | F_title | F_description | F_created_by
| F_is_active | F_expires_at | F_click_count | F_last_clicked.

Definition set_short_code (c : string) (u : URL) : URL :=
  mkURL (pk u) (original_url u) c (title u) (description u) (created_at u)
        (created_by u) (is_active u) (expires_at u) (click_count u)
        (last_clicked u).

Definition set_expires_at (e : option datetime) (u : URL) : URL :=
  mkURL (pk u) (original_url u) (short_code u) (title u) (description u)
        (created_at u) (created_by u) (is_active u) e (click_count u)
        (last_clicked u).

Definition set_click_count (n : Z) (u : URL) : URL :=
  mkURL (pk u) (original_url u) (short_code u) (title u) (description u)
        (created_at u) (created_by u) (is_active u) (expires_at u) n
        (last_clicked u).

Definition set_last_clicked (t : option datetime) (u : URL) : URL :=
  mkURL (pk u) (original_url u) (short_code u) (title u) (description u)
        (created_at u) (created_by u) (is_active u) (expires_at u)
        (click_count u) t.

(** Copy column [f] of the instance [src] into the row [dst]. *)
Definition copy_field (src : URL) (dst : URL) (f : url_field) : URL :=
  match f with
  | F_original_url =>
      mkURL (pk dst) (original_url src) (short_code dst) (title dst)
            (description dst) (created_at dst) (created_by dst)
            (is_active dst) (expires_at dst) (click_count dst)
            (last_clicked dst)
  | F_short_code => set_short_code (short_code src) dst
  | F_title =>
      mkURL (pk dst) (original_url dst) (short_code dst) (title src)
            (description dst) (created_at dst) (created_by dst)
            (is_active dst) (expires_at dst) (click_count dst)
            (last_clicked dst)
  | F_description =>
      mkURL (pk dst) (original_url dst) (short_code dst) (title dst)
            (description src) (created_at dst) (created_by dst)
            (is_active dst) (expires_at dst) (click_count dst)
            (last_clicked dst)
  | F_created_by =>
      mkURL (pk dst) (original_url dst) (short_code dst) (title dst)
            (description dst) (created_at dst) (created_by src)
            (is_active dst) (expires_at dst) (click_count dst)
            (last_clicked dst)
  | F_is_active =>
      mkURL (pk dst) (original_url dst) (short_code dst) (title dst)
            (description dst) (created_at dst) (created_by dst)
            (is_active src) (expires_at dst) (click_count dst)
            (last_clicked dst)
  | F_expires_at => set_expires_at (expires_at src) dst
  | F_click_count => set_click_count (click_count src) dst
  | F_last_clicked => set_last_clicked (last_clicked src) dst
  end.

Definition all_url_fields : list url_field :=
  [F_original_url; F_short_code; F_title; F_description; F_created_by;
   F_is_active; F_expires_at; F_click_count; F_last_clicked].

(** The persistent store: both tables and their id sequences. *)
Record DB := mkDB {
  urls : list URL;
  clicks : list Click;
  url_seq : nat;
  click_seq : nat
}.

(** [exn] is declared here because a flash message can quote one. *)
Inductive exn :=
| Http404
| MultipleObjectsReturned
| IntegrityError
| DatabaseError
| OverflowError
| ValueError
| AttributeError
| JSONDecodeError
| UnicodeDecodeError
| NoReverseMatch
| DisallowedRedirect.

(** The texts handed to [django.contrib.messages]. *)
Inductive Message :=
| Msg_enter_valid_url             (* error: 'Please enter a valid URL' *)
| Msg_custom_code_exists          (* error: 'Custom code already exists...' *)
| Msg_created (short_url : string)  (* success: 'Short URL created: ...' *)
| Msg_error_creating (e : exn).   (* error: 'Error creating short URL: ...' *)

(** The store, the positions reached in the two oracles, and the flash
    messages queued so far. *)
Record World := mkWorld {
  db : DB;
  ticks : nat;                    (* calls of [timezone.now()] so far *)
  draws : nat;                    (* calls of [random.choice] so far *)
  flash : list Message
}.

Record UserAgent := mkUserAgent {
  browser_family : string;
  browser_version_string : string;
  os_family : string;
  os_version_string : string;
  device_family : string
}.

(** What the program reads from outside the repository. *)
Record Externals := mkExternals {
  clock : nat -> datetime;        (* the n-th value of [timezone.now()] *)
  rand : nat -> nat;              (* the n-th value of [_randbelow] *)
  ua_parse : string -> UserAgent; (* [user_agents.parse] *)
  DOMAIN : option string;         (* [settings.DOMAIN], when defined *)
  clean_ipv6_address : string -> option string;
                                  (* [django.utils.ipv6]: the normal form of
                                     an IPv6 address, [None] when it raises
                                     [ValidationError] *)
  HttpResponseRedirect_raises : string -> option exn;
                                  (* what [HttpResponseRedirect(target)]
                                     raises, if anything *)
  ATOMIC_REQUESTS : bool          (* [DATABASES['default']['ATOMIC_REQUESTS']],
                                     [False] when the settings do not set it *)
}.

(** ** Exceptions and the monad of the views *)

Inductive outcome (A : Type) :=
| Return (a : A)
| Raise (e : exn)
| Diverge.                        (* the fuel of a [while True] ran out *)
Arguments Return {A} a.
Arguments Raise {A} e.
Arguments Diverge {A}.

Definition M (A : Type) : Type := World -> outcome A * World.

Definition ret {A} (a : A) : M A := fun w => (Return a, w).
Definition raise {A} (e : exn) : M A := fun w => (Raise e, w).
Definition diverge {A} : M A := fun w => (Diverge, w).

Definition bind {A B} (c : M A) (k : A -> M B) : M B :=
  fun w =>
    match c w with
    | (Return a, w') => k a w'
    | (Raise e, w') => (Raise e, w')
    | (Diverge, w') => (Diverge, w')
    end.

(** [try: c except <handled>: h]; the handler says which exceptions it
    takes.  A loop that does not return is not an exception. *)
Definition try_except {A} (c : M A) (h : exn -> option (M A)) : M A :=
  fun w =>
    match c w with
    | (Raise e, w') =>
        match h e with
        | Some k => k w'
        | None => (Raise e, w')
        end
    | r => r
    end.

Declare Scope py_scope.
Delimit Scope py_scope with py.
Notation "x <- c ;; k" := (bind c (fun x => k))
  (at level 61, c at next level, right associativity) : py_scope.
Notation "c ;;; k" := (bind c (fun _ => k))
  (at level 61, right associativity) : py_scope.
Open Scope py_scope.

Definition get_db : M DB := fun w => (Return (db w), w).
Definition put_db (d : DB) : M unit :=
  fun w => (Return tt, mkWorld d (ticks w) (draws w) (flash w)).

(** [messages.error] / [messages.success] *)
Definition messages_add (m : Message) : M unit :=
  fun w => (Return tt, mkWorld (db w) (ticks w) (draws w) (flash w ++ [m])).

Section Model.

Variable E : Externals.

(** [timezone.now()] *)
Definition timezone_now : M datetime :=
  fun w => (Return (clock E (ticks w)), mkWorld (db w) (S (ticks w)) (draws w) (flash w)).

(** [timedelta(days=d)], in microseconds. *)
Definition timedelta_days (d : Z) : M Z :=
  if Z.abs d <=? Py.max_timedelta_days then ret (d * Py.us_per_day)
  else raise OverflowError.

(** [t + delta] on a [datetime]. *)
Definition datetime_add (t : datetime) (delta : Z) : M datetime :=
  let r := t + delta in
  if (0 <=? r) && (r <? Py.datetime_end) then ret r else raise OverflowError.

(** [random.choice(chars)] *)
Definition random_choice (chars : string) : M ascii :=
  fun w =>
    let i := Nat.modulo (rand E (draws w)) (String.length chars) in
    (Return (match String.get i chars with Some c => c | None => zero end),
     mkWorld (db w) (ticks w) (S (draws w)) (flash w)).

(** [''.join(random.choice(chars) for _ in range(n))] *)
Fixpoint random_string (n : nat) (chars : string) : M string :=
  match n with
  | O => ret EmptyString
  | S n' =>
      c <- random_choice chars ;;
      r <- random_string n' chars ;;
      ret (String c r)
  end.

(** *** The ORM operations the source calls *)

(** [URL.objects.filter(short_code=code)] *)
Definition filter_short_code (code : string) (d : DB) : list URL :=
  filter (fun u => String.eqb (short_code u) code) (urls d).

(** [URL.objects.filter(short_code=code).exists()] *)
Definition URL_exists (code : string) : M bool :=
  d <- get_db ;;
  ret (match filter_short_code code d with [] => false | _ => true end).

(** [get_object_or_404(URL, short_code=code, is_active=True)] *)
Definition get_object_or_404_active (code : string) : M URL :=
  d <- get_db ;;
  match filter (fun u => String.eqb (short_code u) code
                         && Bool.eqb (is_active u) true) (urls d) with
  | [] => raise Http404
  | [u] => ret u
  | _ => raise MultipleObjectsReturned
  end.

Definition has_pk (p : nat) (u : URL) : bool :=
  match pk u with Some q => Nat.eqb p q | None => false end.

(** Does another row than [p] already carry [code]? (the UNIQUE index) *)
Definition code_taken_by_other (code : string) (p : option nat) (d : DB) : bool :=
  existsb (fun r => String.eqb (short_code r) code
                    && negb (match p with Some q => has_pk q r | None => false end))
          (urls d).

(** INSERT of a [URL]: [created_at] is [auto_now_add]. *)
Definition URL_insert (self : URL) : M URL :=
  t <- timezone_now ;;
  d <- get_db ;;
  if code_taken_by_other (short_code self) None d then raise IntegrityError
  else
    let row := mkURL (Some (match pk self with Some p => p | None => url_seq d end))
                     (original_url self) (short_code self) (title self)
                     (description self) (Some t) (created_by self)
                     (is_active self) (expires_at self) (click_count self)
                     (last_clicked self) in
    put_db (mkDB (urls d ++ [row]) (clicks d)
                 (match pk self with Some _ => url_seq d | None => S (url_seq d) end)
                 (click_seq d)) ;;;
    ret row.

(** UPDATE of the columns [fs] of the row whose key is [p]. *)
Definition URL_update (p : nat) (fs : list url_field) (self : URL) : M URL :=
  d <- get_db ;;
  if negb (existsb (has_pk p) (urls d)) then raise DatabaseError
  else if existsb (fun f => match f with F_short_code => true | _ => false end) fs
          && code_taken_by_other (short_code self) (Some p) d
  then raise IntegrityError
  else
    put_db (mkDB (map (fun r => if has_pk p r
                                then fold_left (copy_field self) fs r else r)
                      (urls d))
                 (clicks d) (url_seq d) (click_seq d)) ;;;
    ret self.

(** [models.Model.save(update_fields=...)] on a [URL]. *)
Definition Model_save (update_fields : option (list url_field)) (self : URL) : M URL :=
  match update_fields with
  | Some [] => ret self
  | Some fs =>
      match pk self with
      | None => raise ValueError
      | Some p => URL_update p fs self
      end
  | None =>
      match pk self with
      | None => URL_insert self
      | Some p =>
          d <- get_db ;;
          if existsb (has_pk p) (urls d) then URL_update p all_url_fields self
          else URL_insert self
      end
  end.

(** [GenericIPAddressField.get_db_prep_value]: a text that holds a colon
    is put in the normal form of an IPv6 address when it is one, and kept
    as it is when it is none; the empty text is stored as NULL. *)
Definition ip_address_prep (value : option string) : option string :=
  match value with
  | None => None
  | Some v =>
      let prepared :=
        if Py.truthy v && Py.contains_char ":" v then
          match clean_ipv6_address E v with
          | Some a => a
          | None => v
          end
        else v in
      if Py.truthy prepared then Some prepared else None
  end.

(** [Click.objects.create(...)]: [clicked_at] is [auto_now_add];
    [ip_address] is NOT NULL; [url] is a foreign key.  The result is the
    row as it is stored. *)
Definition Click_objects_create (u : URL) (ip : option string) (ua : string)
    (ref : option string) (br os dev : string) : M Click :=
  t <- timezone_now ;;
  d <- get_db ;;
  match pk u, ip_address_prep ip with
  | Some p, Some a =>
      if existsb (has_pk p) (urls d) then
        let row := mkClick (Some (click_seq d)) p (Some t) (Some a) ua ref br
                           os dev EmptyString EmptyString in
        put_db (mkDB (urls d) (clicks d ++ [row]) (url_seq d) (S (click_seq d))) ;;;
        ret row
      else raise IntegrityError
  | _, _ => raise IntegrityError
  end.

(** *** [class URL] *)

(** [URL.generate_short_code]: [fuel] bounds the iterations of
    [while True]. *)
Fixpoint generate_short_code (fuel : nat) : M string :=
  match fuel with
  | O => diverge
  | S fuel' =>
      code <- random_string 6 Py.ascii_letters_digits ;;
      taken <- URL_exists code ;;
      if negb taken then ret code else generate_short_code fuel'
  end.

(** [URL.save]; returns the instance as the call leaves it. *)
Definition URL_save (fuel : nat) (update_fields : option (list url_field))
    (self : URL) : M URL :=
  self' <- (if negb (Py.truthy (short_code self))
            then code <- generate_short_code fuel ;;
                 ret (set_short_code code self)
            else ret self) ;;
  Model_save update_fields self'.

(** [URL.get_short_url] *)
Definition get_short_url (self : URL) : string :=
  (match DOMAIN E with Some dmn => dmn | None => "http://localhost:8000" end)
  ++ "/" ++ short_code self.

(** [URL.is_expired] *)
Definition is_expired (self : URL) : M bool :=
  match expires_at self with
  | Some e => now <- timezone_now ;; ret (e <? now)
  | None => ret false
  end.

(** [URL.increment_click] *)
Definition increment_click (fuel : nat) (self : URL) : M URL :=
  let self1 := set_click_count (click_count self + 1) self in
  now <- timezone_now ;;
  let self2 := set_last_clicked (Some now) self1 in
  URL_save fuel (Some [F_click_count; F_last_clicked]) self2.

End Model.

(** ** Requests and responses *)

Inductive http_method := GET | POST | OTHER.

(** [request.POST] of the creation form: a missing key is [None]. *)
Record PostForm := mkPostForm {
  f_original_url : option string;
  f_title : option string;
  f_description : option string;
  f_custom_code : option string;
  f_expires_in_days : option string
}.

(** The keys of [request.META] the views read. *)
Record Meta := mkMeta {
  HTTP_X_FORWARDED_FOR : option string;
  REMOTE_ADDR : option string;
  HTTP_USER_AGENT : option string;
  HTTP_REFERER : option string
}.

(** A parsed JSON document; only strings and objects are looked into. *)
#[warnings="-register-all"]
Inductive json :=
| JNull
| JBool (b : bool)
| JNumber (n : Z)
| JString (s : string)
| JArray (items : list json)
| JObject (members : list (string * json)).

(** What [json.loads(request.body)] does: the document, or the exception
    it raises ([JSONDecodeError] on a text that is not JSON,
    [UnicodeDecodeError] on bytes that are no text, ...). *)
Inductive loads_result :=
| Loaded (j : json)
| Loads_raises (e : exn).

Record HttpRequest := mkRequest {
  method : http_method;
  POST_data : PostForm;
  body_json : loads_result;       (* [json.loads(request.body)] *)
  META : Meta;
  user : option nat               (* the authenticated user, if any *)
}.

Inductive json_reply :=
| J_error_url_required
| J_error_invalid_json
| J_error_method_not_allowed
| J_error_exception (e : exn)
| J_created (short_url short_code original_url : string).

Inductive Response :=
| HttpResponseRedirect (location : string)
| Redirect_home                          (* [redirect('home')] *)
| Redirect_url_detail (code : string)    (* [redirect('url_detail', ...)] *)
| Render_expired (url_obj : URL)         (* 'shortener/expired.html' *)
| JsonResponse (reply : json_reply) (status : nat)
| HttpResponseNotAllowed.

Definition or_default (o : option string) (d : string) : string :=
  match o with Some s => s | None => d end.

(** [dict.get(key, default)] on a JSON object; any other JSON value has no
    [get]. *)
Fixpoint assoc_get (key : string) (ms : list (string * json)) : option json :=
  match ms with
  | [] => None
  | (k, v) :: r => if String.eqb k key then Some v else assoc_get key r
  end.

Definition json_get (j : json) (key : string) (default : json) : M json :=
  match j with
  | JObject ms => ret (match assoc_get key ms with Some v => v | None => default end)
  | _ => raise AttributeError
  end.

(** [v.strip()] on a JSON value: only a string has [strip]. *)
Definition json_strip (v : json) : M string :=
  match v with
  | JString s => ret (Py.strip s)
  | _ => raise AttributeError
  end.

(** ** The views ([base/views.py]) and the routes ([base/urls.py]) *)

Section Views.

Variable E : Externals.

(** [reverse('url_detail', kwargs={'short_code': code})]: the route is
    ['<str:short_code>/stats/'], and [str] matches a non-empty text without
    a slash. *)
Definition str_converter_matches (code : string) : bool :=
  Py.truthy code && negb (Py.contains_char "/" code).

Definition redirect_to_url_detail (code : string) : M Response :=
  if str_converter_matches code then ret (Redirect_url_detail code)
  else raise NoReverseMatch.

Definition get_client_ip (request : HttpRequest) : option string :=
  match HTTP_X_FORWARDED_FOR (META request) with
  | Some x_forwarded_for =>
      if Py.truthy x_forwarded_for then Some (Py.split_comma_head x_forwarded_for)
      else REMOTE_ADDR (META request)
  | None => REMOTE_ADDR (META request)
  end.

(** [parse_user_agent]: the three formatted fields. *)
Definition parse_user_agent (user_agent_string : string) : string * string * string :=
  let ua := ua_parse E user_agent_string in
  (browser_family ua ++ " " ++ browser_version_string ua,
   os_family ua ++ " " ++ os_version_string ua,
   device_family ua).

(** The normalisation both creation views apply (lines 59-60, 203-204). *)
Definition add_protocol (original_url : string) : string :=
  if negb (Py.startswith original_url "http://"
           || Py.startswith original_url "https://")
  then "https://" ++ original_url
  else original_url.

(** Lines 70-75 of [create_short_url], "Handle custom short code"; [inl]
    is the early [return]. *)
Definition handle_custom_code (custom_code : string) (url_obj : URL)
    : M (Response + URL) :=
  if Py.truthy custom_code then
    taken <- URL_exists custom_code ;;
    if taken then
      messages_add Msg_custom_code_exists ;;;
      ret (inl Redirect_home)
    else ret (inr (set_short_code custom_code url_obj))
  else ret (inr url_obj).

(** Lines 77-83 of [create_short_url], "Handle expiration". *)
Definition handle_expiration (expires_in_days : option string) (url_obj : URL)
    : M URL :=
  if Py.truthy (or_default expires_in_days "") then
    try_except
      (match Py.int (or_default expires_in_days "") with
       | None => raise ValueError
       | Some days =>
           now <- timezone_now E ;;
           delta <- timedelta_days days ;;
           e <- datetime_add now delta ;;
           ret (set_expires_at (Some e) url_obj)
       end)
      (fun e => match e with
                | ValueError => Some (ret url_obj)
                | _ => None
                end)
  else ret url_obj.

(** [HttpResponseRedirect(redirect_to)]: the constructor raises on a
    target it refuses ([ValueError] of [urlsplit], [DisallowedRedirect] on
    a scheme other than http, https and ftp). *)
Definition new_HttpResponseRedirect (redirect_to : string) : M Response :=
  match HttpResponseRedirect_raises E redirect_to with
  | Some e => raise e
  | None => ret (HttpResponseRedirect redirect_to)
  end.

(** [create_short_url] *)
Definition create_short_url (fuel : nat) (request : HttpRequest) : M Response :=
  match method request with
  | OTHER => ret HttpResponseNotAllowed
  | GET => ret Redirect_home
  | POST =>
      let original_url' := Py.strip (or_default (f_original_url (POST_data request)) "") in
      let title' := Py.strip (or_default (f_title (POST_data request)) "") in
      let description' := Py.strip (or_default (f_description (POST_data request)) "") in
      let custom_code := Py.strip (or_default (f_custom_code (POST_data request)) "") in
      let expires_in_days := f_expires_in_days (POST_data request) in
      if negb (Py.truthy original_url') then
        messages_add Msg_enter_valid_url ;;;
        ret Redirect_home
      else
        let original_url' := add_protocol original_url' in
        try_except
          (let url_obj := mkURL None original_url' "" title' description' None
                                (user request) true None 0 None in
           r <- handle_custom_code custom_code url_obj ;;
           match r with
           | inl response => ret response
           | inr url_obj =>
               url_obj <- handle_expiration expires_in_days url_obj ;;
               url_obj <- URL_save E fuel None url_obj ;;
               messages_add (Msg_created (get_short_url E url_obj)) ;;;
               redirect_to_url_detail (short_code url_obj)
           end)
          (fun e => Some (messages_add (Msg_error_creating e) ;;;
                          ret Redirect_home))
  end.

(** [redirect_url] *)
Definition redirect_url (fuel : nat) (request : HttpRequest) (short_code' : string)
    : M Response :=
  url_obj <- get_object_or_404_active short_code' ;;
  expired <- is_expired E url_obj ;;
  if expired then ret (Render_expired url_obj)
  else
    let user_agent_string := or_default (HTTP_USER_AGENT (META request)) "" in
    let '(br, os, dev) := parse_user_agent user_agent_string in
    click <- Click_objects_create E url_obj (get_client_ip request)
               user_agent_string (HTTP_REFERER (META request)) br os dev ;;
    url_obj <- increment_click E fuel url_obj ;;
    new_HttpResponseRedirect (original_url url_obj).

(** [api_create_url] *)
Definition api_create_url (fuel : nat) (request : HttpRequest) : M Response :=
  match method request with
  | POST =>
      try_except
        (data <- match body_json request with
                 | Loaded j => ret j
                 | Loads_raises e => raise e
                 end ;;
         v <- json_get data "url" (JString "") ;;
         original_url' <- json_strip v ;;
         if negb (Py.truthy original_url') then
           ret (JsonResponse J_error_url_required 400)
         else
           let original_url' := add_protocol original_url' in
           url_obj <- URL_save E fuel None
                        (mkURL None original_url' "" "" "" None (user request)
                               true None 0 None) ;;
           ret (JsonResponse (J_created (get_short_url E url_obj)
                                        (short_code url_obj)
                                        (original_url url_obj)) 200))
        (fun e => match e with
                  | JSONDecodeError =>
                      Some (ret (JsonResponse J_error_invalid_json 400))
                  | _ => Some (ret (JsonResponse (J_error_exception e) 500))
                  end)
  | _ => ret (JsonResponse J_error_method_not_allowed 405)
  end.

End Views.

(** ** Requests running side by side

    One [redirect_url] call talks to the store three times: the SELECT of
    [get_object_or_404], the INSERT of [Click.objects.create] and the
    UPDATE of [increment_click].  Each is one statement for the store; what
    lies between them is private to the request.  A [thread] is a call
    stopped before its next statement, and a schedule says which call moves
    next, or which call sees its next statement fail in the store.  The
    pool shows the effect of a statement as soon as it returns, as the
    store does without request transactions; [served_alone] adds what the
    handler does around one call when requests run in a transaction. *)

Section Threads.

Variable E : Externals.

Inductive thread :=
| T_start (request : HttpRequest) (code : string)
| T_loaded (request : HttpRequest) (url_obj : URL)
| T_clicked (request : HttpRequest) (url_obj : URL)
| T_done (result : outcome Response).

Definition finish {A} (r : outcome A * World) (k : A -> thread) : thread * World :=
  match r with
  | (Return a, w) => (k a, w)
  | (Raise e, w) => (T_done (Raise e), w)
  | (Diverge, w) => (T_done Diverge, w)
  end.

(** Lines 99-114 of [views.py]: the expiry test and the INSERT. *)
Definition record_click (request : HttpRequest) (url_obj : URL)
    : M (Response + Click) :=
  expired <- is_expired E url_obj ;;
  if expired then ret (inl (Render_expired url_obj))
  else
    let user_agent_string := or_default (HTTP_USER_AGENT (META request)) "" in
    let '(br, os, dev) := parse_user_agent E user_agent_string in
    click <- Click_objects_create E url_obj (get_client_ip request)
               user_agent_string (HTTP_REFERER (META request)) br os dev ;;
    ret (inr click).

Definition thread_step (fuel : nat) (t : thread) (w : World) : thread * World :=
  match t with
  | T_start request code =>
      finish (get_object_or_404_active code w) (T_loaded request)
  | T_loaded request url_obj =>
      finish (record_click request url_obj w)
             (fun r => match r with
                       | inl response => T_done (Return response)
                       | inr _ => T_clicked request url_obj
                       end)
  | T_clicked request url_obj =>
      finish ((u <- increment_click E fuel url_obj ;;
               new_HttpResponseRedirect E (original_url u)) w)
             (fun response => T_done (Return response))
  | T_done r => (T_done r, w)
  end.

(** The next statement of the call is refused by the store: the call runs
    up to that statement, which writes nothing, and the exception leaves
    the view.  Before its INSERT the call has tested the expiry and read
    the clock for [clicked_at]; before its UPDATE it has read the clock for
    [last_clicked] (and, for a link without a code, drawn a candidate whose
    lookup is the statement refused).  A call on an expired link has no
    statement left: it ends with the expiry page. *)
Definition thread_fail (t : thread) (w : World) : thread * World :=
  match t with
  | T_start _ _ => (T_done (Raise DatabaseError), w)
  | T_loaded request url_obj =>
      finish ((expired <- is_expired E url_obj ;;
               if expired then ret (Render_expired url_obj)
               else (timezone_now E ;;; raise DatabaseError)) w)
             (fun response => T_done (Return response))
  | T_clicked request url_obj =>
      finish ((timezone_now E ;;;
               (if negb (Py.truthy (short_code url_obj))
                then random_string E 6 Py.ascii_letters_digits ;;;
                     raise DatabaseError
                else raise DatabaseError)) w)
             (fun response : Response => T_done (Return response))
  | T_done r => (T_done r, w)
  end.

Inductive event :=
| Ev_step (i : nat)
| Ev_fail (i : nat).

Fixpoint set_nth {A} (i : nat) (x : A) (l : list A) : list A :=
  match l, i with
  | [], _ => []
  | _ :: r, O => x :: r
  | y :: r, S j => y :: set_nth j x r
  end.

Definition exec_event (fuel : nat) (ev : event) (pw : list thread * World)
    : list thread * World :=
  let '(pool, w) := pw in
  match ev with
  | Ev_step i =>
      match nth_error pool i with
      | Some t => let '(t', w') := thread_step fuel t w in (set_nth i t' pool, w')
      | None => (pool, w)
      end
  | Ev_fail i =>
      match nth_error pool i with
      | Some t => let '(t', w') := thread_fail t w in (set_nth i t' pool, w')
      | None => (pool, w)
      end
  end.

Definition exec (fuel : nat) (evs : list event) (pw : list thread * World)
    : list thread * World :=
  fold_left (fun s ev => exec_event fuel ev s) evs pw.

Definition is_done (t : thread) : bool :=
  match t with T_done _ => true | _ => false end.

(** One call served alone, as the request handler runs it.  With
    [ATOMIC_REQUESTS] the handler runs the view inside
    [transaction.atomic]: an exception that leaves the view rolls the store
    back to what it was when the call began (the clock and the generator
    are not part of the store).  Without it every statement stays as it
    was committed. *)
Definition served_alone (fuel : nat) (evs : list event) (request : HttpRequest)
    (code : string) (w : World) : thread * World :=
  let '(pool, w') := exec fuel evs ([T_start request code], w) in
  let t := nth 0 pool (T_start request code) in
  match t with
  | T_done (Raise _) =>
      if ATOMIC_REQUESTS E
      then (t, mkWorld (db w) (ticks w') (draws w') (flash w'))
      else (t, w')
  | _ => (t, w')
  end.

(** [n] calls of [redirect_url], each finished before the next begins. *)
Fixpoint redirect_in_turn (fuel : nat) (requests : list HttpRequest)
    (code : string) (w : World) : list (outcome Response) * World :=
  match requests with
  | [] => ([], w)
  | request :: rest =>
      let '(r, w') := redirect_url E fuel request code w in
      let '(rs, w'') := redirect_in_turn fuel rest code w' in
      (r :: rs, w'')
  end.

End Threads.

(** ** Vocabulary of the statements *)

(** The code the generator draws at its attempt number [k] (from 0) when
    it starts in world [w]: six characters at oracle positions
    [draws w + 6 k ...]. *)
Fixpoint draw_string (E : Externals) (pos len : nat) : string :=
  match len with
  | O => EmptyString
  | S len' =>
      String (match String.get (Nat.modulo (rand E pos)
                                     (String.length Py.ascii_letters_digits))
                               Py.ascii_letters_digits with
              | Some c => c
              | None => zero
              end)
             (draw_string E (S pos) len')
  end.

Definition candidate (E : Externals) (w : World) (k : nat) : string :=
  draw_string E (draws w + 6 * k)%nat 6.

(** Some persisted row, active or not, carries [code]. *)
Definition code_in_use (code : string) (d : DB) : Prop :=
  exists u, In u (urls d) /\ short_code u = code.

(** What the schema guarantees of the [URL] table: [short_code] is unique,
    the primary key is unique and set. *)
Definition db_ok (d : DB) : Prop :=
  NoDup (map short_code (urls d))
  /\ NoDup (map pk (urls d))
  /\ Forall (fun u => pk u <> None) (urls d).

(** How a call that has written its click and its counter ends: with the
    redirect to [target], or with the exception that
    [HttpResponseRedirect] raises on that target. *)
Definition redirect_answer (E : Externals) (target : string) : outcome Response :=
  match HttpResponseRedirect_raises E target with
  | Some e => Raise e
  | None => Return (HttpResponseRedirect target)
  end.

(** The text under which the client address [ip] is stored: [ip] itself
    when it holds no colon, or when it holds one and is no IPv6 address;
    the normal form of the IPv6 address otherwise.  An empty text is not
    stored. *)
Inductive stored_as (E : Externals) (ip : string) : string -> Prop :=
| stored_plain :
    Py.contains_char ":" ip = false -> ip <> "" -> stored_as E ip ip
| stored_ipv6 (a : string) :
    Py.contains_char ":" ip = true -> clean_ipv6_address E ip = Some a ->
    a <> "" -> stored_as E ip a
| stored_verbatim :
    Py.contains_char ":" ip = true -> clean_ipv6_address E ip = None ->
    stored_as E ip ip.

(** The row of key [p] with its counter set to [n] and its last click to
    [t]; every other row as it was. *)
Definition with_click (p : nat) (n : Z) (t : option datetime) (us : list URL)
    : list URL :=
  map (fun r => if has_pk p r
                then mkURL (pk r) (original_url r) (short_code r) (title r)
                           (description r) (created_at r) (created_by r)
                           (is_active r) (expires_at r) n t
                else r) us.

(** The rows of [Click] that belong to the URL of key [p]. *)
Definition clicks_of (p : nat) (d : DB) : list Click :=
  filter (fun c => Nat.eqb (url c) p) (clicks d).

(** The counter of the row of key [p]. *)
Definition count_of (p : nat) (d : DB) : option Z :=
  match filter (has_pk p) (urls d) with
  | r :: _ => Some (click_count r)
  | [] => None
  end.

(** The number of clock readings [URL.is_expired] makes on [u]. *)
Definition expiry_reads (u : URL) : nat :=
  match expires_at u with Some _ => 1%nat | None => 0%nat end.

(** The world a recorded click on [u], of key [p], leaves behind. *)
Definition after_click (E : Externals) (request : HttpRequest) (u : URL)
    (p : nat) (w : World) : World :=
  let n := expiry_reads u in
  let ua := or_default (HTTP_USER_AGENT (META request)) "" in
  let '(br, os, dev) := parse_user_agent E ua in
  mkWorld
    (mkDB (with_click p (click_count u + 1)
                      (Some (clock E (S (ticks w + n)))) (urls (db w)))
          (clicks (db w)
           ++ [mkClick (Some (click_seq (db w))) p
                       (Some (clock E (ticks w + n)))
                       (ip_address_prep E (get_client_ip request)) ua
                       (HTTP_REFERER (META request)) br os dev "" ""])
          (url_seq (db w)) (S (click_seq (db w))))
    (S (S (ticks w + n))) (draws w) (flash w).

(** Is [code] carried by some persisted row? *)
Definition code_in_useb (code : string) (d : DB) : bool :=
  existsb (fun u => String.eqb (short_code u) code) (urls d).

(** The instance [self] as the INSERT persists it: key [id], creation
    time [t]. *)
Definition persisted (id : nat) (t : datetime) (self : URL) : URL :=
  mkURL (Some id) (original_url self) (short_code self) (title self)
        (description self) (Some t) (created_by self) (is_active self)
        (expires_at self) (click_count self) (last_clicked self).

(** The world with [n] more draws made. *)
Definition drawn (n : nat) (w : World) : World :=
  mkWorld (db w) (ticks w) (draws w + n) (flash w).

(** The world after the INSERT of [self]. *)
Definition after_insert (E : Externals) (self : URL) (w : World) : World :=
  mkWorld (mkDB (urls (db w)
                 ++ [persisted (url_seq (db w)) (clock E (ticks w)) self])
                (clicks (db w)) (S (url_seq (db w))) (click_seq (db w)))
          (S (ticks w)) (draws w) (flash w).

(** The world with one more reading of the clock made. *)
Definition ticked (w : World) : World :=
  mkWorld (db w) (S (ticks w)) (draws w) (flash w).

(** The world with message [m] queued. *)
Definition flashed (m : Message) (w : World) : World :=
  mkWorld (db w) (ticks w) (draws w) (flash w ++ [m]).

(** Can [now + days] be computed: is the number of days one a [timedelta]
    holds, and the sum a [datetime]? *)
Definition representable (now : datetime) (days : Z) : bool :=
  (Z.abs days <=? Py.max_timedelta_days)
  && (0 <=? now + days * Py.us_per_day)
  && (now + days * Py.us_per_day <? Py.datetime_end).

(** The code an allocation ends up with, and the number of draws it costs:
    the custom code when one is given and free, otherwise the first free
    candidate of the generator, within its fuel. *)
Inductive code_choice (E : Externals) (fuel : nat) (w : World)
    (custom_code : string) : string -> nat -> Prop :=
| choice_custom :
    custom_code <> "" ->
    ~ code_in_use custom_code (db w) ->
    code_choice E fuel w custom_code custom_code 0
| choice_generated (k : nat) :
    custom_code = "" ->
    (k < fuel)%nat ->
    (forall j, (j < k)%nat -> code_in_use (candidate E w j) (db w)) ->
    ~ code_in_use (candidate E w k) (db w) ->
    code_choice E fuel w custom_code (candidate E w k) (6 * S k).

(** The expiry an allocation ends up with, and the number of clock readings
    it costs: none when the field is absent, empty or not an integer,
    [now + days] when it is an integer and the sum can be computed. *)
Inductive expiry_choice (E : Externals) (w : World)
    (expires_in_days : option string) : option datetime -> nat -> Prop :=
| expiry_absent :
    or_default expires_in_days "" = "" ->
    expiry_choice E w expires_in_days None 0
| expiry_unparsable :
    Py.int (or_default expires_in_days "") = None ->
    expiry_choice E w expires_in_days None 0
| expiry_days (days : Z) :
    or_default expires_in_days "" <> "" ->
    Py.int (or_default expires_in_days "") = Some days ->
    representable (clock E (ticks w)) days = true ->
    expiry_choice E w expires_in_days
                  (Some (clock E (ticks w) + days * Py.us_per_day)) 1.

(** What a creation call may have written: nothing, or one row that holds
    the trimmed text [target] with its scheme completed, under a code no
    row carried. *)
Definition wrote_at_most (target : string) (w w' : World) : Prop :=
  clicks (db w') = clicks (db w)
  /\ (urls (db w') = urls (db w)
      \/ exists row,
           urls (db w') = (urls (db w) ++ [row])%list
           /\ target <> ""
           /\ original_url row = add_protocol target
           /\ ~ code_in_use (short_code row) (db w)).


(** The request with its [expires_in_days] field removed. *)
Definition without_days (request : HttpRequest) : HttpRequest :=
  mkRequest (method request)
            (mkPostForm (f_original_url (POST_data request))
                        (f_title (POST_data request))
                        (f_description (POST_data request))
                        (f_custom_code (POST_data request))
                        None)
            (body_json request) (META request) (user request).

(** The row [Click.objects.create] inserts for [request] on the URL of key
    [p], under the key [id] at time [t]. *)
Definition click_row (E : Externals) (request : HttpRequest) (p id : nat)
    (t : datetime) : Click :=
  let ua := or_default (HTTP_USER_AGENT (META request)) "" in
  let '(br, os, dev) := parse_user_agent E ua in
  mkClick (Some id) p (Some t) (ip_address_prep E (get_client_ip request)) ua
          (HTTP_REFERER (META request)) br os dev "" "".

(** The world once the click of [request] on [u] is inserted, the counter
    not yet written. *)
Definition after_record (E : Externals) (request : HttpRequest) (u : URL)
    (p : nat) (w : World) : World :=
  mkWorld
    (mkDB (urls (db w))
          (clicks (db w)
           ++ [click_row E request p (click_seq (db w))
                         (clock E (ticks w + expiry_reads u))])
          (url_seq (db w)) (S (click_seq (db w))))
    (S (ticks w + expiry_reads u)) (draws w) (flash w).

(** The world once the instance [u] has written its counter plus one. *)
Definition after_count (E : Externals) (u : URL) (p : nat) (w : World) : World :=
  mkWorld
    (mkDB (with_click p (click_count u + 1) (Some (clock E (ticks w)))
                      (urls (db w)))
          (clicks (db w)) (url_seq (db w)) (click_seq (db w)))
    (S (ticks w)) (draws w) (flash w).

(** The calls of a pool that have finished, and those that have inserted
    their click. *)
Definition done_count (pool : list thread) : nat :=
  List.length (filter is_done pool).

Definition has_clicked (t : thread) : bool :=
  match t with T_clicked _ _ | T_done _ => true | _ => false end.

Definition clicked_count (pool : list thread) : nat :=
  List.length (filter has_clicked pool).

(** A schedule without a refused statement. *)
Definition is_step (ev : event) : bool :=
  match ev with Ev_step _ => true | Ev_fail _ => false end.

(** The world with [n] more readings of the clock made. *)
Definition clock_read (n : nat) (w : World) : World :=
  mkWorld (db w) (ticks w + n) (draws w) (flash w).

(** Where one call of [redirect_url] for [request], on the link [u] of key
    [p], can stand when it started in world [w], and the world it stands
    in: before its INSERT, between its INSERT and its UPDATE, or after
    both; a statement the store refuses ends the call where it stands,
    with the clock read as far as the call got. *)
Inductive call_state (E : Externals) (request : HttpRequest) (u : URL)
    (p : nat) (w : World) : thread -> World -> Prop :=
| cs_start :
    call_state E request u p w (T_start request (short_code u)) w
| cs_loaded :
    call_state E request u p w (T_loaded request u) w
| cs_refused_select :
    call_state E request u p w (T_done (Raise DatabaseError)) w
| cs_refused_insert :
    call_state E request u p w (T_done (Raise DatabaseError))
               (clock_read (S (expiry_reads u)) w)
| cs_clicked :
    call_state E request u p w (T_clicked request u)
               (after_record E request u p w)
| cs_refused_update :
    call_state E request u p w (T_done (Raise DatabaseError))
               (clock_read 1 (after_record E request u p w))
| cs_done :
    call_state E request u p w
               (T_done (redirect_answer E (original_url u)))
               (after_click E request u p w).

(** A call on the link [u0] as the invariant of a pool sees it: not yet
    looked up; holding a copy of the row whose counter lies between the
    one of [u0] and [hi]; or over, both statements written.  Its request
    carries an address that can be stored. *)
Definition good_thread (E : Externals) (u0 : URL) (hi : Z) (t : thread) : Prop :=
  match t with
  | T_start request code =>
      code = short_code u0 /\ ip_address_prep E (get_client_ip request) <> None
  | T_loaded request u | T_clicked request u =>
      ip_address_prep E (get_client_ip request) <> None
      /\ exists n t',
           u = set_last_clicked t' (set_click_count n u0)
           /\ click_count u0 <= n <= hi
  | T_done r => r = redirect_answer E (original_url u0)
  end.

(** The invariant of a pool of calls on the link [u0], of key [p], that
    started in world [w0]: the [URL] table differs from the initial one in
    the counter and last click of that row only, the counter has grown by
    at least one as soon as a call is done and by at most the number of
    calls done, and the inserted clicks are those of the calls that got
    that far. *)
Definition pool_inv (E : Externals) (w0 : World) (u0 : URL) (p : nat)
    (s : list thread * World) : Prop :=
  let '(pool, w) := s in
  let hi := click_count u0 + Z.of_nat (done_count pool) in
  Forall (good_thread E u0 hi) pool
  /\ (exists n t,
         urls (db w) = with_click p n t (urls (db w0))
         /\ click_count u0 <= n <= hi
         /\ ((0 < done_count pool)%nat -> click_count u0 + 1 <= n))
  /\ (exists new,
         clicks (db w) = (clicks (db w0) ++ new)%list
         /\ Forall (fun c => url c = p) new
         /\ List.length new = clicked_count pool).

(** ** Further vocabulary: the store as the views keep it *)

(** What holds of a store that only the views have written: the
    uniqueness the schema declares, no empty code, keys below the
    sequences, and every click on an existing link. *)
Definition store_inv (d : DB) : Prop :=
  db_ok d
  /\ Forall (fun u => short_code u <> "") (urls d)
  /\ Forall (fun u => exists q, pk u = Some q /\ (q < url_seq d)%nat) (urls d)
  /\ Forall (fun c => existsb (has_pk (url c)) (urls d) = true) (clicks d)
  /\ NoDup (map click_pk (clicks d))
  /\ Forall (fun c => exists i, click_pk c = Some i /\ (i < click_seq d)%nat)
            (clicks d).

(** Every link's counter is the number of its [Click] rows. *)
Definition counts_consistent (d : DB) : Prop :=
  forall u q, In u (urls d) -> pk u = Some q ->
              click_count u = Z.of_nat (List.length (clicks_of q d)).

(** The store with [row] appended to the [URL] table. *)
Definition inserted_db (d : DB) (row : URL) : DB :=
  mkDB (urls d ++ [row]) (clicks d) (S (url_seq d)) (click_seq d).

(** The columns of a link that a redirect has no business with: all but
    [click_count] and [last_clicked]. *)
Definition static_fields (u : URL) : URL :=
  set_last_clicked None (set_click_count 0 u).

(** The total of clicks that [home] and [analytics_dashboard] show:
    [Click.objects.count()]. *)
Definition total_clicks (d : DB) : nat := List.length (clicks d).

(** The sum of the counters of all links. *)
Definition sum_click_count (us : list URL) : Z :=
  fold_right (fun u acc => click_count u + acc) 0 us.

(** A row as a creation view has just inserted it into the store [d]. *)
Definition fresh_row (d : DB) (row : URL) : Prop :=
  pk row = Some (url_seq d)
  /\ short_code row <> ""
  /\ ~ code_in_use (short_code row) d
  /\ is_active row = true
  /\ click_count row = 0
  /\ last_clicked row = None.

(** The request with the text fields of its form already trimmed. *)
Definition trimmed_form (request : HttpRequest) : HttpRequest :=
  mkRequest (method request)
            (mkPostForm (option_map Py.strip (f_original_url (POST_data request)))
                        (option_map Py.strip (f_title (POST_data request)))
                        (option_map Py.strip (f_description (POST_data request)))
                        (option_map Py.strip (f_custom_code (POST_data request)))
                        (f_expires_in_days (POST_data request)))
            (body_json request) (META request) (user request).

(** The text [api_create_url] reads from a JSON body: the string under the
    key ["url"], the empty string when an object has no such key, and
    nothing when the body is not an object or the member not a string. *)
Definition json_url_text (j : json) : option string :=
  match j with
  | JObject members =>
      match assoc_get "url" members with
      | None => Some ""
      | Some (JString s) => Some s
      | Some _ => None
      end
  | _ => None
  end.

(** ** The routes ([base/urls.py]) *)

(** What a path is dispatched to. *)
Inductive view_call :=
| Call_home
| Call_create_short_url
| Call_analytics_dashboard
| Call_my_urls
| Call_api_create_url
| Call_redirect_url (code : string)
| Call_url_detail (code : string).

(** The text before the first slash of [s], and the text after that slash
    when there is one. *)
Fixpoint split_slash (s : string) : string * option string :=
  match s with
  | EmptyString => (EmptyString, None)
  | String c r =>
      if Ascii.eqb c "/" then (EmptyString, Some r)
      else let '(a, b) := split_slash r in (String c a, b)
  end.

(** [urlpatterns], tried in order on the path that is left once the prefix
    under which [base.urls] is included has been taken off; [<str:...>]
    matches one or more characters other than a slash. *)
Definition resolve (path : string) : option view_call :=
  if String.eqb path "" then Some Call_home
  else if String.eqb path "create/" then Some Call_create_short_url
  else if String.eqb path "analytics/" then Some Call_analytics_dashboard
  else if String.eqb path "my-urls/" then Some Call_my_urls
  else if String.eqb path "api/create/" then Some Call_api_create_url
  else
    match split_slash path with
    | (segment, Some rest) =>
        if Py.truthy segment then
          if String.eqb rest "" then Some (Call_redirect_url segment)
          else if String.eqb rest "stats/" then Some (Call_url_detail segment)
          else None
        else None
    | (_, None) => None
    end.

(** ** Calls side by side, with refusals *)

(** The call has answered with the redirect. *)
Definition succeeded (t : thread) : bool :=
  match t with
  | T_done (Return (HttpResponseRedirect _)) => true
  | _ => false
  end.

(** The call has inserted its click and not yet written the counter. *)
Definition is_clicked (t : thread) : bool :=
  match t with T_clicked _ _ => true | _ => false end.

(** A call on the link [u0], whatever its request: not yet looked up,
    holding a copy of the row whose counter lies between the one of [u0]
    and [hi], or over. *)
Definition open_thread (u0 : URL) (hi : Z) (t : thread) : Prop :=
  match t with
  | T_start _ code => code = short_code u0
  | T_loaded _ u | T_clicked _ u =>
      exists n t',
        u = set_last_clicked t' (set_click_count n u0)
        /\ click_count u0 <= n <= hi
  | T_done _ => True
  end.

(** The invariant of a pool of calls on the link [u0], of key [p], that
    started in world [w0], under any schedule.  With [k] the number of
    UPDATEs made so far: the counter has grown by at most [k]; the calls
    that answered with the redirect are among those [k]; and the clicks
    inserted are at least those of the [k] calls and of the calls that
    wait for their UPDATE. *)
Definition pool_inv_any (w0 : World) (u0 : URL) (p : nat)
    (s : list thread * World) : Prop :=
  let '(pool, w) := s in
  let done := List.length (filter succeeded pool) in
  let waiting := List.length (filter is_clicked pool) in
  exists k : nat,
    Forall (open_thread u0 (click_count u0 + Z.of_nat k)) pool
    /\ (exists n t,
           urls (db w) = with_click p n t (urls (db w0))
           /\ click_count u0 <= n <= click_count u0 + Z.of_nat k)
    /\ (exists new,
           clicks (db w) = (clicks (db w0) ++ new)%list
           /\ Forall (fun c => url c = p) new
           /\ (done <= k)%nat
           /\ (k + waiting <= List.length new <= clicked_count pool)%nat).

(** ** Sample values

    A small store and a few requests on which the statements below are
    evaluated. *)

Module Sample.

(** The user agent of the visits below, and what [user_agents.parse]
    makes of it; any other text is taken as unknown. *)
Definition firefox : string :=
  "Mozilla/5.0 (X11; Linux x86_64; rv:120.0) Gecko/20100101 Firefox/120.0".

Definition ua (s : string) : UserAgent :=
  if String.eqb s firefox
  then mkUserAgent "Firefox" "120.0" "Linux" "" "Other"
  else mkUserAgent "Other" "" "Other" "" "Other".

(** Django's normal form of the one IPv6 address used below. *)
Definition ipv6 (s : string) : option string :=
  if String.eqb s "2001:0DB8:0:0:0:0:0:1" then Some "2001:db8::1" else None.

(** The one target used below that [HttpResponseRedirect] refuses:
    [urlsplit] raises [ValueError] on a bracket that is never closed. *)
Definition refusal (target : string) : option exn :=
  if String.eqb target "https://[" then Some ValueError else None.

(** A clock that advances by one microsecond per reading, from a moment in
    the year 2026; a generator whose draws are 0, 1, 2, ...; requests
    outside a transaction, as when the settings say nothing. *)
Definition t0 : datetime := 63900000000000000.
Definition E : Externals :=
  mkExternals (fun n => t0 + Z.of_nat n) (fun n => n) ua None ipv6 refusal false.

(** The same with every request in a transaction. *)
Definition E_atomic : Externals :=
  mkExternals (clock E) (rand E) ua None ipv6 refusal true.

(** The same with a clock that reads one instant again and again. *)
Definition E_still : Externals :=
  mkExternals (fun _ => t0) (rand E) ua None ipv6 refusal false.

Definition link (p : nat) (code target : string) (active : bool)
    (expires : option datetime) (n : Z) : URL :=
  mkURL (Some p) target code "" "" (Some (t0 - 1000)) None active expires n None.

Definition store : DB :=
  mkDB [link 1 "docs" "https://example.com/docs" true None 4;
        link 2 "old" "https://example.com/old" false None 0;
        link 3 "gone" "https://example.com/gone" true (Some (t0 - 5)) 7;
        link 4 "abcdef" "https://example.com/a" true (Some (t0 + 1000000)) 0]
       [] 5 1.

Definition world : World := mkWorld store 0 0 [].

(** A store whose one link points to a target that is no URL, as the
    creation views store it for the text ["["]. *)
Definition broken : World :=
  mkWorld (mkDB [link 1 "bad" "https://[" true None 0] [] 2 1) 0 0 [].

Definition meta : Meta :=
  mkMeta None (Some "192.0.2.7") (Some firefox) (Some "https://ref.example/").

(** A body that is no JSON text, as the body of a GET or of a form is. *)
Definition no_json : loads_result := Loads_raises JSONDecodeError.

Definition visit : HttpRequest :=
  mkRequest GET (mkPostForm None None None None None) no_json meta None.

(** A visit through a proxy, from an IPv6 address. *)
Definition visit_v6 : HttpRequest :=
  mkRequest GET (mkPostForm None None None None None) no_json
            (mkMeta (Some "2001:0DB8:0:0:0:0:0:1,10.0.0.1") (Some "10.0.0.9")
                    (Some firefox) None)
            None.

(** A visit that carries no client address at all. *)
Definition anonymous : HttpRequest :=
  mkRequest GET (mkPostForm None None None None None) no_json
            (mkMeta None None (Some firefox) None) None.

(** A visit whose forwarding header starts with a comma: the first hop is
    the empty text. *)
Definition visit_blank : HttpRequest :=
  mkRequest GET (mkPostForm None None None None None) no_json
            (mkMeta (Some ",10.0.0.1") (Some "10.0.0.9") (Some firefox) None)
            None.

Definition form (target : string) (custom days : option string) : HttpRequest :=
  mkRequest POST (mkPostForm (Some target) None None custom days) no_json meta
            None.

Definition api (body : loads_result) : HttpRequest :=
  mkRequest POST (mkPostForm None None None None None) body meta None.

End Sample.

(** A second sample: a store in which the counters match the clicks, and
    a generator that draws the letters of ["create"]. *)
Module Ledger.

Definition click1 : Click :=
  mkClick (Some 1%nat) 1 (Some (Sample.t0 - 10)) (Some "198.51.100.3")
          "curl/8.0" None "Other " "Other " "Other" "" "".

Definition store : DB :=
  mkDB [Sample.link 1 "docs" "https://example.com/docs" true None 1;
        Sample.link 2 "old" "https://example.com/old" false None 0]
       [click1] 3 2.

Definition world : World := mkWorld store 0 0 [].

Definition letters : list nat := [2; 17; 4; 0; 19; 4]%nat.

Definition E_create : Externals :=
  mkExternals (clock Sample.E) (fun n => nth n letters 0%nat) Sample.ua None
              Sample.ipv6 Sample.refusal false.

End Ledger.

(** * Properties *)

(** One step of symbolic execution of a program of the monad. *)
Ltac mrun :=
  repeat progress (try unfold bind, ret, raise, diverge, get_db, put_db,
                       timezone_now, messages_add, try_except; cbn).

(** ** Lemmas on the store *)

Section StoreLemmas.

Variable E : Externals.

Lemma filter_none {A} (f : A -> bool) (l : list A) :
  (forall x, In x l -> f x = false) -> filter f l = [].
Proof.
  induction l as [|x l IH]; intros H; [reflexivity|].
  simpl. rewrite (H x (or_introl eq_refl)). apply IH.
  intros y Hy. apply H. right. exact Hy.
Qed.

Lemma filter_key_unique {K : Type} (key : URL -> K) (keyb : URL -> bool)
    (us : list URL) (u : URL) :
  NoDup (map key us) -> In u us -> keyb u = true ->
  (forall x, keyb x = true -> key x = key u) ->
  filter keyb us = [u].
Proof.
  intros Hnd Hin Hu Hkey.
  induction us as [|x us IH]; [contradiction|].
  simpl in Hnd. inversion Hnd as [|? ? Hx Hnd']; subst.
  assert (Hrest : forall y, In y us -> key y <> key x -> keyb x = true ->
                            keyb y = false).
  { intros y Hy Hne Hxb. destruct (keyb y) eqn:Hyb; [|reflexivity].
    exfalso. apply Hne. rewrite (Hkey y Hyb), (Hkey x Hxb). reflexivity. }
  destruct Hin as [-> | Hin].
  - simpl. rewrite Hu. f_equal. apply filter_none.
    intros y Hy. apply Hrest; [exact Hy| |exact Hu].
    intros Heq. apply Hx. rewrite <- Heq. apply in_map. exact Hy.
  - simpl. destruct (keyb x) eqn:Hxb.
    + exfalso. apply Hx. rewrite (Hkey x Hxb). apply in_map. exact Hin.
    + apply IH; assumption.
Qed.

Lemma filter_code_unique (g : URL -> bool) (us : list URL) (u : URL) :
  NoDup (map short_code us) -> In u us -> g u = true ->
  filter (fun x => String.eqb (short_code x) (short_code u) && g x) us = [u].
Proof.
  intros Hnd Hin Hg. apply (filter_key_unique short_code); try assumption.
  - rewrite String.eqb_refl, Hg. reflexivity.
  - intros x Hx. apply andb_prop in Hx. apply String.eqb_eq. exact (proj1 Hx).
Qed.

Lemma filter_pk_unique (us : list URL) (u : URL) (p : nat) :
  NoDup (map pk us) -> In u us -> pk u = Some p ->
  filter (has_pk p) us = [u].
Proof.
  intros Hnd Hin Hp. apply (filter_key_unique pk); try assumption.
  - unfold has_pk. rewrite Hp. apply Nat.eqb_refl.
  - intros x Hx. unfold has_pk in Hx. rewrite Hp.
    destruct (pk x) as [q|]; [|discriminate].
    apply Nat.eqb_eq in Hx. congruence.
Qed.

Lemma existsb_has_pk (us : list URL) (u : URL) (p : nat) :
  In u us -> pk u = Some p -> existsb (has_pk p) us = true.
Proof.
  intros Hin Hp. apply existsb_exists. exists u. split; [exact Hin|].
  unfold has_pk. rewrite Hp. apply Nat.eqb_refl.
Qed.

Lemma get_object_found (w : World) (u : URL) :
  NoDup (map short_code (urls (db w))) -> In u (urls (db w)) ->
  is_active u = true ->
  get_object_or_404_active (short_code u) w = (Return u, w).
Proof.
  intros Hnd Hin Hact. unfold get_object_or_404_active, bind, get_db.
  rewrite (filter_code_unique (fun x => Bool.eqb (is_active x) true) _ u Hnd Hin).
  - reflexivity.
  - rewrite Hact. reflexivity.
Qed.

Lemma get_object_missing (w : World) (code : string) :
  (forall u, In u (urls (db w)) -> short_code u = code -> is_active u = false) ->
  get_object_or_404_active code w = (Raise Http404, w).
Proof.
  intros H. unfold get_object_or_404_active, bind, get_db.
  rewrite filter_none; [reflexivity|].
  intros x Hx. destruct (String.eqb_spec (short_code x) code) as [Heq|Hne];
    [|reflexivity].
  rewrite (H x Hx Heq). reflexivity.
Qed.

End StoreLemmas.

(** ** The redirect view *)

Section Redirect.

Variable E : Externals.

Lemma truthy_nonempty (s : string) : s <> "" -> Py.truthy s = true.
Proof. destruct s; [congruence | reflexivity]. Qed.

(** What [increment_click] does to an instance read from the store. *)
Lemma increment_click_spec (fuel : nat) (w : World) (u : URL) (p : nat) :
  pk u = Some p -> short_code u <> "" ->
  existsb (has_pk p) (urls (db w)) = true ->
  increment_click E fuel u w =
    (Return (set_last_clicked (Some (clock E (ticks w)))
                              (set_click_count (click_count u + 1) u)),
     mkWorld (mkDB (with_click p (click_count u + 1) (Some (clock E (ticks w)))
                               (urls (db w)))
                   (clicks (db w)) (url_seq (db w)) (click_seq (db w)))
             (S (ticks w)) (draws w) (flash w)).
Proof.
  intros Hp Hcode Hex.
  unfold increment_click, URL_save. mrun.
  rewrite (truthy_nonempty _ Hcode). mrun. rewrite Hp.
  unfold URL_update. mrun. rewrite Hex. reflexivity.
Qed.

(** What [Click.objects.create] does when the address can be stored. *)
Lemma click_create_spec (w : World) (u : URL) (p : nat) (ip : option string)
    (a ua : string) (ref : option string) (br os dev : string) :
  pk u = Some p -> existsb (has_pk p) (urls (db w)) = true ->
  ip_address_prep E ip = Some a ->
  let row := mkClick (Some (click_seq (db w))) p (Some (clock E (ticks w)))
                     (Some a) ua ref br os dev "" "" in
  Click_objects_create E u ip ua ref br os dev w =
    (Return row,
     mkWorld (mkDB (urls (db w)) (clicks (db w) ++ [row]) (url_seq (db w))
                   (S (click_seq (db w))))
             (S (ticks w)) (draws w) (flash w)).
Proof.
  intros Hp Hex Hip. unfold Click_objects_create, bind, timezone_now, get_db.
  cbn [db ticks draws flash]. rewrite Hp, Hip, Hex. reflexivity.
Qed.

(** What it does when the address is missing or empty: the NOT NULL
    column refuses the row. *)
Lemma click_create_null (w : World) (u : URL) (ip : option string)
    (ua : string) (ref : option string) (br os dev : string) :
  ip_address_prep E ip = None ->
  Click_objects_create E u ip ua ref br os dev w
    = (Raise IntegrityError, mkWorld (db w) (S (ticks w)) (draws w) (flash w)).
Proof.
  intros Hip. unfold Click_objects_create, bind, timezone_now, get_db.
  cbn [db ticks draws flash]. rewrite Hip. destruct (pk u); reflexivity.
Qed.

Lemma stored_as_prep (ip a : string) :
  stored_as E ip a -> ip_address_prep E (Some ip) = Some a.
Proof.
  intros [Hc Hne | b Hc Hb Hne | Hc Hb]; unfold ip_address_prep.
  - rewrite Hc, andb_false_r. destruct ip; [congruence | reflexivity].
  - rewrite Hc, Hb, andb_true_r.
    destruct ip as [|c r]; [discriminate Hc|]. cbn [Py.truthy].
    destruct b; [congruence | reflexivity].
  - rewrite Hc, Hb, andb_true_r.
    destruct ip as [|c r]; [discriminate Hc | reflexivity].
Qed.

Lemma new_redirect_spec (target : string) (w : World) :
  new_HttpResponseRedirect E target w = (redirect_answer E target, w).
Proof.
  unfold new_HttpResponseRedirect, redirect_answer.
  destruct (HttpResponseRedirect_raises E target); reflexivity.
Qed.

Lemma is_expired_false (w : World) (u : URL) :
  (forall e, expires_at u = Some e -> clock E (ticks w) <= e) ->
  is_expired E u w =
    (Return false, mkWorld (db w) (ticks w + expiry_reads u) (draws w) (flash w)).
Proof.
  intros H. unfold is_expired, expiry_reads.
  destruct (expires_at u) as [e|].
  - unfold bind, timezone_now, ret. specialize (H e eq_refl).
    replace (e <? clock E (ticks w)) with false by (symmetry; apply Z.ltb_ge; exact H).
    rewrite Nat.add_1_r. reflexivity.
  - unfold ret. rewrite Nat.add_0_r. destruct w; reflexivity.
Qed.

Lemma is_expired_true (w : World) (u : URL) (e : datetime) :
  expires_at u = Some e -> e < clock E (ticks w) ->
  is_expired E u w =
    (Return true, mkWorld (db w) (S (ticks w)) (draws w) (flash w)).
Proof.
  intros He Hlt. unfold is_expired. rewrite He.
  unfold bind, timezone_now, ret.
  replace (e <? clock E (ticks w)) with true by (symmetry; apply Z.ltb_lt; exact Hlt).
  reflexivity.
Qed.

(** The call on an active, unexpired link by a request whose address can
    be stored: both writes are made, and the call ends as the redirect
    response does on the target. *)
Lemma redirect_url_ok (fuel : nat) (request : HttpRequest) (w : World)
    (u : URL) (p : nat) (a : string) :
  NoDup (map short_code (urls (db w))) ->
  In u (urls (db w)) -> is_active u = true -> pk u = Some p ->
  short_code u <> "" ->
  (forall e, expires_at u = Some e -> clock E (ticks w) <= e) ->
  ip_address_prep E (get_client_ip request) = Some a ->
  redirect_url E fuel request (short_code u) w =
    (redirect_answer E (original_url u), after_click E request u p w).
Proof.
  intros Hnd Hin Hact Hp Hcode Hexp Hip.
  unfold redirect_url, bind at 1.
  rewrite (get_object_found w u Hnd Hin Hact).
  unfold bind at 1. rewrite (is_expired_false w u Hexp).
  unfold after_click.
  destruct (parse_user_agent E (or_default (HTTP_USER_AGENT (META request)) ""))
    as [[br os] dev].
  unfold bind at 1.
  rewrite (click_create_spec _ u p _ a); cbn [db ticks draws flash urls];
    [|exact Hp | exact (existsb_has_pk _ u p Hin Hp) | exact Hip].
  unfold bind at 1.
  rewrite (increment_click_spec fuel _ u p); cbn [db ticks draws flash urls];
    [|exact Hp | exact Hcode | exact (existsb_has_pk _ u p Hin Hp)].
  rewrite new_redirect_spec, Hip. reflexivity.
Qed.

(** The same call by a request without an address that can be stored. *)
Lemma redirect_url_no_address (fuel : nat) (request : HttpRequest) (w : World)
    (u : URL) :
  NoDup (map short_code (urls (db w))) ->
  In u (urls (db w)) -> is_active u = true ->
  (forall e, expires_at u = Some e -> clock E (ticks w) <= e) ->
  ip_address_prep E (get_client_ip request) = None ->
  redirect_url E fuel request (short_code u) w
    = (Raise IntegrityError,
       mkWorld (db w) (S (ticks w + expiry_reads u)) (draws w) (flash w)).
Proof.
  intros Hnd Hin Hact Hexp Hip.
  unfold redirect_url, bind at 1.
  rewrite (get_object_found w u Hnd Hin Hact).
  unfold bind at 1. rewrite (is_expired_false w u Hexp).
  destruct (parse_user_agent E (or_default (HTTP_USER_AGENT (META request)) ""))
    as [[br os'] dev].
  unfold bind at 1. rewrite (click_create_null _ _ _ _ _ _ _ _ Hip).
  reflexivity.
Qed.

End Redirect.

Section RedirectClaims.

Variable E : Externals.

Lemma map_pk_with_click (p : nat) (n : Z) (t : option datetime) (us : list URL) :
  map pk (with_click p n t us) = map pk us.
Proof.
  unfold with_click. rewrite map_map. apply map_ext.
  intros r. destruct (has_pk p r); reflexivity.
Qed.

Lemma map_code_with_click (p : nat) (n : Z) (t : option datetime) (us : list URL) :
  map short_code (with_click p n t us) = map short_code us.
Proof.
  unfold with_click. rewrite map_map. apply map_ext.
  intros r. destruct (has_pk p r); reflexivity.
Qed.

Lemma in_with_click (p : nat) (n : Z) (t : option datetime) (us : list URL)
    (u : URL) :
  In u us -> pk u = Some p ->
  In (set_last_clicked t (set_click_count n u)) (with_click p n t us).
Proof.
  intros Hin Hp. unfold with_click.
  apply in_map_iff. exists u. split; [|exact Hin].
  replace (has_pk p u) with true
    by (unfold has_pk; rewrite Hp, Nat.eqb_refl; reflexivity).
  reflexivity.
Qed.

Lemma in_with_click_other (p : nat) (n : Z) (t : option datetime)
    (us : list URL) (r : URL) :
  In r us -> pk r <> Some p -> In r (with_click p n t us).
Proof.
  intros Hin Hp. unfold with_click.
  apply in_map_iff. exists r. split; [|exact Hin].
  replace (has_pk p r) with false; [reflexivity|].
  unfold has_pk. destruct (pk r) as [q|]; [|reflexivity].
  symmetry. apply Nat.eqb_neq. intros ->. apply Hp. reflexivity.
Qed.

Lemma db_ok_with_click (p : nat) (n : Z) (t : option datetime) (d : DB)
    (cs : list Click) (a b : nat) :
  db_ok d -> db_ok (mkDB (with_click p n t (urls d)) cs a b).
Proof.
  intros (Hc & Hp & Hk). unfold db_ok. simpl.
  rewrite map_code_with_click, map_pk_with_click.
  repeat split; try assumption.
  unfold with_click. apply Forall_map.
  eapply Forall_impl; [|exact Hk].
  intros r Hr. destruct (has_pk p r); exact Hr.
Qed.

Lemma count_of_unique (d : DB) (u : URL) (p : nat) :
  NoDup (map pk (urls d)) -> In u (urls d) -> pk u = Some p ->
  count_of p d = Some (click_count u).
Proof.
  intros Hnd Hin Hp. unfold count_of.
  rewrite (filter_pk_unique _ u p Hnd Hin Hp). reflexivity.
Qed.

(** C1, as amended.  A redirect of an existing, active, unexpired code by
    a request whose client address is a text that is not empty, to a target
    that the redirect response accepts, answers with a redirect to the
    link's [original_url], appends exactly one [Click] that carries the
    address (an IPv6 address in its normal form), the user agent, the
    referer and the parsed browser, os and device, adds 1 to the
    [click_count] of that row and sets its [last_clicked] to the time read
    while the click is counted (the clock reading that follows the one
    stored in [clicked_at]); every other column and every other row stays.
    When the redirect response refuses the target, the call ends with that
    exception instead of a redirect.  By a request without a client
    address, or with an empty one, the call ends with [IntegrityError] and
    the store is as it was. *)
Theorem redirect_records_click (fuel : nat) (request : HttpRequest)
    (w : World) (u : URL) (p : nat) :
  db_ok (db w) ->
  In u (urls (db w)) -> is_active u = true -> pk u = Some p ->
  short_code u <> "" ->
  (forall e, expires_at u = Some e -> clock E (ticks w) <= e) ->
  let ua := or_default (HTTP_USER_AGENT (META request)) "" in
  let t_click := clock E (ticks w + expiry_reads u) in
  let t_count := clock E (S (ticks w + expiry_reads u)) in
  (forall ip a,
      get_client_ip request = Some ip -> stored_as E ip a ->
      (HttpResponseRedirect_raises E (original_url u) = None ->
       exists (w' : World) (click : Click) (u' : URL),
         redirect_url E fuel request (short_code u) w
           = (Return (HttpResponseRedirect (original_url u)), w')
         /\ clicks (db w') = (clicks (db w) ++ [click])%list
         /\ url click = p
         /\ clicked_at click = Some t_click
         /\ ip_address click = Some a
         /\ user_agent click = ua
         /\ referer click = HTTP_REFERER (META request)
         /\ (browser click, os click, device click) = parse_user_agent E ua
         /\ List.length (urls (db w')) = List.length (urls (db w))
         /\ In u' (urls (db w'))
         /\ pk u' = Some p
         /\ click_count u' = click_count u + 1
         /\ last_clicked u' = Some t_count
         /\ (original_url u', short_code u', title u', description u')
            = (original_url u, short_code u, title u, description u)
         /\ (created_at u', created_by u', is_active u', expires_at u')
            = (created_at u, created_by u, is_active u, expires_at u)
         /\ (forall r, In r (urls (db w)) -> pk r <> Some p ->
                       In r (urls (db w')))
         /\ count_of p (db w) = Some (click_count u)
         /\ count_of p (db w') = Some (click_count u + 1))
      /\ (forall e,
             HttpResponseRedirect_raises E (original_url u) = Some e ->
             fst (redirect_url E fuel request (short_code u) w) = Raise e))
  /\ (get_client_ip request = None \/ get_client_ip request = Some "" ->
      exists w' : World,
        redirect_url E fuel request (short_code u) w = (Raise IntegrityError, w')
        /\ db w' = db w).
Proof.
  intros (Hc & Hk & Hs) Hin Hact Hp Hcode Hexp ua t_click t_count. split.
  - intros ip a Hget Hst.
    assert (Hip : ip_address_prep E (get_client_ip request) = Some a)
      by (rewrite Hget; apply stored_as_prep; exact Hst).
    pose proof (redirect_url_ok E fuel request w u p a Hc Hin Hact Hp Hcode Hexp Hip)
      as Hrun.
    split.
    + intros Hacc. unfold redirect_answer in Hrun. rewrite Hacc in Hrun.
      unfold after_click in Hrun. fold ua in Hrun.
      destruct (parse_user_agent E ua) as [[br os'] dev] eqn:Hua.
      set (u' := mkURL (pk u) (original_url u) (short_code u) (title u)
                       (description u) (created_at u) (created_by u)
                       (is_active u) (expires_at u) (click_count u + 1)
                       (Some t_count)).
      assert (Hu' : In u' (with_click p (click_count u + 1) (Some t_count)
                                      (urls (db w))))
        by (apply (in_with_click p _ _ _ u Hin Hp)).
      eexists. eexists. exists u'. split; [exact Hrun|].
      cbn [db urls clicks url clicked_at ip_address user_agent referer browser
           os device]. rewrite Hip.
      split; [reflexivity|]. split; [reflexivity|]. split; [reflexivity|].
      split; [reflexivity|]. split; [reflexivity|]. split; [reflexivity|].
      split; [reflexivity|].
      split; [unfold with_click; apply length_map|].
      split; [exact Hu'|]. split; [exact Hp|].
      split; [reflexivity|]. split; [reflexivity|].
      split; [reflexivity|]. split; [reflexivity|].
      split; [intros r Hr Hne; apply in_with_click_other; assumption|].
      split; [apply (count_of_unique _ u p Hk Hin Hp)|].
      unfold count_of. cbn [urls].
      rewrite (filter_pk_unique _ u' p);
        [reflexivity | rewrite map_pk_with_click; exact Hk | exact Hu' | exact Hp].
    + intros e Href. rewrite Hrun. unfold redirect_answer. rewrite Href.
      reflexivity.
  - intros Hnone.
    assert (Hip : ip_address_prep E (get_client_ip request) = None)
      by (destruct Hnone as [-> | ->]; reflexivity).
    rewrite (redirect_url_no_address E fuel request w u Hc Hin Hact Hexp Hip).
    eexists. split; reflexivity.
Qed.

Lemma redirect_url_expired (fuel : nat) (request : HttpRequest) (w : World)
    (u : URL) (e : datetime) :
  NoDup (map short_code (urls (db w))) ->
  In u (urls (db w)) -> is_active u = true ->
  expires_at u = Some e -> e < clock E (ticks w) ->
  redirect_url E fuel request (short_code u) w
    = (Return (Render_expired u), ticked w).
Proof.
  intros Hc Hin Hact He Hlt.
  unfold redirect_url, bind at 1.
  rewrite (get_object_found w u Hc Hin Hact).
  unfold bind at 1. rewrite (is_expired_true E w u e He Hlt).
  reflexivity.
Qed.

(** C2. A redirect of an active code whose [expires_at] is set and lies
    before the current time renders the expiry page with that link, and
    leaves the store as it was: no [Click], the same [click_count] and
    [last_clicked]. *)
Theorem redirect_expired (fuel : nat) (request : HttpRequest) (w : World)
    (u : URL) (e : datetime) :
  db_ok (db w) ->
  In u (urls (db w)) -> is_active u = true ->
  expires_at u = Some e -> e < clock E (ticks w) ->
  exists w' : World,
    redirect_url E fuel request (short_code u) w = (Return (Render_expired u), w')
    /\ db w' = db w.
Proof.
  intros (Hc & _ & _) Hin Hact He Hlt.
  rewrite (redirect_url_expired fuel request w u e Hc Hin Hact He Hlt).
  eexists. split; reflexivity.
Qed.

(** C3. A redirect of a code that no row carries, or that only an inactive
    row carries, raises [Http404] (no redirect), and leaves the world as it
    was: no [Click] is created and no counter changes. *)
Theorem redirect_not_found (fuel : nat) (request : HttpRequest) (w : World)
    (code : string) :
  (forall u, In u (urls (db w)) -> short_code u = code -> is_active u = false) ->
  redirect_url E fuel request code w = (Raise Http404, w).
Proof.
  intros H. unfold redirect_url, bind at 1.
  rewrite (get_object_missing w code H). reflexivity.
Qed.

End RedirectClaims.

(** Closing a goal [NoDup l] or [Forall P l] on an explicit list. *)
Ltac explicit_list :=
  repeat (constructor; [simpl; intuition congruence|]); constructor.

Lemma sample_store_ok : db_ok Sample.store.
Proof. unfold db_ok. cbn. repeat split; explicit_list. Qed.

Lemma redirect_records_click_witness :
  exists (w' : World) (click : Click),
    redirect_url Sample.E 0 Sample.visit_v6 "abcdef" Sample.world
      = (Return (HttpResponseRedirect "https://example.com/a"), w')
    /\ clicks (db w') = [click]
    /\ ip_address click = Some "2001:db8::1"
    /\ count_of 4 (db w') = Some 1.
Proof.
  destruct (redirect_records_click Sample.E 0 Sample.visit_v6 Sample.world
              (Sample.link 4 "abcdef" "https://example.com/a" true
                           (Some (Sample.t0 + 1000000)) 0) 4)
    as (Hrecorded & _).
  - exact sample_store_ok.
  - simpl. tauto.
  - reflexivity.
  - reflexivity.
  - discriminate.
  - intros e He. injection He as <-. vm_compute. discriminate.
  - destruct (Hrecorded "2001:0DB8:0:0:0:0:0:1" "2001:db8::1") as (Hok & _).
    + reflexivity.
    + apply stored_ipv6; [reflexivity | reflexivity | discriminate].
    + destruct (Hok eq_refl)
        as (w' & click & u' & Hrun & Hclicks & _ & _ & Hip & _ & _ & _ & _ & _
            & _ & _ & _ & _ & _ & _ & _ & Hcount).
      exists w', click. repeat split; assumption.
Defined.

(** C1 as first stated fails.  On the active, unexpired link ["docs"] a
    request without any client address, and one whose forwarding header
    starts with a comma, end with [IntegrityError]: no redirect, no click,
    the counter as it was.  On an active, unexpired link whose target is
    ["https://["] the call ends with [ValueError], not with a redirect.
    And the click of a request that comes from the IPv6 address
    [2001:0DB8:0:0:0:0:0:1] records [2001:db8::1]. *)
Lemma redirect_records_click_counterexample :
  (fst (redirect_url Sample.E 0 Sample.anonymous "docs" Sample.world)
     = Raise IntegrityError
   /\ db (snd (redirect_url Sample.E 0 Sample.anonymous "docs" Sample.world))
      = Sample.store)
  /\ (fst (redirect_url Sample.E 0 Sample.visit_blank "docs" Sample.world)
        = Raise IntegrityError
      /\ db (snd (redirect_url Sample.E 0 Sample.visit_blank "docs" Sample.world))
         = Sample.store)
  /\ fst (redirect_url Sample.E 0 Sample.visit "bad" Sample.broken)
     = Raise ValueError
  /\ (get_client_ip Sample.visit_v6 = Some "2001:0DB8:0:0:0:0:0:1"
      /\ map ip_address
           (clicks (db (snd (redirect_url Sample.E 0 Sample.visit_v6 "docs"
                               Sample.world))))
         = [Some "2001:db8::1"]).
Proof. repeat split; vm_compute; reflexivity. Qed.

Lemma redirect_expired_witness :
  exists w' : World,
    redirect_url Sample.E 0 Sample.visit "gone" Sample.world
      = (Return (Render_expired
                   (Sample.link 3 "gone" "https://example.com/gone" true
                                (Some (Sample.t0 - 5)) 7)), w')
    /\ db w' = Sample.store.
Proof.
  apply (redirect_expired Sample.E 0 Sample.visit Sample.world
           (Sample.link 3 "gone" "https://example.com/gone" true
                        (Some (Sample.t0 - 5)) 7) (Sample.t0 - 5)).
  - exact sample_store_ok.
  - simpl. tauto.
  - reflexivity.
  - reflexivity.
  - vm_compute. reflexivity.
Defined.

Lemma redirect_not_found_witness :
  redirect_url Sample.E 0 Sample.visit "old" Sample.world
    = (Raise Http404, Sample.world)
  /\ redirect_url Sample.E 0 Sample.visit "nope" Sample.world
    = (Raise Http404, Sample.world).
Proof.
  split; apply redirect_not_found; simpl; intros u Hu Hcode;
    repeat (destruct Hu as [<- | Hu]; [try reflexivity; discriminate Hcode|]);
    contradiction.
Defined.

(** ** The code generator *)

Section Generator.

Variable E : Externals.

Lemma code_in_useb_spec (code : string) (d : DB) :
  code_in_useb code d = true <-> code_in_use code d.
Proof.
  unfold code_in_useb, code_in_use. rewrite existsb_exists.
  split; intros (u & Hin & Hc); exists u; split; try exact Hin;
    apply String.eqb_eq; exact Hc.
Qed.

Lemma URL_exists_spec (code : string) (w : World) :
  URL_exists code w = (Return (code_in_useb code (db w)), w).
Proof.
  unfold URL_exists, filter_short_code, code_in_useb. mrun.
  f_equal. f_equal.
  induction (urls (db w)) as [|x l IH]; [reflexivity|].
  simpl. destruct (String.eqb (short_code x) code); [reflexivity|exact IH].
Qed.

Lemma random_string_spec (n : nat) (w : World) :
  random_string E n Py.ascii_letters_digits w
    = (Return (draw_string E (draws w) n), drawn n w).
Proof.
  revert w. induction n as [|n IH]; intros w.
  - unfold drawn. simpl. unfold ret. rewrite Nat.add_0_r.
    destruct w; reflexivity.
  - cbn [random_string draw_string]. unfold bind at 1.
    unfold random_choice at 1. cbv zeta.
    unfold bind at 1. rewrite IH. unfold ret, drawn. cbn.
    rewrite <- Nat.add_succ_comm. reflexivity.
Qed.

Lemma candidate_drawn (w : World) (j : nat) :
  candidate E (drawn 6 w) j = candidate E w (S j).
Proof.
  unfold candidate, drawn. cbn [draws]. f_equal. lia.
Qed.

Lemma drawn_drawn (a b : nat) (w : World) :
  drawn a (drawn b w) = drawn (b + a) w.
Proof. unfold drawn. cbn. rewrite Nat.add_assoc. reflexivity. Qed.

(** One turn of the loop. *)
Lemma generate_short_code_step (fuel : nat) (w : World) :
  generate_short_code E (S fuel) w
    = if code_in_useb (candidate E w 0) (db w)
      then generate_short_code E fuel (drawn 6 w)
      else (Return (candidate E w 0), drawn 6 w).
Proof.
  cbn [generate_short_code]. unfold bind at 1. rewrite random_string_spec.
  unfold bind at 1. rewrite URL_exists_spec.
  unfold candidate. rewrite Nat.mul_0_r, Nat.add_0_r. cbn [db drawn].
  destruct (code_in_useb _ _); reflexivity.
Qed.

(** The generator returns the first free candidate, when its fuel reaches
    that far; before that it is still looping. *)
Lemma generate_short_code_first_free (k fuel : nat) (w : World) :
  (forall j, (j < k)%nat -> code_in_use (candidate E w j) (db w)) ->
  ~ code_in_use (candidate E w k) (db w) ->
  generate_short_code E fuel w
    = if (fuel <=? k)%nat then (Diverge, drawn (6 * fuel) w)
      else (Return (candidate E w k), drawn (6 * S k) w).
Proof.
  revert fuel w. induction k as [|k IH]; intros fuel w Hbefore Hfree.
  - destruct fuel as [|fuel].
    + cbn. unfold diverge, drawn. rewrite Nat.add_0_r. destruct w; reflexivity.
    + rewrite generate_short_code_step.
      destruct (code_in_useb (candidate E w 0) (db w)) eqn:Hb.
      * exfalso. apply Hfree. apply code_in_useb_spec. exact Hb.
      * reflexivity.
  - destruct fuel as [|fuel].
    + cbn. unfold diverge, drawn. rewrite Nat.add_0_r. destruct w; reflexivity.
    + rewrite generate_short_code_step.
      destruct (code_in_useb (candidate E w 0) (db w)) eqn:Hb.
      * rewrite (IH fuel (drawn 6 w)).
        -- change (S fuel <=? S k)%nat with (fuel <=? k)%nat.
           rewrite !drawn_drawn. rewrite candidate_drawn.
           replace (6 + 6 * fuel)%nat with (6 * S fuel)%nat by lia.
           replace (6 + 6 * S k)%nat with (6 * S (S k))%nat by lia.
           reflexivity.
        -- intros j Hj. rewrite candidate_drawn. apply Hbefore. lia.
        -- rewrite candidate_drawn. exact Hfree.
      * exfalso. apply (Bool.diff_false_true). rewrite <- Hb.
        apply code_in_useb_spec. apply Hbefore. lia.
Qed.

(** Whatever the generator returns is a candidate it drew, free in the
    store, and every candidate before it collided. *)
Lemma generate_short_code_returns (fuel : nat) (w w' : World) (code : string) :
  generate_short_code E fuel w = (Return code, w') ->
  exists k, (k < fuel)%nat
    /\ code = candidate E w k
    /\ (forall j, (j < k)%nat -> code_in_use (candidate E w j) (db w))
    /\ ~ code_in_use code (db w)
    /\ w' = drawn (6 * S k) w.
Proof.
  revert w. induction fuel as [|fuel IH]; intros w Hrun.
  - discriminate Hrun.
  - rewrite generate_short_code_step in Hrun.
    destruct (code_in_useb (candidate E w 0) (db w)) eqn:Hb.
    + destruct (IH _ Hrun) as (k & Hk & Hc & Hbefore & Hfree & Hw).
      exists (S k). rewrite candidate_drawn in Hc.
      repeat split.
      * lia.
      * exact Hc.
      * intros [|j] Hj.
        -- apply code_in_useb_spec. exact Hb.
        -- rewrite <- candidate_drawn. apply Hbefore. lia.
      * exact Hfree.
      * rewrite Hw, drawn_drawn. f_equal. lia.
    + injection Hrun as <- <-. exists 0%nat. repeat split.
      * lia.
      * intros j Hj. lia.
      * intros H. apply code_in_useb_spec in H. congruence.
Qed.

Lemma generate_short_code_no_raise (fuel : nat) (w w' : World) (e : exn) :
  generate_short_code E fuel w <> (Raise e, w').
Proof.
  revert w. induction fuel as [|fuel IH]; intros w.
  - discriminate.
  - rewrite generate_short_code_step.
    destruct (code_in_useb _ _); [apply IH | discriminate].
Qed.

Lemma generate_short_code_db (fuel : nat) (w : World) :
  db (snd (generate_short_code E fuel w)) = db w
  /\ ticks (snd (generate_short_code E fuel w)) = ticks w
  /\ flash (snd (generate_short_code E fuel w)) = flash w.
Proof.
  revert w. induction fuel as [|fuel IH]; intros w.
  - cbn. auto.
  - rewrite generate_short_code_step.
    destruct (code_in_useb _ _); [apply (IH (drawn 6 w)) | cbn; auto].
Qed.

Lemma draw_string_length (pos n : nat) :
  String.length (draw_string E pos n) = n.
Proof.
  revert pos. induction n as [|n IH]; intros pos; [reflexivity|].
  cbn [draw_string String.length]. rewrite IH. reflexivity.
Qed.

Lemma alphabet_alnum (i : nat) :
  Py.isalnum_ascii
    (match String.get (Nat.modulo i (String.length Py.ascii_letters_digits))
                      Py.ascii_letters_digits with
     | Some c => c
     | None => zero
     end) = true.
Proof.
  assert (H : (Nat.modulo i 62 < 62)%nat) by (apply Nat.mod_upper_bound; lia).
  change (String.length Py.ascii_letters_digits) with 62%nat.
  revert H. generalize (Nat.modulo i 62). intros j Hj.
  do 62 (destruct j as [|j]; [reflexivity|]). lia.
Qed.

Lemma draw_string_alnum (pos n : nat) :
  Py.all_chars Py.isalnum_ascii (draw_string E pos n) = true.
Proof.
  revert pos. induction n as [|n IH]; intros pos; [reflexivity|].
  cbn [draw_string Py.all_chars]. rewrite alphabet_alnum, IH. reflexivity.
Qed.

End Generator.

(** ** The creation views *)

Section Creation.

Variable E : Externals.

Lemma truthy_false (s : string) : Py.truthy s = false <-> s = "".
Proof. destruct s; simpl; split; congruence. Qed.

Lemma truthy_true (s : string) : Py.truthy s = true <-> s <> "".
Proof. destruct s; simpl; split; congruence. Qed.

Lemma int_empty : Py.int "" = None.
Proof. reflexivity. Qed.

Lemma handle_expiration_spec (text : option string) (u : URL) (w : World) :
  handle_expiration E text u w =
    if Py.truthy (or_default text "") then
      match Py.int (or_default text "") with
      | None => (Return u, w)
      | Some d =>
          if representable (clock E (ticks w)) d
          then (Return (set_expires_at
                          (Some (clock E (ticks w) + d * Py.us_per_day)) u),
                ticked w)
          else (Raise OverflowError, ticked w)
      end
    else (Return u, w).
Proof.
  unfold handle_expiration.
  destruct (Py.truthy (or_default text "")); [|reflexivity].
  destruct (Py.int (or_default text "")) as [d|]; [|reflexivity].
  unfold representable, try_except, bind at 1, timezone_now.
  unfold bind at 1, timedelta_days.
  destruct (Z.abs d <=? Py.max_timedelta_days); [|reflexivity].
  unfold ret at 1, bind, datetime_add. cbn [ticks andb].
  destruct ((0 <=? clock E (ticks w) + d * Py.us_per_day)
            && (clock E (ticks w) + d * Py.us_per_day <? Py.datetime_end));
    reflexivity.
Qed.

Lemma handle_expiration_choice (text : option string) (u : URL) (w : World)
    (exp : option datetime) (n : nat) :
  expiry_choice E w text exp n ->
  handle_expiration E text u w
    = (Return (set_expires_at exp u),
       mkWorld (db w) (ticks w + n) (draws w) (flash w))
  \/ (exp = None /\ n = 0%nat /\ handle_expiration E text u w = (Return u, w)).
Proof.
  intros H. rewrite handle_expiration_spec. destruct H as [H | H | d Ht Hd Hr].
  - right. rewrite H. auto.
  - right. rewrite H. destruct (Py.truthy _); auto.
  - left. apply truthy_true in Ht. rewrite Ht, Hd, Hr.
    unfold ticked. rewrite Nat.add_1_r. reflexivity.
Qed.

Lemma code_taken_none (code : string) (d : DB) :
  code_taken_by_other code None d = code_in_useb code d.
Proof.
  unfold code_taken_by_other, code_in_useb.
  induction (urls d) as [|x l IH]; [reflexivity|].
  cbn [existsb negb]. rewrite andb_true_r. f_equal. exact IH.
Qed.

Lemma not_in_use (code : string) (d : DB) :
  ~ code_in_use code d -> code_in_useb code d = false.
Proof.
  intros H. destruct (code_in_useb code d) eqn:Hb; [|reflexivity].
  exfalso. apply H. apply code_in_useb_spec. exact Hb.
Qed.

Lemma URL_insert_spec (self : URL) (w : World) :
  pk self = None ->
  URL_insert E self w =
    if code_in_useb (short_code self) (db w)
    then (Raise IntegrityError, ticked w)
    else (Return (persisted (url_seq (db w)) (clock E (ticks w)) self),
          after_insert E self w).
Proof.
  intros Hp. unfold URL_insert. mrun. rewrite code_taken_none, Hp.
  destruct (code_in_useb _ _); reflexivity.
Qed.

Lemma set_short_code_same (u : URL) : set_short_code (short_code u) u = u.
Proof. destruct u; reflexivity. Qed.

(** [save()] of an instance that carries a code. *)
Lemma URL_save_coded (fuel : nat) (self : URL) (w : World) :
  pk self = None -> short_code self <> "" ->
  URL_save E fuel None self w = URL_insert E self w.
Proof.
  intros Hp Hc. unfold URL_save. rewrite (proj2 (truthy_true _) Hc).
  cbn [negb]. unfold bind, ret. cbn [Model_save]. rewrite Hp.
  destruct (URL_insert E self w) as [[a|e|] w']; reflexivity.
Qed.

(** [save()] of a new instance, whatever happens: either one row is
    appended, with the fields of the instance and a code that was free, or
    the store is as before. *)
Lemma URL_save_new_cases (fuel : nat) (self : URL) (w : World) :
  pk self = None ->
  match URL_save E fuel None self w with
  | (Return row, w') =>
      exists code t,
        row = persisted (url_seq (db w)) t (set_short_code code self)
        /\ ~ code_in_use code (db w)
        /\ (short_code self <> "" -> code = short_code self)
        /\ db w' = mkDB (urls (db w) ++ [row]) (clicks (db w))
                        (S (url_seq (db w))) (click_seq (db w))
  | (_, w') => db w' = db w
  end.
Proof.
  intros Hp. destruct (Py.truthy (short_code self)) eqn:Ht.
  - rewrite URL_save_coded; [|exact Hp|apply truthy_true; exact Ht].
    rewrite URL_insert_spec by exact Hp.
    destruct (code_in_useb (short_code self) (db w)) eqn:Hb; [reflexivity|].
    exists (short_code self), (clock E (ticks w)).
    rewrite set_short_code_same. repeat split.
    intros H. apply code_in_useb_spec in H. congruence.
  - unfold URL_save. rewrite Ht. cbn [negb]. unfold bind at 1. unfold bind at 1.
    destruct (generate_short_code E fuel w) as [[code|e|] w1] eqn:Hg.
    + destruct (generate_short_code_returns E fuel w w1 code Hg)
        as (k & Hk & Hc & Hbefore & Hfree & Hw1).
      unfold ret at 1. cbn [Model_save pk set_short_code]. rewrite Hp.
      rewrite URL_insert_spec by exact Hp. cbn [short_code set_short_code].
      assert (Hdb : db w1 = db w) by (rewrite Hw1; reflexivity).
      rewrite Hdb, (not_in_use _ _ Hfree).
      exists code, (clock E (ticks w1)). unfold after_insert. rewrite Hdb.
      repeat split; try assumption.
      intros Hne. apply truthy_false in Ht. contradiction.
    + exfalso. exact (generate_short_code_no_raise E fuel w w1 e Hg).
    + pose proof (generate_short_code_db E fuel w) as (Hdb & _).
      rewrite Hg in Hdb. exact Hdb.
Qed.

(** [save()] of a new instance for which a code can be chosen. *)
Lemma URL_save_choice (fuel : nat) (self : URL) (w : World) (code : string)
    (n : nat) :
  pk self = None ->
  code_choice E fuel w (short_code self) code n ->
  URL_save E fuel None self w
    = (Return (persisted (url_seq (db w)) (clock E (ticks w))
                         (set_short_code code self)),
       after_insert E (set_short_code code self) (drawn n w)).
Proof.
  intros Hp Hch. destruct Hch as [Hne Hfree | k Hempty Hk Hbefore Hfree].
  - rewrite URL_save_coded by assumption.
    rewrite URL_insert_spec by exact Hp.
    rewrite (not_in_use _ _ Hfree), set_short_code_same.
    unfold drawn, after_insert. cbn. rewrite Nat.add_0_r.
    reflexivity.
  - unfold URL_save. rewrite Hempty. cbn [Py.truthy negb].
    unfold bind at 1. unfold bind at 1.
    rewrite (generate_short_code_first_free E k fuel w Hbefore Hfree).
    replace (fuel <=? k)%nat with false by (symmetry; apply Nat.leb_gt; exact Hk).
    unfold ret at 1. cbn [Model_save pk set_short_code]. rewrite Hp.
    rewrite URL_insert_spec by exact Hp.
    cbn [short_code set_short_code db drawn].
    rewrite (not_in_use _ _ Hfree). reflexivity.
Qed.

End Creation.

Section CreationViews.

Variable E : Externals.

Lemma code_choice_moved (fuel : nat) (w w1 : World) (custom code : string)
    (g : nat) :
  db w1 = db w -> draws w1 = draws w ->
  code_choice E fuel w custom code g -> code_choice E fuel w1 custom code g.
Proof.
  intros Hdb Hdr H.
  assert (Hc : forall k, candidate E w1 k = candidate E w k)
    by (intros k; unfold candidate; rewrite Hdr; reflexivity).
  destruct H as [Hne Hfree | k Hempty Hk Hbefore Hfree].
  - constructor; [exact Hne | rewrite Hdb; exact Hfree].
  - rewrite <- Hc. constructor; try assumption.
    + intros j Hj. rewrite Hc, Hdb. apply Hbefore. exact Hj.
    + rewrite Hc, Hdb. exact Hfree.
Qed.

Lemma handle_custom_code_choice (fuel : nat) (w : World) (custom code : string)
    (g : nat) (u : URL) :
  short_code u = "" ->
  code_choice E fuel w custom code g ->
  handle_custom_code custom u w = (Return (inr (set_short_code custom u)), w).
Proof.
  intros Hu H. unfold handle_custom_code.
  destruct H as [Hne Hfree | k Hempty Hk Hbefore Hfree].
  - rewrite (proj2 (truthy_true _) Hne). unfold bind.
    rewrite URL_exists_spec, (not_in_use _ _ Hfree). reflexivity.
  - rewrite Hempty. cbn [Py.truthy]. rewrite <- Hu, set_short_code_same.
    reflexivity.
Qed.

Lemma handle_custom_code_taken (w : World) (custom : string) (u : URL) :
  custom <> "" -> code_in_use custom (db w) ->
  handle_custom_code custom u w
    = (Return (inl Redirect_home), flashed Msg_custom_code_exists w).
Proof.
  intros Hne Huse. unfold handle_custom_code.
  rewrite (proj2 (truthy_true _) Hne). unfold bind at 1.
  rewrite URL_exists_spec, (proj2 (code_in_useb_spec _ _) Huse).
  reflexivity.
Qed.

(** The row a successful [create_short_url] persists. *)
Lemma create_short_url_saves (fuel : nat) (request : HttpRequest) (w : World)
    (code : string) (g : nat) (exp : option datetime) (n : nat) :
  method request = POST ->
  Py.strip (or_default (f_original_url (POST_data request)) "") <> "" ->
  code_choice E fuel w
    (Py.strip (or_default (f_custom_code (POST_data request)) "")) code g ->
  expiry_choice E w (f_expires_in_days (POST_data request)) exp n ->
  let row :=
    mkURL (Some (url_seq (db w)))
          (add_protocol (Py.strip (or_default (f_original_url (POST_data request)) "")))
          code
          (Py.strip (or_default (f_title (POST_data request)) ""))
          (Py.strip (or_default (f_description (POST_data request)) ""))
          (Some (clock E (ticks w + n))) (user request) true exp 0 None in
  let w' :=
    mkWorld (mkDB (urls (db w) ++ [row]) (clicks (db w)) (S (url_seq (db w)))
                  (click_seq (db w)))
            (S (ticks w + n)) (draws w + g)
            (flash w ++ [Msg_created (get_short_url E row)]) in
  create_short_url E fuel request w =
    if str_converter_matches code then (Return (Redirect_url_detail code), w')
    else (Return Redirect_home, flashed (Msg_error_creating NoReverseMatch) w').
Proof.
  intros Hm Hurl Hcode Hexp row w'.
  unfold create_short_url. rewrite Hm. cbv zeta.
  rewrite (proj2 (truthy_true _) Hurl). cbn [negb].
  unfold try_except. unfold bind at 1.
  rewrite (handle_custom_code_choice fuel w _ code g);
    [|reflexivity|exact Hcode].
  unfold bind at 1.
  match goal with
  | |- context [handle_expiration E ?t ?u w] =>
      destruct (handle_expiration_choice E (f_expires_in_days (POST_data request))
                  u w exp n Hexp) as [He | (-> & -> & He)];
      rewrite He; clear He
  end.
  - unfold bind at 1.
    rewrite (URL_save_choice E fuel _ _ code g);
      [|reflexivity
       |apply (code_choice_moved fuel w);
        [reflexivity | reflexivity | exact Hcode]].
    subst row w'. unfold redirect_to_url_detail, flashed.
    mrun. destruct (str_converter_matches code); reflexivity.
  - unfold bind at 1.
    rewrite (URL_save_choice E fuel _ _ code g);
      [|reflexivity|exact Hcode].
    subst row w'. unfold redirect_to_url_detail, flashed.
    mrun. rewrite !Nat.add_0_r.
    destruct (str_converter_matches code); reflexivity.
Qed.

End CreationViews.

Section CreationSafety.

Variable E : Externals.

Lemma wrote_nothing (target : string) (w w' : World) :
  db w' = db w -> wrote_at_most target w w'.
Proof. intros H. unfold wrote_at_most. rewrite H. auto. Qed.

(** Whatever [create_short_url] answers, it has written nothing or one row
    whose [original_url] is the trimmed, scheme-completed text. *)
Lemma create_short_url_writes (fuel : nat) (request : HttpRequest) (w : World) :
  wrote_at_most (Py.strip (or_default (f_original_url (POST_data request)) ""))
                w (snd (create_short_url E fuel request w)).
Proof.
  unfold create_short_url.
  destruct (method request); try (apply wrote_nothing; reflexivity).
  cbv zeta.
  destruct (Py.truthy (Py.strip (or_default (f_original_url (POST_data request)) "")))
    eqn:Ht; cbn [negb]; [|apply wrote_nothing; reflexivity].
  apply truthy_true in Ht.
  unfold try_except. unfold bind at 1.
  unfold handle_custom_code.
  destruct (Py.truthy (Py.strip (or_default (f_custom_code (POST_data request)) "")));
    [unfold bind at 1; rewrite URL_exists_spec;
     destruct (code_in_useb _ (db w)); [apply wrote_nothing; reflexivity|] |];
    unfold ret at 1; unfold bind at 1; rewrite handle_expiration_spec.
  all: destruct (Py.truthy (or_default (f_expires_in_days (POST_data request)) ""));
    [destruct (Py.int (or_default (f_expires_in_days (POST_data request)) ""))
       as [d|];
     [destruct (representable (clock E (ticks w)) d);
      [|apply wrote_nothing; reflexivity]|]|].
  all: unfold bind at 1;
    match goal with
    | |- context [URL_save E ?f None ?u ?w1] =>
        pose proof (URL_save_new_cases E f u w1 eq_refl) as Hsave;
        destruct (URL_save E f None u w1) as [[row|e|] w2]
    end;
    try (apply wrote_nothing; cbn; exact Hsave).
  all: destruct Hsave as (code & t & Hrow & Hfree & _ & Hdb);
    assert (Hw : wrote_at_most
                   (Py.strip (or_default (f_original_url (POST_data request)) ""))
                   w w2)
      by (unfold wrote_at_most; rewrite Hdb; cbn; split; [reflexivity|];
          right; exists row; repeat split;
          [exact Ht | rewrite Hrow; reflexivity
           | rewrite Hrow; cbn; exact Hfree]);
    unfold redirect_to_url_detail; mrun;
    destruct (str_converter_matches (short_code row)); cbn; exact Hw.
Qed.

(** The row a successful [api_create_url] persists. *)
Lemma api_create_url_saves (fuel : nat) (request : HttpRequest) (w : World)
    (members : list (string * json)) (text : string) (k : nat) :
  method request = POST ->
  body_json request = Loaded (JObject members) ->
  assoc_get "url" members = Some (JString text) ->
  Py.strip text <> "" ->
  code_choice E fuel w "" (candidate E w k) (6 * S k) ->
  let row :=
    mkURL (Some (url_seq (db w))) (add_protocol (Py.strip text))
          (candidate E w k) "" "" (Some (clock E (ticks w))) (user request)
          true None 0 None in
  api_create_url E fuel request w =
    (Return (JsonResponse (J_created (get_short_url E row) (candidate E w k)
                                     (add_protocol (Py.strip text))) 200),
     mkWorld (mkDB (urls (db w) ++ [row]) (clicks (db w)) (S (url_seq (db w)))
                   (click_seq (db w)))
             (S (ticks w)) (draws w + 6 * S k) (flash w)).
Proof.
  intros Hm Hbody Hurl Htext Hcode row.
  unfold api_create_url. rewrite Hm, Hbody.
  unfold try_except, bind at 1, ret at 1. unfold bind at 1.
  unfold json_get. rewrite Hurl. unfold ret at 1.
  unfold bind at 1. unfold json_strip, ret at 1.
  rewrite (proj2 (truthy_true _) Htext). cbn [negb].
  unfold bind at 1.
  rewrite (URL_save_choice E fuel _ _ (candidate E w k) (6 * S k));
    [|reflexivity|exact Hcode].
  reflexivity.
Qed.

(** Whatever [api_create_url] answers, it has written nothing or one row
    whose [original_url] is the trimmed, scheme-completed text. *)
Lemma api_create_url_writes (fuel : nat) (request : HttpRequest) (w : World)
    (text : string) :
  (forall members,
      body_json request = Loaded (JObject members) ->
      assoc_get "url" members = Some (JString text)
      \/ (assoc_get "url" members = None /\ text = "")
      \/ exists v, assoc_get "url" members = Some v
                   /\ forall s, v <> JString s) ->
  wrote_at_most (Py.strip text) w (snd (api_create_url E fuel request w)).
Proof.
  intros Hbody. unfold api_create_url.
  destruct (method request); try (apply wrote_nothing; reflexivity).
  destruct (body_json request) as [j|e0];
    [|apply wrote_nothing; destruct e0; reflexivity].
  unfold try_except, bind at 1, ret at 1. unfold bind at 1.
  destruct j; try (apply wrote_nothing; reflexivity).
  unfold json_get, ret at 1. unfold bind at 1.
  assert (Hv : exists v, (match assoc_get "url" members with
                          | Some v => v | None => JString "" end) = v
                         /\ (v = JString text \/ forall s, v <> JString s)).
  { destruct (Hbody members eq_refl) as [H | [(H & ->) | (v & H & Hv)]];
      rewrite H; eexists; split; try reflexivity; auto. }
  destruct Hv as (v & -> & [-> | Hv]).
  - unfold json_strip, ret at 1.
    destruct (Py.truthy (Py.strip text)) eqn:Ht; cbn [negb];
      [|apply wrote_nothing; reflexivity].
    apply truthy_true in Ht. unfold bind at 1.
    match goal with
    | |- context [URL_save E ?f None ?u ?w1] =>
        pose proof (URL_save_new_cases E f u w1 eq_refl) as Hsave;
        destruct (URL_save E f None u w1) as [[row|e|] w2]
    end.
    + destruct Hsave as (code & t & Hrow & Hfree & _ & Hdb).
      cbn. unfold wrote_at_most. rewrite Hdb. cbn. split; [reflexivity|].
      right. exists row. repeat split;
        [exact Ht | rewrite Hrow; reflexivity | rewrite Hrow; cbn; exact Hfree].
    + apply wrote_nothing. destruct e; cbn; exact Hsave.
    + apply wrote_nothing. cbn. exact Hsave.
  - destruct v; try (apply wrote_nothing; reflexivity).
    exfalso. apply (Hv s). reflexivity.
Qed.

End CreationSafety.

(** ** Claims on allocation *)

Section AllocationClaims.

Variable E : Externals.

(** C4. The code [generate_short_code] returns has length 6, is made of
    the 62 letters and digits, and is carried by no persisted row, active
    or not; the generator returns the first candidate that is free: it
    draws again after each collision, it is still looping while its fuel
    has not reached a free candidate, and it raises nothing.  [save()] of a
    new instance without a code persists it under that code. *)
Theorem generated_code_is_fresh (fuel : nat) (w : World) :
  (forall code w',
      generate_short_code E fuel w = (Return code, w') ->
      String.length code = 6%nat
      /\ Py.all_chars Py.isalnum_ascii code = true
      /\ (forall u, In u (urls (db w)) -> short_code u <> code)
      /\ db w' = db w
      /\ exists k, (k < fuel)%nat
           /\ code = candidate E w k
           /\ forall j, (j < k)%nat -> code_in_use (candidate E w j) (db w))
  /\ (forall k,
         (forall j, (j < k)%nat -> code_in_use (candidate E w j) (db w)) ->
         ~ code_in_use (candidate E w k) (db w) ->
         ((k < fuel)%nat ->
          generate_short_code E fuel w
            = (Return (candidate E w k), drawn (6 * S k) w)
          /\ forall self,
               pk self = None -> short_code self = "" ->
               URL_save E fuel None self w
                 = (Return (persisted (url_seq (db w)) (clock E (ticks w))
                                      (set_short_code (candidate E w k) self)),
                    after_insert E (set_short_code (candidate E w k) self)
                                 (drawn (6 * S k) w)))
         /\ ((fuel <= k)%nat ->
             generate_short_code E fuel w = (Diverge, drawn (6 * fuel) w)))
  /\ (forall e w', generate_short_code E fuel w <> (Raise e, w')).
Proof.
  split; [|split].
  - intros code w' Hrun.
    destruct (generate_short_code_returns E fuel w w' code Hrun)
      as (k & Hk & Hc & Hbefore & Hfree & Hw).
    repeat split.
    + rewrite Hc. apply draw_string_length.
    + rewrite Hc. apply draw_string_alnum.
    + intros u Hin Heq. apply Hfree. exists u. split; assumption.
    + rewrite Hw. reflexivity.
    + exists k. repeat split; assumption.
  - intros k Hbefore Hfree. split.
    + intros Hk. split.
      * rewrite (generate_short_code_first_free E k fuel w Hbefore Hfree).
        replace (fuel <=? k)%nat with false
          by (symmetry; apply Nat.leb_gt; exact Hk).
        reflexivity.
      * intros self Hp Hs. apply URL_save_choice; [exact Hp|].
        rewrite Hs. constructor; auto.
    + intros Hk.
      rewrite (generate_short_code_first_free E k fuel w Hbefore Hfree).
      replace (fuel <=? k)%nat with true
        by (symmetry; apply Nat.leb_le; exact Hk).
      reflexivity.
  - intros e w'. apply generate_short_code_no_raise.
Qed.

(** C5, as amended.  With a target URL that is not empty after trimming,
    a custom code that is (after trimming) the code of a persisted row,
    active or not, is refused with the message that the code exists; the
    call does not look for another code and writes nothing.  With an empty
    target URL the call is refused for the URL, whatever the custom code,
    and writes nothing either. *)
Theorem custom_code_taken (fuel : nat) (request : HttpRequest) (w : World) :
  method request = POST ->
  code_in_use (Py.strip (or_default (f_custom_code (POST_data request)) ""))
              (db w) ->
  Py.strip (or_default (f_custom_code (POST_data request)) "") <> "" ->
  (Py.strip (or_default (f_original_url (POST_data request)) "") <> "" ->
   create_short_url E fuel request w
     = (Return Redirect_home, flashed Msg_custom_code_exists w))
  /\ (Py.strip (or_default (f_original_url (POST_data request)) "") = "" ->
      create_short_url E fuel request w
        = (Return Redirect_home, flashed Msg_enter_valid_url w))
  /\ db (snd (create_short_url E fuel request w)) = db w.
Proof.
  intros Hm Huse Hne.
  assert (H1 : Py.strip (or_default (f_original_url (POST_data request)) "") <> "" ->
               create_short_url E fuel request w
               = (Return Redirect_home, flashed Msg_custom_code_exists w)).
  { intros Hurl. unfold create_short_url. rewrite Hm. cbv zeta.
    rewrite (proj2 (truthy_true _) Hurl). cbn [negb].
    unfold try_except, bind at 1.
    rewrite (handle_custom_code_taken w _ _ Hne Huse). reflexivity. }
  assert (H2 : Py.strip (or_default (f_original_url (POST_data request)) "") = "" ->
               create_short_url E fuel request w
               = (Return Redirect_home, flashed Msg_enter_valid_url w)).
  { intros Hurl. unfold create_short_url. rewrite Hm. cbv zeta.
    rewrite Hurl. reflexivity. }
  split; [exact H1|]. split; [exact H2|].
  destruct (Py.truthy (Py.strip (or_default (f_original_url (POST_data request)) "")))
    eqn:Ht.
  - rewrite H1; [reflexivity|]. apply truthy_true. exact Ht.
  - rewrite H2; [reflexivity|]. apply truthy_false. exact Ht.
Qed.

End AllocationClaims.

Lemma sample_collision : code_in_use (candidate Sample.E Sample.world 0) Sample.store.
Proof.
  exists (Sample.link 4 "abcdef" "https://example.com/a" true
                      (Some (Sample.t0 + 1000000)) 0).
  split; [simpl; tauto | reflexivity].
Qed.

Lemma sample_free (code : string) :
  code_in_useb code Sample.store = false -> ~ code_in_use code Sample.store.
Proof.
  intros Hb H. apply code_in_useb_spec in H. congruence.
Qed.

Lemma generated_code_is_fresh_witness :
  generate_short_code Sample.E 3 Sample.world
    = (Return "ghijkl", drawn 12 Sample.world)
  /\ generate_short_code Sample.E 1 Sample.world
    = (Diverge, drawn 6 Sample.world).
Proof.
  destruct (generated_code_is_fresh Sample.E 3 Sample.world) as (_ & H3 & _).
  destruct (generated_code_is_fresh Sample.E 1 Sample.world) as (_ & H1 & _).
  assert (Hbefore : forall j, (j < 1)%nat ->
            code_in_use (candidate Sample.E Sample.world j) (db Sample.world)).
  { intros j Hj. replace j with 0%nat by lia. exact sample_collision. }
  assert (Hfree : ~ code_in_use (candidate Sample.E Sample.world 1)
                                (db Sample.world)).
  { apply sample_free. reflexivity. }
  split.
  - apply (H3 1%nat Hbefore Hfree). lia.
  - apply (H1 1%nat Hbefore Hfree). lia.
Defined.

(** C5 as first stated fails: with an empty target URL, a custom code that
    is taken is not what the call reports. *)
Lemma custom_code_taken_counterexample :
  code_in_use "docs" Sample.store
  /\ create_short_url Sample.E 3 (Sample.form "  " (Some "docs") None)
                      Sample.world
     = (Return Redirect_home, flashed Msg_enter_valid_url Sample.world)
  /\ create_short_url Sample.E 3 (Sample.form "  " (Some "docs") None)
                      Sample.world
     <> (Return Redirect_home, flashed Msg_custom_code_exists Sample.world).
Proof.
  split; [|split].
  - exists (Sample.link 1 "docs" "https://example.com/docs" true None 4).
    split; [simpl; tauto | reflexivity].
  - reflexivity.
  - intros H. vm_compute in H. discriminate H.
Qed.

Lemma custom_code_taken_witness :
  create_short_url Sample.E 3 (Sample.form "example.org" (Some " old ") None)
                   Sample.world
    = (Return Redirect_home, flashed Msg_custom_code_exists Sample.world).
Proof.
  apply (custom_code_taken Sample.E 3
           (Sample.form "example.org" (Some " old ") None) Sample.world).
  - reflexivity.
  - exists (Sample.link 2 "old" "https://example.com/old" false None 0).
    split; [simpl; tauto | reflexivity].
  - vm_compute. discriminate.
  - vm_compute. discriminate.
Defined.

Section NormalisationClaims.

Variable E : Externals.

Lemma add_protocol_bare (s : string) :
  Py.startswith s "http://" = false -> Py.startswith s "https://" = false ->
  add_protocol s = "https://" ++ s.
Proof. intros H1 H2. unfold add_protocol. rewrite H1, H2. reflexivity. Qed.

Lemma add_protocol_schemed (s : string) :
  Py.startswith s "http://" = true \/ Py.startswith s "https://" = true ->
  add_protocol s = s.
Proof.
  intros [H | H]; unfold add_protocol; rewrite H;
    [|rewrite orb_true_r]; reflexivity.
Qed.

(** C8. In both creation views the target URL is trimmed; when the trimmed
    text is empty the call is refused and nothing is written; a row that
    the call writes holds the trimmed text, with ["https://"] put in front
    when it starts with neither ["http://"] nor ["https://"], and as it is
    when it starts with one of them; and the call does write that row when
    a code and an expiry can be chosen. *)
Theorem target_url_normalised (fuel : nat) (request : HttpRequest) (w : World) :
  let target := Py.strip (or_default (f_original_url (POST_data request)) "") in
  (* the form view *)
  (method request = POST -> target = "" ->
   create_short_url E fuel request w
     = (Return Redirect_home, flashed Msg_enter_valid_url w))
  /\ wrote_at_most target w (snd (create_short_url E fuel request w))
  /\ (forall code g exp n,
         method request = POST -> target <> "" ->
         code_choice E fuel w
           (Py.strip (or_default (f_custom_code (POST_data request)) "")) code g ->
         expiry_choice E w (f_expires_in_days (POST_data request)) exp n ->
         exists row,
           urls (db (snd (create_short_url E fuel request w)))
             = (urls (db w) ++ [row])%list
           /\ original_url row = add_protocol target
           /\ short_code row = code)
  (* the JSON view *)
  /\ (forall members text,
         method request = POST ->
         body_json request = Loaded (JObject members) ->
         assoc_get "url" members = Some (JString text)
         \/ (assoc_get "url" members = None /\ text = "") ->
         (Py.strip text = "" ->
          api_create_url E fuel request w
            = (Return (JsonResponse J_error_url_required 400), w))
         /\ wrote_at_most (Py.strip text) w (snd (api_create_url E fuel request w))
         /\ (forall k,
                Py.strip text <> "" ->
                code_choice E fuel w "" (candidate E w k) (6 * S k) ->
                exists row,
                  urls (db (snd (api_create_url E fuel request w)))
                    = (urls (db w) ++ [row])%list
                  /\ original_url row = add_protocol (Py.strip text)
                  /\ short_code row = candidate E w k))
  (* what the stored text is *)
  /\ (forall s,
         (Py.startswith s "http://" = false ->
          Py.startswith s "https://" = false ->
          add_protocol s = "https://" ++ s)
         /\ (Py.startswith s "http://" = true
             \/ Py.startswith s "https://" = true ->
             add_protocol s = s)).
Proof.
  intros target. split; [|split; [|split; [|split]]].
  - intros Hm Ht. unfold create_short_url. rewrite Hm. cbv zeta.
    fold target. rewrite Ht. reflexivity.
  - apply create_short_url_writes.
  - intros code g exp n Hm Ht Hcode Hexp.
    rewrite (create_short_url_saves E fuel request w code g exp n Hm Ht Hcode Hexp).
    destruct (str_converter_matches code); eexists; cbn; repeat split.
  - intros members text Hm Hbody Hurl. split; [|split].
    + intros Ht. unfold api_create_url. rewrite Hm, Hbody.
      unfold try_except, bind at 1, ret at 1. unfold bind at 1.
      unfold json_get, ret at 1. unfold bind at 1.
      destruct Hurl as [-> | (-> & ->)]; unfold json_strip, ret at 1.
      * rewrite Ht. reflexivity.
      * reflexivity.
    + apply api_create_url_writes. intros ms Hms.
      rewrite Hbody in Hms. injection Hms as <-.
      destruct Hurl as [H | H]; auto.
    + intros k Ht Hcode. destruct Hurl as [Hurl | (_ & ->)];
        [|exfalso; apply Ht; reflexivity].
      rewrite (api_create_url_saves E fuel request w members text k
                 Hm Hbody Hurl Ht Hcode).
      eexists. cbn. repeat split.
  - intros s. split; [apply add_protocol_bare | apply add_protocol_schemed].
Qed.

End NormalisationClaims.

Lemma sample_choice_generated (fuel : nat) :
  (1 < fuel)%nat ->
  code_choice Sample.E fuel Sample.world "" "ghijkl" 12.
Proof.
  intros Hf.
  apply (choice_generated Sample.E fuel Sample.world "" 1 eq_refl Hf).
  - intros j Hj. replace j with 0%nat by lia. exact sample_collision.
  - apply sample_free. reflexivity.
Qed.

Lemma target_url_normalised_witness :
  (exists row,
      urls (db (snd (create_short_url Sample.E 3
                       (Sample.form " example.com/page " None None)
                       Sample.world)))
        = (urls Sample.store ++ [row])%list
      /\ original_url row = "https://example.com/page"
      /\ short_code row = "ghijkl")
  /\ create_short_url Sample.E 3 (Sample.form "   " None None) Sample.world
     = (Return Redirect_home, flashed Msg_enter_valid_url Sample.world)
  /\ add_protocol "http://x.com" = "http://x.com".
Proof.
  pose proof (target_url_normalised Sample.E 3
                (Sample.form " example.com/page " None None) Sample.world)
    as (_ & _ & Hsave & _ & _).
  pose proof (target_url_normalised Sample.E 3
                (Sample.form "   " None None) Sample.world)
    as (Hempty & _ & _ & _ & Hadd).
  split; [|split].
  - apply (Hsave "ghijkl" 12%nat None 0%nat).
    + reflexivity.
    + vm_compute. discriminate.
    + apply sample_choice_generated. lia.
    + apply expiry_absent. reflexivity.
  - apply Hempty; reflexivity.
  - apply (proj2 (Hadd "http://x.com")). left. reflexivity.
Defined.

Section ExpiryClaims.

Variable E : Externals.

Lemma int_some_nonempty (s : string) (d : Z) : Py.int s = Some d -> s <> "".
Proof. intros H ->. discriminate H. Qed.

Lemma create_short_url_ignores_days (fuel : nat) (request : HttpRequest)
    (w : World) :
  Py.int (or_default (f_expires_in_days (POST_data request)) "") = None ->
  create_short_url E fuel request w
    = create_short_url E fuel (without_days request) w.
Proof.
  intros Hint. unfold create_short_url, without_days. cbn [method POST_data
    f_original_url f_title f_description f_custom_code f_expires_in_days user].
  destruct (method request); try reflexivity.
  cbv zeta.
  destruct (negb (Py.truthy (Py.strip (or_default (f_original_url (POST_data request)) ""))));
    [reflexivity|].
  unfold try_except, bind.
  destruct (handle_custom_code _ _ w) as [[[resp|u]|e|] w1]; try reflexivity.
  rewrite !handle_expiration_spec, Hint. cbn [or_default Py.truthy].
  destruct (Py.truthy _); reflexivity.
Qed.

Lemma create_short_url_overflow (fuel : nat) (request : HttpRequest) (w : World)
    (code : string) (g : nat) (d : Z) :
  method request = POST ->
  Py.strip (or_default (f_original_url (POST_data request)) "") <> "" ->
  code_choice E fuel w
    (Py.strip (or_default (f_custom_code (POST_data request)) "")) code g ->
  Py.int (or_default (f_expires_in_days (POST_data request)) "") = Some d ->
  representable (clock E (ticks w)) d = false ->
  create_short_url E fuel request w
    = (Return Redirect_home,
       flashed (Msg_error_creating OverflowError) (ticked w)).
Proof.
  intros Hm Hurl Hcode Hint Hrep.
  unfold create_short_url. rewrite Hm. cbv zeta.
  rewrite (proj2 (truthy_true _) Hurl). cbn [negb].
  unfold try_except. unfold bind at 1.
  rewrite (handle_custom_code_choice E fuel w _ code g);
    [|reflexivity|exact Hcode].
  unfold bind at 1. rewrite handle_expiration_spec, Hint, Hrep.
  rewrite (proj2 (truthy_true _) (int_some_nonempty _ _ Hint)).
  reflexivity.
Qed.

(** C9, as amended.  An [expires_in_days] text that is not an integer is
    ignored: the call does what it does without the field, and the link it
    creates has no expiry.  A text that is an integer [d] for which
    [now + d] days can be computed (at most 999999999 days in size, the sum
    within the years 1 to 9999) gives the link the expiry [now + d] days.
    An integer for which the sum cannot be computed makes the call fail
    with an error message, and no link is written. *)
Theorem expiry_from_days (fuel : nat) (request : HttpRequest) (w : World)
    (code : string) (g : nat) :
  method request = POST ->
  Py.strip (or_default (f_original_url (POST_data request)) "") <> "" ->
  code_choice E fuel w
    (Py.strip (or_default (f_custom_code (POST_data request)) "")) code g ->
  let text := or_default (f_expires_in_days (POST_data request)) "" in
  let now := clock E (ticks w) in
  (Py.int text = None ->
   create_short_url E fuel request w
     = create_short_url E fuel (without_days request) w
   /\ exists row,
        urls (db (snd (create_short_url E fuel request w)))
          = (urls (db w) ++ [row])%list
        /\ short_code row = code
        /\ expires_at row = None
        /\ flash (snd (create_short_url E fuel request w))
             = (flash w ++ Msg_created (get_short_url E row)
                  :: (if str_converter_matches code then []
                      else [Msg_error_creating NoReverseMatch]))%list)
  /\ (forall d,
         Py.int text = Some d -> representable now d = true ->
         exists row,
           urls (db (snd (create_short_url E fuel request w)))
             = (urls (db w) ++ [row])%list
           /\ short_code row = code
           /\ expires_at row = Some (now + d * Py.us_per_day))
  /\ (forall d,
         Py.int text = Some d -> representable now d = false ->
         create_short_url E fuel request w
           = (Return Redirect_home,
              flashed (Msg_error_creating OverflowError) (ticked w))).
Proof.
  intros Hm Hurl Hcode text now. split; [|split].
  - intros Hint. split; [apply create_short_url_ignores_days; exact Hint|].
    rewrite (create_short_url_saves E fuel request w code g None 0 Hm Hurl Hcode
               (expiry_unparsable E w _ Hint)).
    destruct (str_converter_matches code); eexists; cbn;
      repeat split; rewrite <- app_assoc; reflexivity.
  - intros d Hint Hrep.
    rewrite (create_short_url_saves E fuel request w code g _ 1 Hm Hurl Hcode
               (expiry_days E w _ d (int_some_nonempty _ _ Hint) Hint Hrep)).
    destruct (str_converter_matches code); eexists; cbn; repeat split.
  - intros d Hint Hrep.
    apply (create_short_url_overflow fuel request w code g d); assumption.
Qed.

(** C10, as amended.  An [expires_in_days] text that is an integer
    [d <= 0] for which [now + d] days can be computed is accepted: the link
    is created, active, with the expiry [now + d] days, which is not after
    [now].  From then on a redirect of its code made when the clock reads
    a time after that expiry renders the expiry page and writes nothing;
    on a clock that strictly increases this is every later redirect. *)
Theorem nonpositive_days_expire_at_once (fuel : nat) (request : HttpRequest)
    (w : World) (code : string) (g : nat) (d : Z) :
  method request = POST ->
  Py.strip (or_default (f_original_url (POST_data request)) "") <> "" ->
  code_choice E fuel w
    (Py.strip (or_default (f_custom_code (POST_data request)) "")) code g ->
  Py.int (or_default (f_expires_in_days (POST_data request)) "") = Some d ->
  d <= 0 ->
  representable (clock E (ticks w)) d = true ->
  let now := clock E (ticks w) in
  exists row,
    urls (db (snd (create_short_url E fuel request w)))
      = (urls (db w) ++ [row])%list
    /\ short_code row = code
    /\ is_active row = true
    /\ expires_at row = Some (now + d * Py.us_per_day)
    /\ now + d * Py.us_per_day <= now
    /\ (forall fuel' request' w2,
           db_ok (db w2) -> In row (urls (db w2)) ->
           now + d * Py.us_per_day < clock E (ticks w2) ->
           exists w3,
             redirect_url E fuel' request' code w2
               = (Return (Render_expired row), w3)
             /\ db w3 = db w2)
    /\ ((forall a b, (a < b)%nat -> clock E a < clock E b) ->
        forall fuel' request' w2,
          db_ok (db w2) -> In row (urls (db w2)) ->
          (ticks w < ticks w2)%nat ->
          exists w3,
            redirect_url E fuel' request' code w2
              = (Return (Render_expired row), w3)
            /\ db w3 = db w2).
Proof.
  intros Hm Hurl Hcode Hint Hd Hrep now.
  rewrite (create_short_url_saves E fuel request w code g _ 1 Hm Hurl Hcode
             (expiry_days E w _ d (int_some_nonempty _ _ Hint) Hint Hrep)).
  assert (Hle : now + d * Py.us_per_day <= now)
    by (unfold Py.us_per_day; lia).
  assert (Hlater : forall row fuel' request' w2,
             short_code row = code -> is_active row = true ->
             expires_at row = Some (now + d * Py.us_per_day) ->
             db_ok (db w2) -> In row (urls (db w2)) ->
             now + d * Py.us_per_day < clock E (ticks w2) ->
             exists w3,
               redirect_url E fuel' request' code w2
                 = (Return (Render_expired row), w3)
               /\ db w3 = db w2).
  { intros row fuel' request' w2 Hc Ha He (Hok & _) Hin Hlt. rewrite <- Hc.
    rewrite (redirect_url_expired E fuel' request' w2 row _ Hok Hin Ha He Hlt).
    eexists. split; reflexivity. }
  destruct (str_converter_matches code); eexists; cbn;
    (split; [reflexivity|]); (split; [reflexivity|]);
    (split; [reflexivity|]); (split; [reflexivity|]);
    (split; [exact Hle|]); split.
  all: try (intros fuel' request' w2 Hok Hin Hlt;
            apply Hlater; auto; fail).
  all: intros Hmono fuel' request' w2 Hok Hin Hlt;
    apply Hlater; auto;
    specialize (Hmono _ _ Hlt); fold now in Hmono; lia.
Qed.

End ExpiryClaims.

(** C9 as first stated fails: ["10000000000"] is an integer, and the call
    creates no link at all. *)
Lemma expiry_from_days_counterexample :
  Py.int "10000000000" = Some 10000000000
  /\ create_short_url Sample.E 3
       (Sample.form "example.com" None (Some "10000000000")) Sample.world
     = (Return Redirect_home,
        flashed (Msg_error_creating OverflowError) (ticked Sample.world))
  /\ urls (db (snd (create_short_url Sample.E 3
                      (Sample.form "example.com" None (Some "10000000000"))
                      Sample.world)))
     = urls Sample.store.
Proof. repeat split; vm_compute; reflexivity. Qed.

Lemma expiry_from_days_witness :
  (exists row,
      urls (db (snd (create_short_url Sample.E 3
                       (Sample.form "example.com" None (Some " 30 "))
                       Sample.world)))
        = (urls Sample.store ++ [row])%list
      /\ short_code row = "ghijkl"
      /\ expires_at row = Some (Sample.t0 + 30 * Py.us_per_day))
  /\ create_short_url Sample.E 3
       (Sample.form "example.com" None (Some "soon")) Sample.world
     = create_short_url Sample.E 3
         (Sample.form "example.com" None None) Sample.world.
Proof.
  split.
  - apply (expiry_from_days Sample.E 3
             (Sample.form "example.com" None (Some " 30 ")) Sample.world
             "ghijkl" 12).
    + reflexivity.
    + vm_compute. discriminate.
    + apply sample_choice_generated. lia.
    + reflexivity.
    + reflexivity.
  - apply (expiry_from_days Sample.E 3
             (Sample.form "example.com" None (Some "soon")) Sample.world
             "ghijkl" 12).
    + reflexivity.
    + vm_compute. discriminate.
    + apply sample_choice_generated. lia.
    + reflexivity.
Defined.

(** C10 as first stated fails, twice.  ["-1000000"] is a negative
    integer, and the call does not accept it: no link is created.  And a
    link created with ["0"] expires at the instant of its creation, but a
    later redirect that reads the same instant from the clock (the wall
    clock does not have to advance between two readings) does not find it
    expired: it records the click and answers with the redirect. *)
Lemma nonpositive_days_counterexample :
  (Py.int "-1000000" = Some (-1000000)
   /\ create_short_url Sample.E 3
        (Sample.form "example.com" None (Some "-1000000")) Sample.world
      = (Return Redirect_home,
         flashed (Msg_error_creating OverflowError) (ticked Sample.world))
   /\ urls (db (snd (create_short_url Sample.E 3
                       (Sample.form "example.com" None (Some "-1000000"))
                       Sample.world)))
      = urls Sample.store)
  /\ (Py.int "0" = Some 0
      /\ map expires_at
           (urls (db (snd (create_short_url Sample.E_still 3
                             (Sample.form "example.com" (Some "now") (Some "0"))
                             Sample.world))))
         = (map expires_at (urls Sample.store) ++ [Some (clock Sample.E_still 0)])%list
      /\ fst (redirect_url Sample.E_still 0 Sample.visit "now"
                (snd (create_short_url Sample.E_still 3
                        (Sample.form "example.com" (Some "now") (Some "0"))
                        Sample.world)))
         = Return (HttpResponseRedirect "https://example.com")
      /\ List.length
           (clicks (db (snd (redirect_url Sample.E_still 0 Sample.visit "now"
                               (snd (create_short_url Sample.E_still 3
                                       (Sample.form "example.com" (Some "now")
                                                    (Some "0"))
                                       Sample.world))))))
         = 1%nat).
Proof. repeat split; vm_compute; reflexivity. Qed.

Lemma nonpositive_days_expire_at_once_witness :
  exists row,
    urls (db (snd (create_short_url Sample.E 3
                     (Sample.form "example.com" (Some "now") (Some "0"))
                     Sample.world)))
      = (urls Sample.store ++ [row])%list
    /\ short_code row = "now"
    /\ expires_at row = Some Sample.t0
    /\ exists w3,
         redirect_url Sample.E 0 Sample.visit "now"
           (snd (create_short_url Sample.E 3
                   (Sample.form "example.com" (Some "now") (Some "0"))
                   Sample.world))
           = (Return (Render_expired row), w3).
Proof.
  destruct (nonpositive_days_expire_at_once Sample.E 3
              (Sample.form "example.com" (Some "now") (Some "0")) Sample.world
              "now" 0 0)
    as (row & Hurls & Hcode & _ & Hexp & _ & Hlater & _).
  - reflexivity.
  - vm_compute. discriminate.
  - apply choice_custom; [vm_compute; discriminate|].
    apply sample_free. reflexivity.
  - reflexivity.
  - lia.
  - reflexivity.
  - exists row. split; [exact Hurls|]. split; [exact Hcode|].
    split; [exact Hexp|].
    destruct (Hlater 0%nat Sample.visit
                (snd (create_short_url Sample.E 3
                        (Sample.form "example.com" (Some "now") (Some "0"))
                        Sample.world)))
      as (w3 & Hrun & _).
    + unfold db_ok. rewrite Hurls.
      vm_compute in Hurls. injection Hurls as <-.
      cbn. repeat split; explicit_list.
    + rewrite Hurls. apply in_or_app. right. left. reflexivity.
    + vm_compute. reflexivity.
    + exists w3. exact Hrun.
Defined.

(** ** Calls side by side *)

Ltac tstep :=
  try unfold ret;
  cbn [fold_left exec exec_event finish set_nth nth_error thread_step
       thread_fail fst snd].

Section ThreadSteps.

Variable E : Externals.

Lemma after_count_after_record (request : HttpRequest) (u : URL) (p : nat)
    (w : World) :
  after_count E u p (after_record E request u p w) = after_click E request u p w.
Proof.
  unfold after_count, after_record, after_click, click_row.
  destruct (parse_user_agent E (or_default (HTTP_USER_AGENT (META request)) ""))
    as [[br os'] dev].
  reflexivity.
Qed.

Lemma step_start (fuel : nat) (request : HttpRequest) (w : World) (u : URL) :
  NoDup (map short_code (urls (db w))) -> In u (urls (db w)) ->
  is_active u = true ->
  thread_step E fuel (T_start request (short_code u)) w = (T_loaded request u, w).
Proof.
  intros Hnd Hin Hact. cbn [thread_step].
  rewrite (get_object_found w u Hnd Hin Hact). reflexivity.
Qed.

Lemma record_click_spec (request : HttpRequest) (w : World) (u : URL) (p : nat)
    (a : string) :
  pk u = Some p -> existsb (has_pk p) (urls (db w)) = true ->
  (forall e, expires_at u = Some e -> clock E (ticks w) <= e) ->
  ip_address_prep E (get_client_ip request) = Some a ->
  record_click E request u w
    = (Return (inr (click_row E request p (click_seq (db w))
                              (clock E (ticks w + expiry_reads u)))),
       after_record E request u p w).
Proof.
  intros Hp Hex Hexp Hip. unfold record_click, bind at 1.
  rewrite (is_expired_false E w u Hexp).
  unfold after_record, click_row.
  destruct (parse_user_agent E (or_default (HTTP_USER_AGENT (META request)) ""))
    as [[br os'] dev].
  unfold bind at 1.
  rewrite (click_create_spec E _ u p _ a); [|exact Hp|exact Hex|exact Hip].
  rewrite Hip. reflexivity.
Qed.

Lemma step_loaded (fuel : nat) (request : HttpRequest) (w : World) (u : URL)
    (p : nat) (a : string) :
  pk u = Some p -> existsb (has_pk p) (urls (db w)) = true ->
  (forall e, expires_at u = Some e -> clock E (ticks w) <= e) ->
  ip_address_prep E (get_client_ip request) = Some a ->
  thread_step E fuel (T_loaded request u) w
    = (T_clicked request u, after_record E request u p w).
Proof.
  intros Hp Hex Hexp Hip. cbn [thread_step].
  rewrite (record_click_spec request w u p a Hp Hex Hexp Hip). reflexivity.
Qed.

Lemma step_clicked (fuel : nat) (request : HttpRequest) (w : World) (u : URL)
    (p : nat) :
  pk u = Some p -> short_code u <> "" ->
  existsb (has_pk p) (urls (db w)) = true ->
  thread_step E fuel (T_clicked request u) w
    = (T_done (redirect_answer E (original_url u)), after_count E u p w).
Proof.
  intros Hp Hcode Hex. cbn [thread_step]. unfold bind.
  rewrite (increment_click_spec E fuel w u p Hp Hcode Hex).
  rewrite new_redirect_spec. cbn [original_url set_last_clicked set_click_count].
  unfold after_count.
  destruct (redirect_answer E (original_url u)); reflexivity.
Qed.

(** The store refuses the INSERT: the expiry was tested and the clock read
    for [clicked_at]. *)
Lemma fail_loaded (request : HttpRequest) (w : World) (u : URL) :
  (forall e, expires_at u = Some e -> clock E (ticks w) <= e) ->
  thread_fail E (T_loaded request u) w
    = (T_done (Raise DatabaseError), clock_read (S (expiry_reads u)) w).
Proof.
  intros Hexp. cbn [thread_fail]. unfold bind at 1.
  rewrite (is_expired_false E w u Hexp).
  unfold bind, timezone_now, raise, clock_read. cbn [finish db ticks draws flash].
  rewrite Nat.add_succ_r. reflexivity.
Qed.

(** The store refuses the UPDATE: the clock was read for [last_clicked]. *)
Lemma fail_clicked (request : HttpRequest) (w : World) (u : URL) :
  short_code u <> "" ->
  thread_fail E (T_clicked request u) w
    = (T_done (Raise DatabaseError), clock_read 1 w).
Proof.
  intros Hcode. cbn [thread_fail]. rewrite (truthy_nonempty _ Hcode).
  unfold bind, timezone_now, raise, clock_read.
  cbn [negb finish db ticks draws flash]. rewrite Nat.add_1_r. reflexivity.
Qed.

(** A property of the pool and the world that every event keeps holds
    after any schedule. *)
Lemma exec_invariant (fuel : nat) (P : list thread * World -> Prop) :
  (forall ev s, P s -> P (exec_event E fuel ev s)) ->
  forall evs s, P s -> P (exec E fuel evs s).
Proof.
  intros Hstep evs. induction evs as [|ev evs IH]; intros s Hs.
  - exact Hs.
  - cbn [exec fold_left]. apply IH. apply Hstep. exact Hs.
Qed.

(** The view is its three statements run without interruption. *)
Lemma redirect_url_as_steps (fuel : nat) (request : HttpRequest) (code : string)
    (w : World) :
  exec E fuel [Ev_step 0; Ev_step 0; Ev_step 0] ([T_start request code], w)
    = ([T_done (fst (redirect_url E fuel request code w))],
       snd (redirect_url E fuel request code w)).
Proof.
  unfold exec, redirect_url, bind. tstep.
  destruct (get_object_or_404_active code w) as [[u|e|] w1];
    tstep; try reflexivity.
  unfold record_click, bind.
  destruct (is_expired E u w1) as [[[|]|e|] w2]; tstep; try reflexivity.
  destruct (parse_user_agent E (or_default (HTTP_USER_AGENT (META request)) ""))
    as [[br os'] dev].
  destruct (Click_objects_create E u (get_client_ip request)
              (or_default (HTTP_USER_AGENT (META request)) "")
              (HTTP_REFERER (META request)) br os' dev w2)
    as [[c|e|] w3]; tstep; try reflexivity.
  unfold bind.
  destruct (increment_click E fuel u w3) as [[u'|e|] w4]; tstep;
    try reflexivity.
  destruct (new_HttpResponseRedirect E (original_url u') w4) as [[r|e|] w5];
    reflexivity.
Qed.

End ThreadSteps.

Section SingleCall.

Variable E : Externals.
Variable fuel : nat.
Variable request : HttpRequest.
Variable w : World.
Variable u : URL.
Variable p : nat.
Variable a : string.

Hypothesis Hok : db_ok (db w).
Hypothesis Hin : In u (urls (db w)).
Hypothesis Hact : is_active u = true.
Hypothesis Hp : pk u = Some p.
Hypothesis Hcode : short_code u <> "".
Hypothesis Hexp : forall e, expires_at u = Some e -> clock E (ticks w) <= e.
Hypothesis Hip : ip_address_prep E (get_client_ip request) = Some a.

Lemma call_state_event (ev : event) (t : thread) (w1 : World) :
  call_state E request u p w t w1 ->
  exists t' w', exec_event E fuel ev ([t], w1) = ([t'], w')
                /\ call_state E request u p w t' w'.
Proof.
  intros Hs.
  assert (Hex : existsb (has_pk p) (urls (db w)) = true)
    by exact (existsb_has_pk _ u p Hin Hp).
  destruct ev as [[|i] | [|i]].
  - (* the call moves *)
    cbn [exec_event nth_error].
    destruct Hs.
    + rewrite (step_start E fuel request w u (proj1 Hok) Hin Hact).
      eexists. eexists. split; [reflexivity | constructor].
    + rewrite (step_loaded E fuel request w u p a Hp Hex Hexp Hip).
      eexists. eexists. split; [reflexivity | constructor].
    + eexists. eexists. split; [reflexivity | constructor].
    + eexists. eexists. split; [reflexivity | constructor].
    + rewrite (step_clicked E fuel request (after_record E request u p w) u p
                 Hp Hcode Hex).
      rewrite after_count_after_record.
      eexists. eexists. split; [reflexivity | constructor].
    + eexists. eexists. split; [reflexivity | constructor].
    + eexists. eexists. split; [reflexivity | constructor].
  - cbn [exec_event nth_error]. destruct i; cbn [nth_error];
      eexists; eexists; (split; [reflexivity | exact Hs]).
  - (* the store refuses the next statement of the call *)
    cbn [exec_event nth_error].
    destruct Hs.
    + eexists. eexists. split; [reflexivity | constructor].
    + rewrite (fail_loaded E request w u Hexp).
      eexists. eexists. split; [reflexivity | constructor].
    + eexists. eexists. split; [reflexivity | constructor].
    + eexists. eexists. split; [reflexivity | constructor].
    + rewrite (fail_clicked E request _ u Hcode).
      eexists. eexists. split; [reflexivity | constructor].
    + eexists. eexists. split; [reflexivity | constructor].
    + eexists. eexists. split; [reflexivity | constructor].
  - cbn [exec_event nth_error]. destruct i; cbn [nth_error];
      eexists; eexists; (split; [reflexivity | exact Hs]).
Qed.

Lemma call_state_reached (evs : list event) :
  exists t' w',
    exec E fuel evs ([T_start request (short_code u)], w) = ([t'], w')
    /\ call_state E request u p w t' w'.
Proof.
  apply (exec_invariant E fuel
           (fun s => exists t' w', s = ([t'], w')
                                   /\ call_state E request u p w t' w')).
  - intros ev s (t1 & w1 & -> & Hs). apply call_state_event. exact Hs.
  - eexists. eexists. split; [reflexivity | constructor].
Qed.

End SingleCall.

(** C6, as amended.  [views.py] opens no transaction: the INSERT of the
    click and the UPDATE of the counter are two statements, in this order.
    Whatever the schedule of one call that can record its click (its
    request carries an address that is not empty), and whichever of its
    statements the store refuses, the call stands in one of three stores:
    nothing written; the click inserted and the counter not written (the
    call still has its UPDATE ahead, or the store refused the UPDATE and
    the call ended with that error); or both written, which is the only
    store in which the call gives its answer.  The counter is never
    written without the click.  When the handler runs requests in a
    transaction ([ATOMIC_REQUESTS]), a call that ends with an exception
    leaves the store as it found it; when it does not, the store stays as
    the statements left it. *)
Theorem click_then_count (E : Externals) (fuel : nat) (request : HttpRequest)
    (w : World) (u : URL) (p : nat) (ip a : string) :
  db_ok (db w) ->
  In u (urls (db w)) -> is_active u = true -> pk u = Some p ->
  short_code u <> "" ->
  (forall e, expires_at u = Some e -> clock E (ticks w) <= e) ->
  get_client_ip request = Some ip -> stored_as E ip a ->
  let start := ([T_start request (short_code u)], w) in
  let answered := T_done (redirect_answer E (original_url u)) in
  let refused := T_done (Raise DatabaseError) in
  let click := click_row E request p (click_seq (db w))
                         (clock E (ticks w + expiry_reads u)) in
  let click_only := db (after_record E request u p w) in
  let both := db (after_click E request u p w) in
  (forall evs, exists t' w',
      exec E fuel evs start = ([t'], w')
      /\ ((db w' = db w
           /\ (t' = T_start request (short_code u) \/ t' = T_loaded request u
               \/ t' = refused))
          \/ (db w' = click_only
              /\ (t' = T_clicked request u \/ t' = refused))
          \/ (db w' = both /\ t' = answered)))
  /\ urls click_only = urls (db w)
  /\ clicks click_only = (clicks (db w) ++ [click])%list
  /\ urls both
       = with_click p (click_count u + 1)
                    (Some (clock E (S (ticks w + expiry_reads u))))
                    (urls (db w))
  /\ clicks both = (clicks (db w) ++ [click])%list
  /\ (exists w',
         exec E fuel [Ev_step 0; Ev_step 0; Ev_fail 0] start = ([refused], w')
         /\ db w' = click_only)
  /\ (exists w',
         exec E fuel [Ev_step 0; Ev_fail 0] start = ([refused], w')
         /\ db w' = db w)
  /\ exec E fuel [Ev_step 0; Ev_step 0; Ev_step 0] start
       = ([answered], after_click E request u p w)
  /\ (forall evs t' w',
         served_alone E fuel evs request (short_code u) w = (t', w') ->
         (ATOMIC_REQUESTS E = true ->
          (exists e, t' = T_done (Raise e)) -> db w' = db w)
         /\ (ATOMIC_REQUESTS E = false ->
             exec E fuel evs start = ([t'], w'))).
Proof.
  intros Hok Hin Hact Hp Hcode Hexp Hget Hst start answered refused click
         click_only both.
  assert (Hip : ip_address_prep E (get_client_ip request) = Some a)
    by (rewrite Hget; apply stored_as_prep; exact Hst).
  assert (Hex : existsb (has_pk p) (urls (db w)) = true)
    by exact (existsb_has_pk _ u p Hin Hp).
  assert (H1 : exec_event E fuel (Ev_step 0) start = ([T_loaded request u], w)).
  { unfold start. cbn [exec_event nth_error].
    rewrite (step_start E fuel request w u (proj1 Hok) Hin Hact). reflexivity. }
  assert (H2 : exec_event E fuel (Ev_step 0) ([T_loaded request u], w)
               = ([T_clicked request u], after_record E request u p w)).
  { cbn [exec_event nth_error].
    rewrite (step_loaded E fuel request w u p a Hp Hex Hexp Hip). reflexivity. }
  assert (H3 : exec_event E fuel (Ev_step 0)
                 ([T_clicked request u], after_record E request u p w)
               = ([answered], after_click E request u p w)).
  { cbn [exec_event nth_error].
    rewrite (step_clicked E fuel request (after_record E request u p w) u p
                 Hp Hcode Hex).
    rewrite after_count_after_record. reflexivity. }
  assert (Hworlds :
            urls both
              = with_click p (click_count u + 1)
                           (Some (clock E (S (ticks w + expiry_reads u))))
                           (urls (db w))
            /\ clicks both = (clicks (db w) ++ [click])%list).
  { unfold both, after_click, click, click_row.
    destruct (parse_user_agent E (or_default (HTTP_USER_AGENT (META request)) ""))
      as [[br os'] dev].
    split; reflexivity. }
  assert (Hreach : forall evs, exists t' w',
             exec E fuel evs start = ([t'], w')
             /\ ((db w' = db w
                  /\ (t' = T_start request (short_code u)
                      \/ t' = T_loaded request u \/ t' = refused))
                 \/ (db w' = click_only
                     /\ (t' = T_clicked request u \/ t' = refused))
                 \/ (db w' = both /\ t' = answered))).
  { intros evs.
    destruct (call_state_reached E fuel request w u p a Hok Hin Hact Hp Hcode
                Hexp Hip evs) as (t' & w' & Hrun & Hs).
    exists t', w'. split; [exact Hrun|].
    destruct Hs; auto 6. }
  split; [exact Hreach|].
  split; [reflexivity|]. split; [reflexivity|].
  split; [exact (proj1 Hworlds)|]. split; [exact (proj2 Hworlds)|].
  split; [|split; [|split; [|]]].
  - unfold exec. cbn [fold_left]. rewrite H1, H2.
    cbn [exec_event nth_error]. rewrite (fail_clicked E request _ u Hcode).
    eexists. split; reflexivity.
  - unfold exec. cbn [fold_left]. rewrite H1.
    cbn [exec_event nth_error]. rewrite (fail_loaded E request w u Hexp).
    eexists. split; reflexivity.
  - unfold exec. cbn [fold_left]. rewrite H1, H2, H3. reflexivity.
  - intros evs t' w' Hserved. unfold served_alone in Hserved.
    destruct (Hreach evs) as (t1 & w1 & Hrun & _).
    fold start in Hserved. rewrite Hrun in Hserved. cbn [nth] in Hserved.
    rewrite Hrun.
    destruct t1 as [r c | r v | r v | [resp | e |]];
      destruct (ATOMIC_REQUESTS E);
      injection Hserved as <- <-;
      (split; [intros Hon (e' & He'); try discriminate Hon;
               try discriminate He'; reflexivity
              | intros Hoff; try discriminate Hoff; reflexivity]).
Qed.

(** C6 as first stated fails.  With requests outside a transaction, which
    is what Django does when the settings say nothing, the store refuses
    the UPDATE of [increment_click] and the call ends with the click of
    link 1 persisted and the counter of link 1 as it was. *)
Lemma click_then_count_counterexample :
  ATOMIC_REQUESTS Sample.E = false
  /\ fst (served_alone Sample.E 0 [Ev_step 0; Ev_step 0; Ev_fail 0]
                       Sample.visit "docs" Sample.world)
     = T_done (Raise DatabaseError)
  /\ List.length
       (clicks_of 1 (db (snd (served_alone Sample.E 0
                                [Ev_step 0; Ev_step 0; Ev_fail 0]
                                Sample.visit "docs" Sample.world))))
     = 1%nat
  /\ clicks_of 1 Sample.store = []
  /\ count_of 1 (db (snd (served_alone Sample.E 0
                            [Ev_step 0; Ev_step 0; Ev_fail 0]
                            Sample.visit "docs" Sample.world)))
     = Some 4
  /\ count_of 1 Sample.store = Some 4.
Proof. repeat split. Qed.

Lemma click_then_count_witness :
  (exists w',
      exec Sample.E_atomic 0 [Ev_step 0; Ev_step 0; Ev_fail 0]
           ([T_start Sample.visit "docs"], Sample.world)
        = ([T_done (Raise DatabaseError)], w')
      /\ List.length (clicks (db w')) = 1%nat)
  /\ db (snd (served_alone Sample.E_atomic 0 [Ev_step 0; Ev_step 0; Ev_fail 0]
                           Sample.visit "docs" Sample.world))
     = Sample.store.
Proof.
  destruct (click_then_count Sample.E_atomic 0 Sample.visit Sample.world
              (Sample.link 1 "docs" "https://example.com/docs" true None 4)
              1 "192.0.2.7" "192.0.2.7")
    as (_ & _ & Hclicks & _ & _ & (w' & Hrun & Hdb) & _ & _ & Hserved).
  - exact sample_store_ok.
  - simpl. tauto.
  - reflexivity.
  - reflexivity.
  - discriminate.
  - intros e He. discriminate He.
  - reflexivity.
  - apply stored_plain; [reflexivity | discriminate].
  - split.
    + exists w'. split; [exact Hrun|]. rewrite Hdb, Hclicks. reflexivity.
    + apply (Hserved [Ev_step 0; Ev_step 0; Ev_fail 0]
                     (T_done (Raise DatabaseError))
                     (snd (served_alone Sample.E_atomic 0
                             [Ev_step 0; Ev_step 0; Ev_fail 0]
                             Sample.visit "docs" Sample.world))).
      * reflexivity.
      * reflexivity.
      * exists DatabaseError. reflexivity.
Defined.

(** ** Several calls on one link *)

Section ListFacts.

Lemma set_nth_length {A} (i : nat) (x : A) (l : list A) :
  List.length (set_nth i x l) = List.length l.
Proof.
  revert i. induction l as [|y l IH]; intros [|i]; cbn; auto.
Qed.

Lemma set_nth_Forall {A} (P : A -> Prop) (i : nat) (x : A) (l : list A) :
  Forall P l -> P x -> Forall P (set_nth i x l).
Proof.
  intros Hl Hx. revert i. induction Hl as [|y l Hy Hl IH]; intros [|i]; cbn;
    constructor; auto.
Qed.

Lemma nth_error_Forall {A} (P : A -> Prop) (i : nat) (x : A) (l : list A) :
  Forall P l -> nth_error l i = Some x -> P x.
Proof.
  intros Hl Hn. rewrite Forall_forall in Hl. apply Hl.
  eapply nth_error_In. exact Hn.
Qed.

Lemma set_nth_count {A} (f : A -> bool) (i : nat) (x y : A) (l : list A) :
  nth_error l i = Some x ->
  (List.length (filter f (set_nth i y l)) + (if f x then 1 else 0)
   = List.length (filter f l) + (if f y then 1 else 0))%nat.
Proof.
  revert i. induction l as [|z l IH]; intros [|i] Hn; try discriminate.
  - cbn in Hn. injection Hn as ->. cbn.
    destruct (f x), (f y); cbn; lia.
  - cbn in Hn. specialize (IH i Hn). cbn [set_nth filter].
    destruct (f z); cbn [List.length]; lia.
Qed.

Lemma NoDup_map_eq {A B} (f : A -> B) (l : list A) (x y : A) :
  NoDup (map f l) -> In x l -> In y l -> f x = f y -> x = y.
Proof.
  induction l as [|z l IH]; intros Hnd Hx Hy Hf; [contradiction|].
  cbn in Hnd. inversion Hnd as [|? ? Hz Hnd']; subst.
  destruct Hx as [-> | Hx], Hy as [-> | Hy].
  - reflexivity.
  - exfalso. apply Hz. rewrite Hf. apply in_map. exact Hy.
  - exfalso. apply Hz. rewrite <- Hf. apply in_map. exact Hx.
  - apply IH; assumption.
Qed.

End ListFacts.

Section WithClick.

Lemma has_pk_set (p : nat) (n : Z) (t : option datetime) (r : URL) :
  has_pk p (set_last_clicked t (set_click_count n r)) = has_pk p r.
Proof. reflexivity. Qed.

Lemma with_click_with_click (p : nat) (n n' : Z) (t t' : option datetime)
    (us : list URL) :
  with_click p n' t' (with_click p n t us) = with_click p n' t' us.
Proof.
  unfold with_click. rewrite map_map. apply map_ext. intros r.
  destruct (has_pk p r) eqn:Hr.
  - match goal with
    | |- context [has_pk p ?x] => change (has_pk p x) with (has_pk p r)
    end.
    rewrite Hr. reflexivity.
  - rewrite Hr. reflexivity.
Qed.

Lemma with_click_self (p : nat) (us : list URL) (u : URL) :
  NoDup (map pk us) -> In u us -> pk u = Some p ->
  with_click p (click_count u) (last_clicked u) us = us.
Proof.
  intros Hnd Hin Hp. unfold with_click.
  rewrite <- (map_id us) at 2. apply map_ext_in. intros r Hr.
  destruct (has_pk p r) eqn:Hb; [|reflexivity].
  assert (r = u) as ->.
  { apply (NoDup_map_eq pk us); try assumption.
    unfold has_pk in Hb. destruct (pk r) as [q|]; [|discriminate].
    apply Nat.eqb_eq in Hb. congruence. }
  destruct u; reflexivity.
Qed.

Lemma count_of_with_click (p : nat) (n : Z) (t : option datetime) (d : DB)
    (u : URL) (cs : list Click) (a b : nat) :
  NoDup (map pk (urls d)) -> In u (urls d) -> pk u = Some p ->
  count_of p (mkDB (with_click p n t (urls d)) cs a b) = Some n.
Proof.
  intros Hnd Hin Hp. unfold count_of. cbn [urls].
  rewrite (filter_pk_unique _ (set_last_clicked t (set_click_count n u)) p).
  - reflexivity.
  - rewrite map_pk_with_click. exact Hnd.
  - apply in_with_click; assumption.
  - exact Hp.
Qed.

Lemma clicks_of_app (p : nat) (d : DB) (old new : list Click) :
  clicks d = (old ++ new)%list -> Forall (fun c => url c = p) new ->
  List.length (clicks_of p d)
    = (List.length (filter (fun c => Nat.eqb (url c) p) old)
       + List.length new)%nat.
Proof.
  intros Hc Hnew. unfold clicks_of. rewrite Hc, filter_app, length_app.
  f_equal. clear Hc. induction Hnew as [|c new Hc Hnew IH]; [reflexivity|].
  cbn. rewrite Hc, Nat.eqb_refl. cbn. rewrite IH. reflexivity.
Qed.

End WithClick.

Section PoolInvariant.

Variable E : Externals.
Variable fuel : nat.
Variable w0 : World.
Variable u0 : URL.
Variable p : nat.

Hypothesis Hok : db_ok (db w0).
Hypothesis Hin : In u0 (urls (db w0)).
Hypothesis Hact : is_active u0 = true.
Hypothesis Hp : pk u0 = Some p.
Hypothesis Hcode : short_code u0 <> "".
Hypothesis Hnever : forall n e, expires_at u0 = Some e -> clock E n <= e.

Lemma set_nth_same {A} (i : nat) (x : A) (l : list A) :
  nth_error l i = Some x -> set_nth i x l = l.
Proof.
  revert i. induction l as [|y l IH]; intros [|i] Hn; try discriminate.
  - cbn in Hn. injection Hn as ->. reflexivity.
  - cbn in Hn. cbn. rewrite (IH i Hn). reflexivity.
Qed.

Lemma url_click_row (request : HttpRequest) (id : nat) (t : datetime) :
  url (click_row E request p id t) = p.
Proof.
  unfold click_row.
  destruct (parse_user_agent E (or_default (HTTP_USER_AGENT (META request)) ""))
    as [[br os'] dev].
  reflexivity.
Qed.

Lemma good_thread_mono (hi hi' : Z) (t : thread) :
  hi <= hi' -> good_thread E u0 hi t -> good_thread E u0 hi' t.
Proof.
  intros Hle. destruct t as [r c | r u | r u | o]; cbn; auto;
    intros (Hip & n & t' & Hu & Hb); (split; [exact Hip|]);
    exists n, t'; (split; [exact Hu | lia]).
Qed.

Lemma pool_inv_step (i : nat) (s : list thread * World) :
  pool_inv E w0 u0 p s -> pool_inv E w0 u0 p (exec_event E fuel (Ev_step i) s).
Proof.
  destruct s as [pool w]. intros Hinv.
  cbn [exec_event]. destruct (nth_error pool i) as [t|] eqn:Hnth;
    [|exact Hinv].
  destruct Hinv as (Hgood & (n & t0 & Hurls & Hn & Hpos)
                    & (new & Hclicks & Hnew & Hlen)).
  pose proof (nth_error_Forall _ _ _ _ Hgood Hnth) as Ht.
  destruct Hok as (Hokc & Hokp & _).
  assert (Hndc : NoDup (map short_code (urls (db w))))
    by (rewrite Hurls, map_code_with_click; exact Hokc).
  assert (Hcur : In (set_last_clicked t0 (set_click_count n u0)) (urls (db w)))
    by (rewrite Hurls; apply in_with_click; assumption).
  assert (Hex : existsb (has_pk p) (urls (db w)) = true)
    by (apply (existsb_has_pk _ _ p Hcur); exact Hp).
  destruct t as [request code | request u | request u | r].
  - (* SELECT *)
    destruct Ht as (-> & Hip).
    change (short_code u0)
      with (short_code (set_last_clicked t0 (set_click_count n u0))).
    rewrite (step_start E fuel request w _ Hndc Hcur Hact).
    pose proof (set_nth_count is_done i _
                  (T_loaded request (set_last_clicked t0 (set_click_count n u0)))
                  pool Hnth) as Hd.
    pose proof (set_nth_count has_clicked i _
                  (T_loaded request (set_last_clicked t0 (set_click_count n u0)))
                  pool Hnth) as Hc.
    cbn [is_done has_clicked] in Hd, Hc. rewrite !Nat.add_0_r in Hd, Hc.
    unfold pool_inv, done_count, clicked_count. rewrite Hd, Hc.
    split; [|split].
    + apply set_nth_Forall; [exact Hgood|]. cbn. split; [exact Hip|].
      exists n, t0. split; [reflexivity | exact Hn].
    + exists n, t0. auto.
    + exists new. auto.
  - (* INSERT *)
    destruct Ht as (Hip & n1 & t1 & Hu & Hb).
    destruct (ip_address_prep E (get_client_ip request)) as [a|] eqn:Hipe;
      [|congruence].
    assert (Hpu : pk u = Some p) by (rewrite Hu; exact Hp).
    assert (Hexp : forall e, expires_at u = Some e -> clock E (ticks w) <= e)
      by (intros e He; apply (Hnever (ticks w) e); rewrite Hu in He; exact He).
    rewrite (step_loaded E fuel request w u p a Hpu Hex Hexp Hipe).
    pose proof (set_nth_count is_done i _ (T_clicked request u) pool Hnth) as Hd.
    pose proof (set_nth_count has_clicked i _ (T_clicked request u) pool Hnth)
      as Hc.
    cbn [is_done has_clicked] in Hd, Hc. rewrite !Nat.add_0_r in Hd.
    rewrite Nat.add_0_r in Hc.
    unfold pool_inv, done_count, clicked_count. rewrite Hd, Hc.
    split; [|split].
    + apply set_nth_Forall; [exact Hgood|]. cbn. split; [congruence|].
      exists n1, t1. auto.
    + exists n, t0. auto.
    + exists (new ++ [click_row E request p (click_seq (db w))
                                (clock E (ticks w + expiry_reads u))])%list.
      split; [|split].
      * cbn. rewrite Hclicks, <- app_assoc. reflexivity.
      * apply Forall_app. split; [exact Hnew|].
        constructor; [apply url_click_row | constructor].
      * rewrite length_app. cbn. fold (clicked_count pool). lia.
  - (* UPDATE *)
    destruct Ht as (Hip & n1 & t1 & Hu & Hb).
    assert (Hpu : pk u = Some p) by (rewrite Hu; exact Hp).
    assert (Hcu : short_code u <> "") by (rewrite Hu; exact Hcode).
    rewrite (step_clicked E fuel request w u p Hpu Hcu Hex).
    pose proof (set_nth_count is_done i _
                  (T_done (redirect_answer E (original_url u)))
                  pool Hnth) as Hd.
    pose proof (set_nth_count has_clicked i _
                  (T_done (redirect_answer E (original_url u)))
                  pool Hnth) as Hc.
    cbn [is_done has_clicked] in Hd, Hc. rewrite Nat.add_0_r in Hd.
    apply Nat.add_cancel_r in Hc.
    unfold pool_inv, done_count, clicked_count. rewrite Hd, Hc.
    fold (done_count pool). fold (clicked_count pool).
    split; [|split].
    + apply set_nth_Forall.
      * eapply Forall_impl; [|exact Hgood].
        intros a. apply good_thread_mono. lia.
      * cbn. rewrite Hu. reflexivity.
    + exists (click_count u + 1), (Some (clock E (ticks w))).
      split; [|split].
      * cbn. rewrite Hurls, with_click_with_click. reflexivity.
      * rewrite Hu. cbn. lia.
      * intros _. rewrite Hu. cbn. lia.
    + exists new. auto.
  - (* the call is over *)
    cbn [thread_step]. rewrite (set_nth_same i _ pool Hnth).
    unfold pool_inv. split; [exact Hgood|]. split.
    + exists n, t0. auto.
    + exists new. auto.
Qed.

Lemma pool_inv_initial (requests : list HttpRequest) :
  Forall (fun r => ip_address_prep E (get_client_ip r) <> None) requests ->
  pool_inv E w0 u0 p (map (fun r => T_start r (short_code u0)) requests, w0).
Proof.
  intros Hips.
  assert (Hd : forall rs : list HttpRequest,
             filter is_done (map (fun r => T_start r (short_code u0)) rs) = []
             /\ filter has_clicked
                  (map (fun r => T_start r (short_code u0)) rs) = []).
  { induction rs as [|r rs IH]; [auto | exact IH]. }
  unfold pool_inv, done_count, clicked_count.
  rewrite (proj1 (Hd requests)), (proj2 (Hd requests)). cbn [List.length].
  split; [|split].
  - apply Forall_map. eapply Forall_impl; [|exact Hips].
    intros r Hr. cbn. auto.
  - exists (click_count u0), (last_clicked u0). split; [|split].
    + symmetry. apply with_click_self; [exact (proj1 (proj2 Hok)) | exact Hin | exact Hp].
    + cbn. lia.
    + intros H. inversion H.
  - exists []. rewrite app_nil_r. auto.
Qed.

Lemma exec_length (evs : list event) (pool pool' : list thread) (w w' : World) :
  exec E fuel evs (pool, w) = (pool', w') ->
  List.length pool' = List.length pool.
Proof.
  intros Hrun.
  assert (H : List.length (fst (exec E fuel evs (pool, w))) = List.length pool).
  { apply (exec_invariant E fuel
             (fun s => List.length (fst s) = List.length pool));
      [|reflexivity].
    intros ev [q v] Hs. cbn in Hs.
    destruct ev as [i|i]; cbn [exec_event];
      destruct (nth_error q i) as [t|]; try exact Hs.
    - destruct (thread_step E fuel t v) as [t' v']. cbn.
      rewrite set_nth_length. exact Hs.
    - destruct (thread_fail E t v) as [t' v']. cbn.
      rewrite set_nth_length. exact Hs. }
  rewrite Hrun in H. exact H.
Qed.

Lemma pool_inv_exec (evs : list event) (s : list thread * World) :
  forallb is_step evs = true ->
  pool_inv E w0 u0 p s -> pool_inv E w0 u0 p (exec E fuel evs s).
Proof.
  revert s. induction evs as [|ev evs IH]; intros s Hsteps Hs; [exact Hs|].
  cbn in Hsteps. apply andb_prop in Hsteps. destruct Hsteps as (Hev & Hsteps).
  cbn [exec fold_left]. apply (IH _ Hsteps).
  destruct ev as [i|i]; [|discriminate Hev].
  apply pool_inv_step. exact Hs.
Qed.

End PoolInvariant.

Section InTurn.

Variable E : Externals.
Variable fuel : nat.
Variable p : nat.

Lemma after_click_tables (request : HttpRequest) (u : URL) (w : World) :
  urls (db (after_click E request u p w))
    = with_click p (click_count u + 1)
                 (Some (clock E (S (ticks w + expiry_reads u)))) (urls (db w))
  /\ clicks (db (after_click E request u p w))
     = (clicks (db w)
        ++ [click_row E request p (click_seq (db w))
                      (clock E (ticks w + expiry_reads u))])%list.
Proof.
  unfold after_click, click_row.
  destruct (parse_user_agent E (or_default (HTTP_USER_AGENT (META request)) ""))
    as [[br os'] dev].
  split; reflexivity.
Qed.

Lemma db_ok_tables (d d' : DB) (n : Z) (t : option datetime) :
  urls d' = with_click p n t (urls d) -> db_ok d -> db_ok d'.
Proof.
  intros Hu Hok.
  pose proof (db_ok_with_click p n t d (clicks d') (url_seq d') (click_seq d') Hok)
    as H.
  unfold db_ok in *. cbn [urls] in H. rewrite Hu. exact H.
Qed.

Lemma count_of_tables (d d' : DB) (u : URL) (n : Z) (t : option datetime) :
  urls d' = with_click p n t (urls d) ->
  NoDup (map pk (urls d)) -> In u (urls d) -> pk u = Some p ->
  count_of p d' = Some n.
Proof.
  intros Hu Hnd Hin Hp.
  rewrite <- (count_of_with_click p n t d u (clicks d') (url_seq d')
                (click_seq d') Hnd Hin Hp).
  unfold count_of. cbn [urls]. rewrite Hu. reflexivity.
Qed.

Lemma redirect_in_turn_spec (requests : list HttpRequest) (w : World) (u : URL) :
  db_ok (db w) ->
  In u (urls (db w)) -> is_active u = true -> pk u = Some p ->
  short_code u <> "" ->
  (forall n e, expires_at u = Some e -> clock E n <= e) ->
  Forall (fun r => ip_address_prep E (get_client_ip r) <> None) requests ->
  exists w' t new,
    redirect_in_turn E fuel requests (short_code u) w
      = (repeat (redirect_answer E (original_url u))
                (List.length requests), w')
    /\ urls (db w')
         = with_click p (click_count u + Z.of_nat (List.length requests)) t
                      (urls (db w))
    /\ clicks (db w') = (clicks (db w) ++ new)%list
    /\ Forall (fun c => url c = p) new
    /\ List.length new = List.length requests.
Proof.
  revert w u. induction requests as [|r rs IH];
    intros w u Hok Hin Hact Hp Hcode Hnever Hips.
  - exists w, (last_clicked u), []. cbn [redirect_in_turn List.length repeat].
    rewrite Z.add_0_r, app_nil_r.
    rewrite (with_click_self p _ u (proj1 (proj2 Hok)) Hin Hp). auto.
  - inversion Hips as [|? ? Hip Hips']; subst.
    destruct (ip_address_prep E (get_client_ip r)) as [a|] eqn:Hipe;
      [|congruence].
    cbn [redirect_in_turn].
    rewrite (redirect_url_ok E fuel r w u p a (proj1 Hok) Hin Hact Hp Hcode
               (Hnever (ticks w)) Hipe).
    destruct (after_click_tables r u w) as (Hu1 & Hc1).
    set (w1 := after_click E r u p w) in *.
    set (u1 := set_last_clicked (Some (clock E (S (ticks w + expiry_reads u))))
                 (set_click_count (click_count u + 1) u)).
    destruct (IH w1 u1) as (w' & t & new & Hrun & Hurls & Hclicks & Hnew & Hlen).
    + exact (db_ok_tables _ _ _ _ Hu1 Hok).
    + rewrite Hu1. apply in_with_click; assumption.
    + exact Hact.
    + exact Hp.
    + exact Hcode.
    + exact Hnever.
    + exact Hips'.
    + change (short_code u1) with (short_code u) in Hrun.
      change (original_url u1) with (original_url u) in Hrun.
      rewrite Hrun.
      exists w', t,
        (click_row E r p (click_seq (db w)) (clock E (ticks w + expiry_reads u))
           :: new).
      split; [reflexivity|]. split; [|split; [|split]].
      * rewrite Hurls, Hu1, with_click_with_click.
        change (click_count u1) with (click_count u + 1).
        f_equal. cbn [List.length]. lia.
      * rewrite Hclicks, Hc1, <- app_assoc. reflexivity.
      * constructor; [apply url_click_row | exact Hnew].
      * cbn [List.length]. rewrite Hlen. reflexivity.
Qed.

End InTurn.

Lemma forallb_filter {A} (f g : A -> bool) (l : list A) :
  (forall x, f x = true -> g x = true) ->
  forallb f l = true -> filter g l = l.
Proof.
  intros Hfg. induction l as [|x l IH]; intros H; [reflexivity|].
  cbn in H. apply andb_prop in H. destruct H as (Hx & Hl).
  cbn. rewrite (Hfg x Hx), (IH Hl). reflexivity.
Qed.

(** C7, as amended.  Calls on an active, unexpired code whose target the
    redirect response accepts, by requests whose client address is not
    empty.  When they run one after the other, each answers with the
    redirect, and they leave the counter at its initial value plus their
    number, with as many new clicks.  When they run side by side, their
    statements interleaved in any order and none refused, each still
    answers with the redirect and they insert as many clicks as there are
    calls; but the counter is written from the copy each call read, so
    increments can be lost: the final counter lies between the initial
    value plus one and the initial value plus the number of calls. *)
Theorem redirects_side_by_side (E : Externals) (fuel : nat) (w : World)
    (u : URL) (p : nat) (requests : list HttpRequest) :
  db_ok (db w) ->
  In u (urls (db w)) -> is_active u = true -> pk u = Some p ->
  short_code u <> "" ->
  (forall n e, expires_at u = Some e -> clock E n <= e) ->
  HttpResponseRedirect_raises E (original_url u) = None ->
  Forall (fun r => exists ip a, get_client_ip r = Some ip /\ stored_as E ip a)
         requests ->
  let N := List.length requests in
  let redirect := Return (HttpResponseRedirect (original_url u)) in
  (exists w',
      redirect_in_turn E fuel requests (short_code u) w = (repeat redirect N, w')
      /\ count_of p (db w') = Some (click_count u + Z.of_nat N)
      /\ List.length (clicks_of p (db w'))
         = (List.length (clicks_of p (db w)) + N)%nat)
  /\ (forall evs pool' w',
         forallb is_step evs = true ->
         exec E fuel evs (map (fun r => T_start r (short_code u)) requests, w)
           = (pool', w') ->
         forallb is_done pool' = true ->
         pool' = repeat (T_done redirect) N
         /\ List.length (clicks_of p (db w'))
            = (List.length (clicks_of p (db w)) + N)%nat
         /\ exists n,
              count_of p (db w') = Some n
              /\ click_count u <= n <= click_count u + Z.of_nat N
              /\ ((0 < N)%nat -> click_count u + 1 <= n)).
Proof.
  intros Hok Hin Hact Hp Hcode Hnever Hacc Haddr N redirect.
  assert (Hans : redirect_answer E (original_url u) = redirect)
    by (unfold redirect_answer; rewrite Hacc; reflexivity).
  assert (Hips : Forall (fun r => ip_address_prep E (get_client_ip r) <> None)
                        requests).
  { eapply Forall_impl; [|exact Haddr].
    intros r (ip & a & Hget & Hst). rewrite Hget, (stored_as_prep E ip a Hst).
    discriminate. }
  split.
  - destruct (redirect_in_turn_spec E fuel p requests w u Hok Hin Hact Hp Hcode
                Hnever Hips)
      as (w' & t & new & Hrun & Hurls & Hclicks & Hnew & Hlen).
    exists w'. rewrite Hans in Hrun. split; [exact Hrun|]. split.
    + exact (count_of_tables p _ _ u _ _ Hurls (proj1 (proj2 Hok)) Hin Hp).
    + rewrite (clicks_of_app p (db w') _ _ Hclicks Hnew), Hlen. reflexivity.
  - intros evs pool' w' Hsteps Hrun Hdone.
    pose proof (pool_inv_exec E fuel w u p Hok Hin Hact Hp Hcode Hnever evs _
                  Hsteps (pool_inv_initial E w u p Hok Hin Hp requests Hips))
      as Hinv.
    rewrite Hrun in Hinv.
    destruct Hinv as (Hgood & (n & t & Hurls & Hn & Hpos)
                      & (new & Hclicks & Hnew & Hlen)).
    pose proof (exec_length E fuel evs _ _ _ _ Hrun) as Hlength.
    rewrite length_map in Hlength. fold N in Hlength.
    assert (Hdc : done_count pool' = N).
    { unfold done_count. rewrite (forallb_filter is_done is_done); auto. }
    assert (Hcc : clicked_count pool' = N).
    { unfold clicked_count. rewrite (forallb_filter is_done has_clicked); auto.
      intros [ | | | ]; cbn; congruence. }
    rewrite Hdc in Hgood, Hn, Hpos. rewrite Hcc in Hlen.
    split; [|split].
    + rewrite <- Hlength. clear - Hgood Hdone Hans.
      induction pool' as [|t pool' IH]; [reflexivity|].
      cbn in Hdone. apply andb_prop in Hdone. destruct Hdone as (Ht & Hdone).
      inversion Hgood as [|? ? Hgt Hgood']; subst.
      cbn [List.length repeat]. rewrite <- (IH Hdone Hgood').
      destruct t; try discriminate Ht. cbn in Hgt. rewrite Hgt, Hans.
      reflexivity.
    + rewrite (clicks_of_app p (db w') _ _ Hclicks Hnew), Hlen. reflexivity.
    + exists n. split; [|split; assumption].
      exact (count_of_tables p _ _ u _ _ Hurls (proj1 (proj2 Hok)) Hin Hp).
Qed.

(** C7 as first stated fails: two calls on ["docs"] whose statements
    alternate both answer with the redirect and insert two clicks, and the
    counter goes from 4 to 5. *)
Lemma redirects_side_by_side_counterexample :
  exists w',
    exec Sample.E 0
         [Ev_step 0; Ev_step 1; Ev_step 0; Ev_step 1; Ev_step 0; Ev_step 1]
         ([T_start Sample.visit "docs"; T_start Sample.visit "docs"],
          Sample.world)
      = (repeat (T_done (Return (HttpResponseRedirect "https://example.com/docs")))
                2, w')
    /\ count_of 1 Sample.store = Some 4
    /\ count_of 1 (db w') = Some 5
    /\ List.length (clicks_of 1 (db w')) = 2%nat.
Proof. eexists. repeat split. Qed.

Lemma redirects_side_by_side_witness :
  exists w',
    redirect_in_turn Sample.E 0 [Sample.visit; Sample.visit_v6] "docs" Sample.world
      = (repeat (Return (HttpResponseRedirect "https://example.com/docs")) 2, w')
    /\ count_of 1 (db w') = Some 6
    /\ List.length (clicks_of 1 (db w')) = 2%nat.
Proof.
  apply (redirects_side_by_side Sample.E 0 Sample.world
           (Sample.link 1 "docs" "https://example.com/docs" true None 4) 1
           [Sample.visit; Sample.visit_v6]).
  - exact sample_store_ok.
  - simpl. tauto.
  - reflexivity.
  - reflexivity.
  - discriminate.
  - intros n e He. discriminate He.
  - reflexivity.
  - constructor; [|constructor; [|constructor]].
    + exists "192.0.2.7", "192.0.2.7". split; [reflexivity|].
      apply stored_plain; [reflexivity | discriminate].
    + exists "2001:0DB8:0:0:0:0:0:1", "2001:db8::1". split; [reflexivity|].
      apply stored_ipv6; [reflexivity | reflexivity | discriminate].
Defined.

(** * Further properties of the code *)

(** ** Outcomes of the redirect view *)

Section RedirectOutcomes.

Variable E : Externals.

Lemma get_object_cases (code : string) (w : World) :
  match get_object_or_404_active code w with
  | (Return u, w') =>
      w' = w /\ In u (urls (db w)) /\ short_code u = code /\ is_active u = true
  | (Raise e, w') => w' = w
  | (Diverge, _) => False
  end.
Proof.
  unfold get_object_or_404_active, bind, get_db.
  destruct (filter _ (urls (db w))) as [|u [|v l]] eqn:Hf; try reflexivity.
  cbn. assert (Hu : In u (filter (fun u0 => String.eqb (short_code u0) code
                                            && Bool.eqb (is_active u0) true)
                                 (urls (db w))))
    by (rewrite Hf; left; reflexivity).
  apply filter_In in Hu. destruct Hu as (Hin & Hb).
  apply andb_prop in Hb. destruct Hb as (Hc & Ha).
  apply String.eqb_eq in Hc. apply Bool.eqb_prop in Ha. auto.
Qed.

Lemma static_fields_set (n : Z) (t : option datetime) (r : URL) :
  static_fields (set_last_clicked t (set_click_count n r)) = static_fields r.
Proof. reflexivity. Qed.

Lemma static_with_click (p : nat) (n : Z) (t : option datetime) (us : list URL) :
  map static_fields (with_click p n t us) = map static_fields us.
Proof.
  unfold with_click. rewrite map_map. apply map_ext. intros r.
  destruct (has_pk p r); reflexivity.
Qed.

(** Whatever [increment_click] does, it changes no column of any link but
    the counter and the last click, and nothing else in the store. *)
Lemma increment_click_frame (fuel : nat) (u : URL) (w : World) :
  let w' := snd (increment_click E fuel u w) in
  map static_fields (urls (db w')) = map static_fields (urls (db w))
  /\ clicks (db w') = clicks (db w)
  /\ url_seq (db w') = url_seq (db w)
  /\ click_seq (db w') = click_seq (db w)
  /\ flash w' = flash w.
Proof.
  cbv zeta. unfold increment_click, URL_save, bind, timezone_now.
  pose proof (generate_short_code_db E fuel
                (mkWorld (db w) (S (ticks w)) (draws w) (flash w)))
    as (Hdb & _ & Hfl).
  cbn [db flash] in Hdb, Hfl.
  assert (Hupd : forall (self : URL) (w1 : World),
             db w1 = db w -> flash w1 = flash w ->
             let w' := snd (match pk self with
                            | Some p => URL_update p [F_click_count; F_last_clicked] self
                            | None => raise ValueError
                            end w1) in
             map static_fields (urls (db w')) = map static_fields (urls (db w))
             /\ clicks (db w') = clicks (db w)
             /\ url_seq (db w') = url_seq (db w)
             /\ click_seq (db w') = click_seq (db w)
             /\ flash w' = flash w).
  { intros self w1 H1 H2. cbv zeta.
    destruct (pk self) as [p|]; [|cbn; rewrite H1, H2; auto].
    unfold URL_update, bind, get_db.
    destruct (negb (existsb (has_pk p) (urls (db w1))));
      [cbn; rewrite H1, H2; auto|].
    cbn. rewrite H1, H2. repeat split.
    rewrite map_map. apply map_ext. intros r. destruct (has_pk p r); reflexivity. }
  destruct (negb (Py.truthy (short_code _))).
  - destruct (generate_short_code E fuel _) as [[code|e|] w1];
      cbn [snd fst] in *; try (rewrite Hdb, Hfl; auto; fail).
    unfold ret. apply Hupd; assumption.
  - unfold ret. apply Hupd; reflexivity.
Qed.

(** X1. A call of [redirect_url], whatever the request, the code and
    the store, and however it ends, leaves every link with the columns it
    had, except the counter and the last click; it creates and deletes no
    link, queues no message, and appends at most one click. *)
Theorem redirect_url_frame (fuel : nat) (request : HttpRequest) (code : string)
    (w : World) :
  let w' := snd (redirect_url E fuel request code w) in
  map static_fields (urls (db w')) = map static_fields (urls (db w))
  /\ url_seq (db w') = url_seq (db w)
  /\ flash w' = flash w
  /\ (clicks (db w') = clicks (db w)
      \/ exists c, clicks (db w') = (clicks (db w) ++ [c])%list).
Proof.
  cbv zeta. unfold redirect_url, bind.
  pose proof (get_object_cases code w) as Hget.
  destruct (get_object_or_404_active code w) as [[u|e|] w1];
    [destruct Hget as (-> & _) | subst w1; cbn; auto | contradiction].
  assert (Hrest : forall w1 : World,
             db w1 = db w -> flash w1 = flash w ->
             forall br os' dev,
             let w' := snd (let (o, w2) := Click_objects_create E u
                                             (get_client_ip request)
                                             (or_default (HTTP_USER_AGENT (META request)) "")
                                             (HTTP_REFERER (META request)) br os' dev w1 in
                            match o with
                            | Return _ =>
                                let (o0, w3) := increment_click E fuel u w2 in
                                match o0 with
                                | Return a0 =>
                                    new_HttpResponseRedirect E (original_url a0) w3
                                | Raise e => (Raise e, w3)
                                | Diverge => (Diverge, w3)
                                end
                            | Raise e => (Raise e, w2)
                            | Diverge => (Diverge, w2)
                            end) in
             map static_fields (urls (db w')) = map static_fields (urls (db w))
             /\ url_seq (db w') = url_seq (db w)
             /\ flash w' = flash w
             /\ (clicks (db w') = clicks (db w)
                 \/ exists c, clicks (db w') = (clicks (db w) ++ [c])%list)).
  { intros w1 H1 H2 br os' dev. cbv zeta.
    unfold Click_objects_create, bind, timezone_now, get_db, put_db, ret, raise.
    cbn [db ticks draws flash].
    destruct (pk u) as [p|]; [|cbn; rewrite H1, H2; auto].
    destruct (ip_address_prep E (get_client_ip request)) as [a|];
      [|cbn; rewrite H1, H2; auto].
    destruct (existsb (has_pk p) (urls (db w1))); [|cbn; rewrite H1, H2; auto].
    match goal with
    | |- context [increment_click E fuel u ?w2] =>
        pose proof (increment_click_frame fuel u w2) as Hinc;
        destruct (increment_click E fuel u w2) as [[u'|e|] w3]
    end;
      try rewrite new_redirect_spec;
      cbn [snd fst db urls clicks url_seq click_seq flash] in *;
      destruct Hinc as (Hs & Hc & Hu & _ & Hf);
      rewrite Hs, Hc, Hu, Hf, H1, H2; repeat split; right; eexists; reflexivity. }
  unfold is_expired, bind, timezone_now, ret.
  destruct (parse_user_agent E (or_default (HTTP_USER_AGENT (META request)) ""))
    as [[br os'] dev].
  destruct (expires_at u) as [e|].
  - destruct (e <? clock E (ticks w)); [cbn; auto|].
    apply Hrest; reflexivity.
  - apply Hrest; reflexivity.
Qed.

End RedirectOutcomes.

(** ** The store as the views keep it *)

Section StoreInvariant.

Variable E : Externals.

Lemma NoDup_snoc {A} (l : list A) (x : A) :
  NoDup l -> ~ In x l -> NoDup (l ++ [x]).
Proof.
  intros Hl Hx. induction Hl as [|y l Hy Hl IH]; cbn.
  - constructor; [intros []|constructor].
  - constructor.
    + intros H. apply in_app_or in H. destruct H as [H | [H | []]].
      * exact (Hy H).
      * apply Hx. left. symmetry. exact H.
    + apply IH. intros H. apply Hx. right. exact H.
Qed.

Lemma after_click_db (request : HttpRequest) (u : URL) (p : nat) (w : World) :
  db (after_click E request u p w)
    = mkDB (with_click p (click_count u + 1)
                       (Some (clock E (S (ticks w + expiry_reads u))))
                       (urls (db w)))
           (clicks (db w)
            ++ [click_row E request p (click_seq (db w))
                          (clock E (ticks w + expiry_reads u))])
           (url_seq (db w)) (S (click_seq (db w))).
Proof.
  unfold after_click, click_row.
  destruct (parse_user_agent E (or_default (HTTP_USER_AGENT (META request)) ""))
    as [[br os'] dev].
  reflexivity.
Qed.

Lemma click_pk_click_row (request : HttpRequest) (p id : nat) (t : datetime) :
  click_pk (click_row E request p id t) = Some id.
Proof.
  unfold click_row.
  destruct (parse_user_agent E (or_default (HTTP_USER_AGENT (META request)) ""))
    as [[br os'] dev].
  reflexivity.
Qed.

Lemma existsb_has_pk_with_click (q p : nat) (n : Z) (t : option datetime)
    (us : list URL) :
  existsb (has_pk q) (with_click p n t us) = existsb (has_pk q) us.
Proof.
  unfold with_click. induction us as [|r us IH]; [reflexivity|].
  cbn [map existsb]. rewrite IH. f_equal.
  destruct (has_pk p r); reflexivity.
Qed.

Lemma existsb_has_pk_lt (d : DB) (q : nat) :
  Forall (fun u => exists k, pk u = Some k /\ (k < url_seq d)%nat) (urls d) ->
  existsb (has_pk q) (urls d) = true -> (q < url_seq d)%nat.
Proof.
  intros Hk Hex. apply existsb_exists in Hex. destruct Hex as (r & Hr & Hb).
  rewrite Forall_forall in Hk. destruct (Hk r Hr) as (k & Hpk & Hlt).
  unfold has_pk in Hb. rewrite Hpk in Hb. apply Nat.eqb_eq in Hb. lia.
Qed.

Lemma store_inv_after_click (request : HttpRequest) (u : URL) (p : nat)
    (w : World) :
  store_inv (db w) -> In u (urls (db w)) -> pk u = Some p ->
  store_inv (db (after_click E request u p w)).
Proof.
  intros (Hok & Hcodes & Hkeys & Hfk & Hcp & Hci) Hin Hp.
  rewrite after_click_db. unfold store_inv. cbn [urls clicks url_seq click_seq].
  split; [apply db_ok_with_click; exact Hok|].
  split; [|split; [|split; [|split]]].
  - unfold with_click. apply Forall_map. eapply Forall_impl; [|exact Hcodes].
    intros r Hr. destruct (has_pk p r); exact Hr.
  - unfold with_click. apply Forall_map. eapply Forall_impl; [|exact Hkeys].
    intros r Hr. destruct (has_pk p r); exact Hr.
  - apply Forall_app. split.
    + eapply Forall_impl; [|exact Hfk]. intros c Hc. cbn beta.
      rewrite existsb_has_pk_with_click. exact Hc.
    + constructor; [|constructor]. rewrite url_click_row.
      rewrite existsb_has_pk_with_click. exact (existsb_has_pk _ u p Hin Hp).
  - rewrite map_app. cbn [map]. rewrite click_pk_click_row.
    apply NoDup_snoc; [exact Hcp|].
    intros H. apply in_map_iff in H. destruct H as (c & Hc & Hcin).
    rewrite Forall_forall in Hci. destruct (Hci c Hcin) as (i & Hi & Hlt).
    rewrite Hi in Hc. injection Hc as ->. lia.
  - apply Forall_app. split.
    + eapply Forall_impl; [|exact Hci].
      intros c (i & Hi & Hlt). exists i. split; [exact Hi | lia].
    + constructor; [|constructor]. exists (click_seq (db w)).
      split; [apply click_pk_click_row | lia].
Qed.

Lemma counts_after_click (request : HttpRequest) (u : URL) (p : nat)
    (w : World) :
  store_inv (db w) -> counts_consistent (db w) ->
  In u (urls (db w)) -> pk u = Some p ->
  counts_consistent (db (after_click E request u p w)).
Proof.
  intros ((_ & Hpk & _) & _) Hcount Hin Hp.
  rewrite after_click_db. intros r q Hr Hq. cbn [urls] in Hr.
  unfold clicks_of. cbn [clicks]. rewrite filter_app. cbn [filter].
  rewrite url_click_row, length_app.
  unfold with_click in Hr. apply in_map_iff in Hr.
  destruct Hr as (r0 & Hr0 & Hr0in).
  destruct (has_pk p r0) eqn:Hb.
  - assert (r0 = u) as ->.
    { apply (NoDup_map_eq pk (urls (db w))); try assumption.
      unfold has_pk in Hb. destruct (pk r0) as [k|]; [|discriminate].
      apply Nat.eqb_eq in Hb. congruence. }
    subst r. cbn in Hq. rewrite Hp in Hq. injection Hq as <-.
    rewrite Nat.eqb_refl. cbn [List.length set_last_clicked set_click_count
                               click_count].
    rewrite (Hcount u p Hin Hp). unfold clicks_of. lia.
  - subst r. destruct (Nat.eqb_spec p q) as [<- | Hne].
    + exfalso. unfold has_pk in Hb. rewrite Hq, Nat.eqb_refl in Hb.
      discriminate.
    + cbn [List.length]. rewrite (Hcount r0 q Hr0in Hq). unfold clicks_of. lia.
Qed.

Lemma store_inv_inserted (d : DB) (row : URL) :
  store_inv d ->
  pk row = Some (url_seq d) -> short_code row <> "" ->
  ~ code_in_use (short_code row) d ->
  store_inv (inserted_db d row).
Proof.
  intros ((Hc & Hp & Hs) & Hcodes & Hkeys & Hfk & Hcp & Hci) Hpk Hne Hfree.
  unfold store_inv, inserted_db, db_ok. cbn [urls clicks url_seq click_seq].
  rewrite !map_app. cbn [map].
  repeat split.
  - apply NoDup_snoc; [exact Hc|]. intros H. apply in_map_iff in H.
    destruct H as (r & Hr & Hrin). apply Hfree. exists r. auto.
  - apply NoDup_snoc; [exact Hp|]. intros H. apply in_map_iff in H.
    destruct H as (r & Hr & Hrin). rewrite Forall_forall in Hkeys.
    destruct (Hkeys r Hrin) as (k & Hk & Hlt). rewrite Hpk in Hr. rewrite Hk in Hr.
    injection Hr as ->. lia.
  - apply Forall_app. split; [exact Hs|]. constructor; [|constructor]. congruence.
  - apply Forall_app. split; [exact Hcodes|]. constructor; [exact Hne|constructor].
  - apply Forall_app. split.
    + eapply Forall_impl; [|exact Hkeys].
      intros r (k & Hk & Hlt). exists k. split; [exact Hk | lia].
    + constructor; [|constructor]. exists (url_seq d). split; [exact Hpk | lia].
  - eapply Forall_impl; [|exact Hfk]. intros c Hcx. cbn beta.
    rewrite existsb_app, Hcx. reflexivity.
  - exact Hcp.
  - exact Hci.
Qed.

Lemma counts_inserted (d : DB) (row : URL) :
  store_inv d -> counts_consistent d ->
  pk row = Some (url_seq d) -> click_count row = 0 ->
  counts_consistent (inserted_db d row).
Proof.
  intros (_ & _ & Hkeys & Hfk & _) Hcount Hpk Hzero r q Hr Hq.
  unfold inserted_db in *. cbn [urls] in Hr. unfold clicks_of. cbn [clicks].
  apply in_app_or in Hr. destruct Hr as [Hr | [<- | []]].
  - exact (Hcount r q Hr Hq).
  - rewrite Hpk in Hq. injection Hq as <-. rewrite Hzero.
    rewrite filter_none; [reflexivity|].
    intros c Hc. apply Nat.eqb_neq. intros Heq.
    rewrite Forall_forall in Hfk. specialize (Hfk c Hc).
    apply (existsb_has_pk_lt d _ Hkeys) in Hfk. lia.
Qed.

End StoreInvariant.

Section RedirectInvariant.

Variable E : Externals.

(** What a redirect does to a store that satisfies the invariant: nothing,
    or the recorded click of one active link. *)
Lemma redirect_url_cases (fuel : nat) (request : HttpRequest) (code : string)
    (w : World) :
  store_inv (db w) ->
  db (snd (redirect_url E fuel request code w)) = db w
  \/ exists u p,
       In u (urls (db w)) /\ pk u = Some p /\ short_code u = code
       /\ snd (redirect_url E fuel request code w) = after_click E request u p w.
Proof.
  intros ((Hc & Hp & Hs) & Hcodes & _).
  pose proof (get_object_cases code w) as Hget.
  destruct (get_object_or_404_active code w) as [[u|e|] w1] eqn:Hrun.
  - destruct Hget as (-> & Hin & Hcode & Hact).
    rewrite Forall_forall in Hs, Hcodes.
    destruct (pk u) as [p|] eqn:Hpk; [|exfalso; exact (Hs u Hin Hpk)].
    assert (Hexp : (exists e, expires_at u = Some e /\ e < clock E (ticks w))
                   \/ (forall e, expires_at u = Some e -> clock E (ticks w) <= e)).
    { destruct (expires_at u) as [e|].
      - destruct (Z.lt_ge_cases e (clock E (ticks w))) as [H | H].
        + left. exists e. auto.
        + right. intros e' He'. injection He' as <-. exact H.
      - right. intros e He. discriminate He. }
    subst code. destruct Hexp as [(e & He & Hlt) | Hexp].
    + left. rewrite (redirect_url_expired E fuel request w u e Hc Hin Hact He Hlt).
      reflexivity.
    + destruct (ip_address_prep E (get_client_ip request)) as [a|] eqn:Hip.
      * right. exists u, p. repeat split; try assumption.
        rewrite (redirect_url_ok E fuel request w u p a); auto.
      * left. rewrite (redirect_url_no_address E fuel request w u Hc Hin Hact Hexp Hip).
        reflexivity.
  - left. subst w1. unfold redirect_url, bind. rewrite Hrun. reflexivity.
  - contradiction.
Qed.

End RedirectInvariant.

(** X2. A call of [redirect_url] on a store that
    satisfies the invariant of the views leaves a store that satisfies it:
    codes and keys stay unique, every click belongs to a link, and every
    link's [click_count] is still the number of its clicks. *)
Theorem redirect_url_keeps_store (E : Externals) (fuel : nat)
    (request : HttpRequest) (code : string) (w : World) :
  store_inv (db w) -> counts_consistent (db w) ->
  store_inv (db (snd (redirect_url E fuel request code w)))
  /\ counts_consistent (db (snd (redirect_url E fuel request code w))).
Proof.
  intros Hinv Hcount.
  destruct (redirect_url_cases E fuel request code w Hinv)
    as [-> | (u & p & Hin & Hp & _ & ->)].
  - auto.
  - split.
    + apply store_inv_after_click; assumption.
    + apply counts_after_click; assumption.
Qed.

(** X3. A redirect of an active, unexpired code by a request that
    carries no client address (neither [X-Forwarded-For] nor
    [REMOTE_ADDR]) fails in the INSERT of the click, whose [ip_address]
    may not be null: the view raises [IntegrityError], no click is
    recorded and no counter changes. *)
Theorem redirect_without_address (E : Externals) (fuel : nat)
    (request : HttpRequest) (w : World) (u : URL) :
  db_ok (db w) ->
  In u (urls (db w)) -> is_active u = true ->
  (forall e, expires_at u = Some e -> clock E (ticks w) <= e) ->
  get_client_ip request = None ->
  exists w',
    redirect_url E fuel request (short_code u) w = (Raise IntegrityError, w')
    /\ db w' = db w.
Proof.
  intros (Hc & _) Hin Hact Hexp Hip.
  assert (Hprep : ip_address_prep E (get_client_ip request) = None)
    by (rewrite Hip; reflexivity).
  rewrite (redirect_url_no_address E fuel request w u Hc Hin Hact Hexp Hprep).
  eexists. split; reflexivity.
Qed.

(** ** Outcomes of the creation views *)

Section CreationOutcomes.

Variable E : Externals.

Lemma alnum_not_slash (s : string) :
  Py.all_chars Py.isalnum_ascii s = true -> Py.contains_char "/" s = false.
Proof.
  induction s as [|c s IH]; [reflexivity|].
  cbn [Py.all_chars Py.contains_char]. intros H.
  apply andb_prop in H. destruct H as (Hc & Hs). rewrite (IH Hs), orb_false_r.
  destruct (Ascii.eqb_spec "/" c) as [<- | Hne]; [discriminate Hc | reflexivity].
Qed.

Lemma candidate_matches (w : World) (k : nat) :
  str_converter_matches (candidate E w k) = true
  /\ candidate E w k <> "".
Proof.
  unfold str_converter_matches, candidate.
  rewrite (alnum_not_slash _ (draw_string_alnum E _ 6)).
  split; [reflexivity | discriminate].
Qed.

(** [save()] of a new instance, with all that the callers need of it. *)
Lemma URL_save_new_outcome (fuel : nat) (self : URL) (w : World) :
  pk self = None ->
  match URL_save E fuel None self w with
  | (Return row, w') =>
      exists code t,
        row = persisted (url_seq (db w)) t (set_short_code code self)
        /\ ~ code_in_use code (db w)
        /\ code <> ""
        /\ (short_code self <> "" -> code = short_code self)
        /\ (short_code self = "" -> str_converter_matches code = true)
        /\ db w' = inserted_db (db w) row
        /\ flash w' = flash w
  | (Raise e, w') =>
      db w' = db w /\ flash w' = flash w
      /\ short_code self <> ""
      /\ code_in_use (short_code self) (db w)
  | (Diverge, w') =>
      db w' = db w /\ flash w' = flash w /\ short_code self = ""
  end.
Proof.
  intros Hp. destruct (Py.truthy (short_code self)) eqn:Ht.
  - apply truthy_true in Ht.
    rewrite URL_save_coded; [|exact Hp|exact Ht].
    rewrite URL_insert_spec by exact Hp.
    destruct (code_in_useb (short_code self) (db w)) eqn:Hb.
    + repeat split; [exact Ht | apply code_in_useb_spec; exact Hb].
    + exists (short_code self), (clock E (ticks w)).
      rewrite set_short_code_same. repeat split; auto;
        try (intros H; apply code_in_useb_spec in H; congruence);
        try (intros H; contradiction).
  - apply truthy_false in Ht.
    unfold URL_save. rewrite Ht. cbn [Py.truthy negb]. unfold bind at 1.
    unfold bind at 1.
    destruct (generate_short_code E fuel w) as [[code|e|] w1] eqn:Hg.
    + destruct (generate_short_code_returns E fuel w w1 code Hg)
        as (k & Hk & Hc & Hbefore & Hfree & Hw1).
      unfold ret at 1. cbn [Model_save pk set_short_code]. rewrite Hp.
      rewrite URL_insert_spec by exact Hp. cbn [short_code set_short_code].
      assert (Hdb : db w1 = db w) by (rewrite Hw1; reflexivity).
      assert (Hfl : flash w1 = flash w) by (rewrite Hw1; reflexivity).
      rewrite Hdb, (not_in_use _ _ Hfree).
      exists code, (clock E (ticks w1)). unfold after_insert, inserted_db.
      rewrite Hdb, Hfl. cbn [db flash].
      destruct (candidate_matches w k) as (Hm & Hne). rewrite <- Hc in Hm, Hne.
      repeat split; auto; try (intros H; contradiction).
    + exfalso. exact (generate_short_code_no_raise E fuel w w1 e Hg).
    + pose proof (generate_short_code_db E fuel w) as (Hdb & _ & Hfl).
      rewrite Hg in Hdb, Hfl. auto.
Qed.

Lemma fresh_persisted (d : DB) (t : datetime) (self : URL) (code : string) :
  ~ code_in_use code d -> code <> "" ->
  is_active self = true -> click_count self = 0 -> last_clicked self = None ->
  fresh_row d (persisted (url_seq d) t (set_short_code code self)).
Proof. intros. unfold fresh_row. cbn. auto 10. Qed.

Ltac split_rows :=
  repeat match goal with
         | H : fresh_row ?d ?r |- fresh_row ?d ?r => exact H
         | |- _ /\ _ => split
         end;
  auto; try (rewrite <- app_assoc; reflexivity); try (intros; contradiction).

Ltac use_save H :=
  cbv beta iota zeta; cbv beta iota zeta in H;
  unfold set_expires_at, set_short_code in H |- *;
  cbn [pk original_url short_code title description created_at created_by
       is_active expires_at click_count last_clicked] in H |- *;
  match type of H with
  | match ?x with _ => _ end =>
      destruct x as [[[]| |] ?]; try contradiction; auto
  end.

(** Every way a POST to [create_short_url] can end. *)
Lemma create_short_url_outcomes (fuel : nat) (request : HttpRequest) (w : World) :
  method request = POST ->
  let target := Py.strip (or_default (f_original_url (POST_data request)) "") in
  let custom := Py.strip (or_default (f_custom_code (POST_data request)) "") in
  match create_short_url E fuel request w with
  | (Return (Redirect_url_detail c), w') =>
      exists row,
        db w' = inserted_db (db w) row /\ fresh_row (db w) row
        /\ short_code row = c /\ str_converter_matches c = true
        /\ (custom <> "" -> c = custom)
        /\ original_url row = add_protocol target /\ target <> ""
        /\ flash w' = (flash w ++ [Msg_created (get_short_url E row)])%list
  | (Return Redirect_home, w') =>
      (db w' = db w
       /\ ((target = "" /\ flash w' = (flash w ++ [Msg_enter_valid_url])%list)
           \/ (target <> "" /\ custom <> "" /\ code_in_use custom (db w)
               /\ flash w' = (flash w ++ [Msg_custom_code_exists])%list)
           \/ (target <> ""
               /\ flash w'
                  = (flash w ++ [Msg_error_creating OverflowError])%list)))
      \/ (exists row,
             db w' = inserted_db (db w) row /\ fresh_row (db w) row
             /\ short_code row = custom
             /\ str_converter_matches custom = false
             /\ original_url row = add_protocol target /\ target <> ""
             /\ flash w'
                = (flash w ++ [Msg_created (get_short_url E row);
                               Msg_error_creating NoReverseMatch])%list)
  | (Return _, _) => False
  | (Raise _, _) => False
  | (Diverge, w') => db w' = db w /\ flash w' = flash w /\ custom = ""
  end.
Proof.
  intros Hm target custom. unfold create_short_url. rewrite Hm. cbv zeta.
  fold target. fold custom.
  destruct (Py.truthy target) eqn:Ht; cbn [negb].
  2:{ apply truthy_false in Ht. cbn. left. split; [reflexivity|]. left. auto. }
  apply truthy_true in Ht.
  unfold try_except. unfold bind at 1. unfold handle_custom_code.
  destruct (Py.truthy custom) eqn:Hcu.
  - apply truthy_true in Hcu.
    unfold bind at 1. rewrite URL_exists_spec.
    destruct (code_in_useb custom (db w)) eqn:Hb.
    { cbn. left. split; [reflexivity|]. right. left.
      repeat split; auto. apply code_in_useb_spec. exact Hb. }
    unfold ret at 1. unfold bind at 1. rewrite handle_expiration_spec.
    assert (Hsave : forall (exp : option datetime) (w1 : World),
               db w1 = db w -> flash w1 = flash w ->
               match
                 (let (o, w2) :=
                    (url_obj <- URL_save E fuel None
                                  (set_expires_at exp
                                     (set_short_code custom
                                        (mkURL None (add_protocol target) ""
                                               (Py.strip (or_default (f_title (POST_data request)) ""))
                                               (Py.strip (or_default (f_description (POST_data request)) ""))
                                               None (user request) true None 0 None))) ;;
                     messages_add (Msg_created (get_short_url E url_obj)) ;;;
                     redirect_to_url_detail (short_code url_obj)) w1 in
                  match o with
                  | Return a => (Return a, w2)
                  | Raise e => (messages_add (Msg_error_creating e) ;;;
                                ret Redirect_home) w2
                  | Diverge => (Diverge, w2)
                  end)
               with
               | (Return (Redirect_url_detail c), w') =>
                   exists row,
                     db w' = inserted_db (db w) row /\ fresh_row (db w) row
                     /\ short_code row = c /\ str_converter_matches c = true
                     /\ (custom <> "" -> c = custom)
                     /\ original_url row = add_protocol target /\ target <> ""
                     /\ flash w' = (flash w ++ [Msg_created (get_short_url E row)])%list
               | (Return Redirect_home, w') =>
                   exists row,
                     db w' = inserted_db (db w) row /\ fresh_row (db w) row
                     /\ short_code row = custom
                     /\ str_converter_matches custom = false
                     /\ original_url row = add_protocol target /\ target <> ""
                     /\ flash w'
                        = (flash w ++ [Msg_created (get_short_url E row);
                                       Msg_error_creating NoReverseMatch])%list
               | (Return _, _) => False
               | (Raise _, _) => False
               | (Diverge, w') => False
               end).
    { intros exp w1 Hdb Hfl. unfold bind at 1.
      match goal with
      | |- context [URL_save E fuel None ?u w1] =>
          pose proof (URL_save_new_outcome fuel u w1 eq_refl) as Hs;
          destruct (URL_save E fuel None u w1) as [[row|e|] w2]
      end.
      - destruct Hs as (code & t & Hrow & Hfree & Hne & Hcoded & _ & Hdb2 & Hfl2).
        cbn [short_code set_short_code set_expires_at] in Hcoded.
        specialize (Hcoded Hcu). subst code.
        rewrite Hdb in Hfree, Hdb2, Hrow.
        assert (Hfresh : fresh_row (db w) row)
          by (rewrite Hrow; apply fresh_persisted; auto).
        assert (Hsc : short_code row = custom) by (rewrite Hrow; reflexivity).
        assert (Hou : original_url row = add_protocol target)
          by (rewrite Hrow; reflexivity).
        unfold redirect_to_url_detail. mrun. rewrite Hsc.
        destruct (str_converter_matches custom) eqn:Hmatch; cbn;
          exists row; rewrite Hfl2, Hfl; split_rows.
      - destruct Hs as (Hdb2 & _ & _ & Huse).
        cbn [short_code set_short_code set_expires_at] in Huse.
        rewrite Hdb in Huse. apply code_in_useb_spec in Huse. congruence.
      - destruct Hs as (_ & _ & Hempty).
        cbn [short_code set_short_code set_expires_at] in Hempty. contradiction. }
    destruct (Py.truthy (or_default (f_expires_in_days (POST_data request)) "")).
    + destruct (Py.int (or_default (f_expires_in_days (POST_data request)) ""))
        as [d|].
      * destruct (representable (clock E (ticks w)) d).
        -- specialize (Hsave (Some (clock E (ticks w) + d * Py.us_per_day))
                             (ticked w) eq_refl eq_refl).
           use_save Hsave.
        -- cbn. left. split; [reflexivity|]. right. right. auto.
      * specialize (Hsave None w eq_refl eq_refl).
        use_save Hsave.
    + specialize (Hsave None w eq_refl eq_refl).
      use_save Hsave.
  - apply truthy_false in Hcu.
    unfold ret at 1. unfold bind at 1. rewrite handle_expiration_spec.
    assert (Hsave : forall (exp : option datetime) (w1 : World),
               db w1 = db w -> flash w1 = flash w ->
               match
                 (let (o, w2) :=
                    (url_obj <- URL_save E fuel None
                                  (set_expires_at exp
                                     (mkURL None (add_protocol target) ""
                                            (Py.strip (or_default (f_title (POST_data request)) ""))
                                            (Py.strip (or_default (f_description (POST_data request)) ""))
                                            None (user request) true None 0 None)) ;;
                     messages_add (Msg_created (get_short_url E url_obj)) ;;;
                     redirect_to_url_detail (short_code url_obj)) w1 in
                  match o with
                  | Return a => (Return a, w2)
                  | Raise e => (messages_add (Msg_error_creating e) ;;;
                                ret Redirect_home) w2
                  | Diverge => (Diverge, w2)
                  end)
               with
               | (Return (Redirect_url_detail c), w') =>
                   exists row,
                     db w' = inserted_db (db w) row /\ fresh_row (db w) row
                     /\ short_code row = c /\ str_converter_matches c = true
                     /\ (custom <> "" -> c = custom)
                     /\ original_url row = add_protocol target /\ target <> ""
                     /\ flash w' = (flash w ++ [Msg_created (get_short_url E row)])%list
               | (Return _, _) => False
               | (Raise _, _) => False
               | (Diverge, w') => db w' = db w /\ flash w' = flash w /\ custom = ""
               end).
    { intros exp w1 Hdb Hfl. unfold bind at 1.
      match goal with
      | |- context [URL_save E fuel None ?u w1] =>
          pose proof (URL_save_new_outcome fuel u w1 eq_refl) as Hs;
          destruct (URL_save E fuel None u w1) as [[row|e|] w2]
      end.
      - destruct Hs as (code & t & Hrow & Hfree & Hne & _ & Hgen & Hdb2 & Hfl2).
        cbn [short_code set_short_code set_expires_at] in Hgen.
        specialize (Hgen eq_refl).
        rewrite Hdb in Hfree, Hdb2, Hrow.
        assert (Hfresh : fresh_row (db w) row)
          by (rewrite Hrow; apply fresh_persisted; auto).
        assert (Hsc : short_code row = code) by (rewrite Hrow; reflexivity).
        assert (Hou : original_url row = add_protocol target)
          by (rewrite Hrow; reflexivity).
        unfold redirect_to_url_detail. mrun. rewrite Hsc, Hgen. cbn.
        exists row. rewrite Hfl2, Hfl. split_rows.
      - destruct Hs as (_ & _ & Hne & _).
        cbn [short_code set_short_code set_expires_at] in Hne. contradiction.
      - destruct Hs as (Hdb2 & Hfl2 & _). cbn. rewrite Hdb2, Hfl2. auto. }
    destruct (Py.truthy (or_default (f_expires_in_days (POST_data request)) "")).
    + destruct (Py.int (or_default (f_expires_in_days (POST_data request)) ""))
        as [d|].
      * destruct (representable (clock E (ticks w)) d).
        -- specialize (Hsave (Some (clock E (ticks w) + d * Py.us_per_day))
                             (ticked w) eq_refl eq_refl).
           use_save Hsave.
        -- cbn. left. split; [reflexivity|]. right. right. auto.
      * specialize (Hsave None w eq_refl eq_refl).
        use_save Hsave.
    + specialize (Hsave None w eq_refl eq_refl).
      use_save Hsave.
Qed.

End CreationOutcomes.

(** X4. A call of [create_short_url], whatever the request,
    on a store that satisfies the invariant of the views leaves a store
    that satisfies it, with every link's [click_count] still the number of
    its clicks. *)
Theorem create_short_url_keeps_store (E : Externals) (fuel : nat)
    (request : HttpRequest) (w : World) :
  store_inv (db w) -> counts_consistent (db w) ->
  store_inv (db (snd (create_short_url E fuel request w)))
  /\ counts_consistent (db (snd (create_short_url E fuel request w))).
Proof.
  intros Hinv Hcount.
  destruct (method request) eqn:Hm;
    try (unfold create_short_url; rewrite Hm; auto; fail).
  pose proof (create_short_url_outcomes E fuel request w Hm) as H.
  cbv zeta in H.
  assert (Hrow : forall w' row,
             db w' = inserted_db (db w) row -> fresh_row (db w) row ->
             store_inv (db w') /\ counts_consistent (db w')).
  { intros w' row -> (Hpk & Hne & Hfree & _ & Hzero & _). split.
    - apply store_inv_inserted; assumption.
    - apply counts_inserted; assumption. }
  destruct (create_short_url E fuel request w) as [[[]|e|] w']; cbn [snd];
    try contradiction.
  - destruct H as [(-> & _) | (row & Hdb & Hfresh & _)]; [auto|].
    exact (Hrow w' row Hdb Hfresh).
  - destruct H as (row & Hdb & Hfresh & _). exact (Hrow w' row Hdb Hfresh).
  - destruct H as (-> & _). auto.
Qed.

(** X5. A POST to [create_short_url] never lets an exception
    out.  When it answers with the redirect to the detail page of a code,
    a link with that code has been appended to the table in this call,
    and the one message queued announces it; when it answers with the
    redirect to the home page, at least one message has been queued and the
    last one is an error. *)
Theorem create_short_url_answers (E : Externals) (fuel : nat)
    (request : HttpRequest) (w : World) :
  method request = POST ->
  (forall e w', create_short_url E fuel request w <> (Raise e, w'))
  /\ (forall c w',
         create_short_url E fuel request w = (Return (Redirect_url_detail c), w') ->
         exists row,
           urls (db w') = (urls (db w) ++ [row])%list
           /\ short_code row = c
           /\ pk row = Some (url_seq (db w))
           /\ flash w' = (flash w ++ [Msg_created (get_short_url E row)])%list)
  /\ (forall w',
         create_short_url E fuel request w = (Return Redirect_home, w') ->
         exists before m,
           flash w' = (flash w ++ before ++ [m])%list
           /\ (m = Msg_enter_valid_url \/ m = Msg_custom_code_exists
               \/ exists e, m = Msg_error_creating e)).
Proof.
  intros Hm.
  pose proof (create_short_url_outcomes E fuel request w Hm) as H.
  cbv zeta in H. split; [|split].
  - intros e w' Hrun. rewrite Hrun in H. exact H.
  - intros c w' Hrun. rewrite Hrun in H.
    destruct H as (row & Hdb & (Hpk & _) & Hc & _ & _ & _ & _ & Hfl).
    exists row. rewrite Hdb. auto.
  - intros w' Hrun. rewrite Hrun in H.
    destruct H as [(_ & [(_ & Hfl) | [(_ & _ & _ & Hfl) | (_ & Hfl)]])
                  | (row & _ & _ & _ & _ & _ & _ & Hfl)].
    + exists [], Msg_enter_valid_url. auto.
    + exists [], Msg_custom_code_exists. auto.
    + exists [], (Msg_error_creating OverflowError). eauto.
    + exists [Msg_created (get_short_url E row)],
             (Msg_error_creating NoReverseMatch). eauto.
Qed.

(** X6. A custom code that contains a slash is accepted and the link
    is written, but the redirect to its detail page cannot be built: the
    call queues the message that the link was created and then an error
    message, and answers with the redirect to the home page. *)
Theorem custom_code_with_slash (E : Externals) (fuel : nat)
    (request : HttpRequest) (w : World) (exp : option datetime) (n : nat) :
  method request = POST ->
  Py.strip (or_default (f_original_url (POST_data request)) "") <> "" ->
  let custom := Py.strip (or_default (f_custom_code (POST_data request)) "") in
  Py.contains_char "/" custom = true ->
  ~ code_in_use custom (db w) ->
  expiry_choice E w (f_expires_in_days (POST_data request)) exp n ->
  exists row w',
    create_short_url E fuel request w = (Return Redirect_home, w')
    /\ urls (db w') = (urls (db w) ++ [row])%list
    /\ short_code row = custom
    /\ flash w' = (flash w ++ [Msg_created (get_short_url E row);
                               Msg_error_creating NoReverseMatch])%list.
Proof.
  intros Hm Ht custom Hslash Hfree Hexp.
  assert (Hne : custom <> "") by (intros H; rewrite H in Hslash; discriminate).
  rewrite (create_short_url_saves E fuel request w custom 0 exp n Hm Ht
             (choice_custom E fuel w custom Hne Hfree) Hexp).
  unfold str_converter_matches. rewrite Hslash, andb_false_r.
  eexists. eexists. split; [reflexivity|]. cbn.
  rewrite <- app_assoc. auto.
Qed.

(** ** Creating a link, then following it *)

(** X7. A link that [create_short_url] has just written, without
    expiry or with an expiry not yet passed, is found by [redirect_url]
    under its code.  When the visit carries a client address that is not
    empty and the redirect response accepts the stored target, the call
    answers with the redirect to that target, which is the trimmed text
    with its scheme completed, and the new link then counts one click. *)
Theorem create_then_redirect (E : Externals) (fuel fuel' : nat)
    (request visit : HttpRequest) (w : World) (code : string) (g : nat)
    (exp : option datetime) (n : nat) (ip a : string) :
  store_inv (db w) ->
  method request = POST ->
  Py.strip (or_default (f_original_url (POST_data request)) "") <> "" ->
  code_choice E fuel w
    (Py.strip (or_default (f_custom_code (POST_data request)) "")) code g ->
  expiry_choice E w (f_expires_in_days (POST_data request)) exp n ->
  (forall e, exp = Some e -> clock E (S (ticks w + n)) <= e) ->
  get_client_ip visit = Some ip -> stored_as E ip a ->
  let target :=
    add_protocol (Py.strip (or_default (f_original_url (POST_data request)) "")) in
  HttpResponseRedirect_raises E target = None ->
  let w1 := snd (create_short_url E fuel request w) in
  exists w2,
    redirect_url E fuel' visit code w1 = (Return (HttpResponseRedirect target), w2)
    /\ count_of (url_seq (db w)) (db w2) = Some 1
    /\ List.length (clicks_of (url_seq (db w)) (db w2)) = 1%nat.
Proof.
  intros Hinv Hm Ht Hcode Hexp Hlive Hget Hst target Hacc w1.
  assert (Hip : ip_address_prep E (get_client_ip visit) = Some a)
    by (rewrite Hget; apply stored_as_prep; exact Hst).
  pose proof (create_short_url_saves E fuel request w code g exp n Hm Ht Hcode Hexp)
    as Hrun. cbv zeta in Hrun. fold target in Hrun.
  set (row := mkURL (Some (url_seq (db w))) target code
                    (Py.strip (or_default (f_title (POST_data request)) ""))
                    (Py.strip (or_default (f_description (POST_data request)) ""))
                    (Some (clock E (ticks w + n))) (user request) true exp 0 None)
    in *.
  assert (Hdb : db w1 = inserted_db (db w) row)
    by (subst w1; rewrite Hrun; destruct (str_converter_matches code); reflexivity).
  assert (Hticks : ticks w1 = S (ticks w + n))
    by (subst w1; rewrite Hrun; destruct (str_converter_matches code); reflexivity).
  assert (Hne : code <> "").
  { destruct Hcode as [H _ | k _ _ _ _]; [exact H|].
    exact (proj2 (candidate_matches E w k)). }
  assert (Hfree : ~ code_in_use code (db w))
    by (destruct Hcode; assumption).
  assert (Hinv1 : store_inv (db w1))
    by (rewrite Hdb; apply store_inv_inserted; auto).
  assert (Hin : In row (urls (db w1)))
    by (rewrite Hdb; cbn; apply in_or_app; right; left; reflexivity).
  destruct Hinv1 as ((Hc1 & Hp1 & _) & _).
  assert (Hlive1 : forall e, expires_at row = Some e -> clock E (ticks w1) <= e)
    by (rewrite Hticks; exact Hlive).
  pose proof (redirect_url_ok E fuel' visit w1 row (url_seq (db w)) a
                Hc1 Hin eq_refl eq_refl Hne Hlive1 Hip) as Hred.
  cbn [short_code original_url row] in Hred.
  unfold redirect_answer in Hred. rewrite Hacc in Hred.
  eexists. split; [exact Hred|].
  rewrite after_click_db. split.
  - apply (count_of_with_click _ _ _ (db w1) row); auto.
  - unfold clicks_of. cbn [clicks]. rewrite filter_app. cbn [filter].
    rewrite url_click_row, Nat.eqb_refl, length_app. cbn [List.length].
    rewrite Hdb. cbn [clicks inserted_db].
    rewrite filter_none; [reflexivity|].
    intros c Hcin. apply Nat.eqb_neq. intros Heq.
    destruct Hinv as (_ & _ & Hkeys & Hfk & _).
    rewrite Forall_forall in Hfk. specialize (Hfk c Hcin).
    apply (existsb_has_pk_lt (db w) _ Hkeys) in Hfk. lia.
Qed.

(** ** Trimming *)

Section Trimming.

Lemma rstrip_idem (s : string) : Py.rstrip (Py.rstrip s) = Py.rstrip s.
Proof.
  induction s as [|c s IH]; [reflexivity|].
  cbn [Py.rstrip]. destruct (Py.rstrip s) as [|d r] eqn:Hr.
  - destruct (Py.isspace c) eqn:Hc; [reflexivity|].
    cbn [Py.rstrip]. rewrite Hc. reflexivity.
  - change (Py.rstrip (String c (String d r)))
      with (match Py.rstrip (String d r) with
            | EmptyString => if Py.isspace c then EmptyString
                             else String c EmptyString
            | String a b => String c (String a b)
            end).
    rewrite IH. reflexivity.
Qed.

Lemma lstrip_head (s : string) :
  Py.lstrip s = "" \/ exists c r, Py.lstrip s = String c r /\ Py.isspace c = false.
Proof.
  induction s as [|c s IH]; [left; reflexivity|].
  cbn [Py.lstrip]. destruct (Py.isspace c) eqn:Hc; [exact IH|].
  right. exists c, s. auto.
Qed.

Lemma rstrip_head (c : ascii) (r : string) :
  Py.isspace c = false ->
  exists r', Py.rstrip (String c r) = String c r'.
Proof.
  intros Hc. cbn [Py.rstrip]. destruct (Py.rstrip r) as [|d r'].
  - rewrite Hc. eexists. reflexivity.
  - eexists. reflexivity.
Qed.

Lemma strip_idem (s : string) : Py.strip (Py.strip s) = Py.strip s.
Proof.
  unfold Py.strip.
  destruct (lstrip_head s) as [H | (c & r & H & Hc)]; rewrite H.
  - reflexivity.
  - destruct (rstrip_head c r Hc) as (r' & Hr). rewrite Hr.
    cbn [Py.lstrip]. rewrite Hc, <- Hr. apply rstrip_idem.
Qed.

Lemma strip_or_default (o : option string) :
  Py.strip (or_default (option_map Py.strip o) "") = Py.strip (or_default o "").
Proof. destruct o as [s|]; cbn; [apply strip_idem | reflexivity]. Qed.

End Trimming.

(** X8. [create_short_url] does not see white space around the URL,
    the title, the description and the custom code: a request whose fields
    are already trimmed gets the same answer and leaves the same world. *)
Theorem create_short_url_trims (E : Externals) (fuel : nat)
    (request : HttpRequest) (w : World) :
  create_short_url E fuel (trimmed_form request) w
    = create_short_url E fuel request w.
Proof.
  unfold create_short_url, trimmed_form.
  cbn [method POST_data f_original_url f_title f_description f_custom_code
       f_expires_in_days user].
  rewrite !strip_or_default. reflexivity.
Qed.

(** ** The JSON view *)

Section ApiOutcomes.

Variable E : Externals.

(** Every way a POST to [api_create_url] with a JSON body can end. *)
Lemma api_create_url_post (fuel : nat) (request : HttpRequest) (w : World)
    (j : json) :
  method request = POST -> body_json request = Loaded j ->
  api_create_url E fuel request w =
    match json_url_text j with
    | None => (Return (JsonResponse (J_error_exception AttributeError) 500), w)
    | Some text =>
        if negb (Py.truthy (Py.strip text))
        then (Return (JsonResponse J_error_url_required 400), w)
        else
          match URL_save E fuel None
                  (mkURL None (add_protocol (Py.strip text)) "" "" "" None
                         (user request) true None 0 None) w with
          | (Return row, w') =>
              (Return (JsonResponse (J_created (get_short_url E row)
                                               (short_code row)
                                               (original_url row)) 200), w')
          | (Raise e, w') =>
              (Return (JsonResponse
                         (match e with
                          | JSONDecodeError => J_error_invalid_json
                          | _ => J_error_exception e
                          end)
                         (match e with JSONDecodeError => 400 | _ => 500 end)%nat),
               w')
          | (Diverge, w') => (Diverge, w')
          end
    end.
Proof.
  intros Hm Hbody. unfold api_create_url. rewrite Hm, Hbody.
  unfold try_except, bind at 1, ret at 1. unfold bind at 1.
  unfold json_url_text, json_get.
  destruct j; try reflexivity.
  unfold ret at 1. unfold bind at 1. unfold json_strip.
  destruct (assoc_get "url" members) as [[]|]; try reflexivity.
  unfold ret, bind. destruct (negb (Py.truthy (Py.strip s))); [reflexivity|].
  destruct (URL_save E fuel None _ w) as [[row|e|] w']; try reflexivity.
  destruct e; reflexivity.
Qed.

(** A POST whose body [json.loads] does not take. *)
Lemma api_create_url_unloaded (fuel : nat) (request : HttpRequest) (w : World)
    (e : exn) :
  method request = POST -> body_json request = Loads_raises e ->
  api_create_url E fuel request w =
    (Return (match e with
             | JSONDecodeError => JsonResponse J_error_invalid_json 400
             | _ => JsonResponse (J_error_exception e) 500
             end), w).
Proof.
  intros Hm Hbody. unfold api_create_url. rewrite Hm, Hbody.
  unfold try_except, bind, raise. destruct e; reflexivity.
Qed.

Lemma api_create_url_outcomes (fuel : nat) (request : HttpRequest) (w : World) :
  match api_create_url E fuel request w with
  | (Return (JsonResponse reply status), w') =>
      match reply with
      | J_error_method_not_allowed =>
          status = 405%nat /\ w' = w /\ method request <> POST
      | J_error_invalid_json =>
          status = 400%nat /\ w' = w /\ method request = POST
          /\ body_json request = Loads_raises JSONDecodeError
      | J_error_url_required =>
          status = 400%nat /\ w' = w /\ method request = POST
          /\ exists j text, body_json request = Loaded j
                            /\ json_url_text j = Some text
                            /\ Py.strip text = ""
      | J_error_exception e =>
          status = 500%nat /\ w' = w /\ method request = POST
          /\ ((e = AttributeError
               /\ exists j, body_json request = Loaded j
                            /\ json_url_text j = None)
              \/ (body_json request = Loads_raises e /\ e <> JSONDecodeError))
      | J_created short_url' code target =>
          status = 200%nat /\ method request = POST
          /\ exists j text row,
               body_json request = Loaded j
               /\ json_url_text j = Some text /\ Py.strip text <> ""
               /\ db w' = inserted_db (db w) row /\ fresh_row (db w) row
               /\ flash w' = flash w
               /\ short_url' = get_short_url E row
               /\ code = short_code row
               /\ str_converter_matches code = true
               /\ target = original_url row
               /\ target = add_protocol (Py.strip text)
      end
  | (Return _, _) => False
  | (Raise _, _) => False
  | (Diverge, w') => db w' = db w /\ flash w' = flash w
  end.
Proof.
  destruct (method request) eqn:Hm;
    try (unfold api_create_url; rewrite Hm; cbn; repeat split; congruence).
  destruct (body_json request) as [j|e0] eqn:Hbody.
  2:{ rewrite (api_create_url_unloaded fuel request w e0 Hm Hbody).
      destruct e0; repeat split; right; split; congruence. }
  rewrite (api_create_url_post fuel request w j Hm Hbody).
  destruct (json_url_text j) as [text|] eqn:Hj.
  2:{ repeat split. left. split; [reflexivity|]. exists j. auto. }
  destruct (Py.truthy (Py.strip text)) eqn:Ht; cbn [negb].
  2:{ apply truthy_false in Ht. repeat split. exists j, text. auto. }
  apply truthy_true in Ht.
  match goal with
  | |- context [URL_save E fuel None ?u w] =>
      pose proof (URL_save_new_outcome E fuel u w eq_refl) as Hs;
      destruct (URL_save E fuel None u w) as [[row|e|] w']
  end.
  - destruct Hs as (code & t & Hrow & Hfree & Hne & _ & Hgen & Hdb & Hfl).
    specialize (Hgen eq_refl).
    split; [reflexivity|]. split; [reflexivity|].
    exists j, text, row.
    assert (Hfresh : fresh_row (db w) row)
      by (rewrite Hrow; apply fresh_persisted; auto).
    assert (Hsc : short_code row = code) by (rewrite Hrow; reflexivity).
    rewrite Hsc. repeat match goal with |- _ /\ _ => split end; auto.
    rewrite Hrow. reflexivity.
  - destruct Hs as (_ & _ & Hne & _). cbn in Hne. contradiction.
  - destruct Hs as (Hdb & Hfl & _). auto.
Qed.

End ApiOutcomes.

(** X9. [api_create_url] refuses, each time without writing
    and with its own status: any method but POST with 405; a body on which
    [json.loads] raises [JSONDecodeError] with 400, and one on which it
    raises anything else (the [UnicodeDecodeError] of bytes that are no
    text) with 500 and that exception; a JSON body that is not an object,
    or whose ["url"] is not a string, with 500 (the [AttributeError] of
    [.get] or [.strip]); an object without ["url"], or whose ["url"] is
    empty once trimmed, with 400. *)
Theorem api_create_url_refusals (E : Externals) (fuel : nat)
    (request : HttpRequest) (w : World) :
  (method request <> POST ->
   api_create_url E fuel request w
     = (Return (JsonResponse J_error_method_not_allowed 405), w))
  /\ (method request = POST ->
      body_json request = Loads_raises JSONDecodeError ->
      api_create_url E fuel request w
        = (Return (JsonResponse J_error_invalid_json 400), w))
  /\ (forall e,
         method request = POST ->
         body_json request = Loads_raises e -> e <> JSONDecodeError ->
         api_create_url E fuel request w
           = (Return (JsonResponse (J_error_exception e) 500), w))
  /\ (forall j,
         method request = POST -> body_json request = Loaded j ->
         (json_url_text j = None ->
          api_create_url E fuel request w
            = (Return (JsonResponse (J_error_exception AttributeError) 500), w))
         /\ (forall text,
                json_url_text j = Some text -> Py.strip text = "" ->
                api_create_url E fuel request w
                  = (Return (JsonResponse J_error_url_required 400), w))).
Proof.
  split; [|split; [|split]].
  - intros Hm. unfold api_create_url.
    destruct (method request); first [reflexivity | exfalso; apply Hm; reflexivity].
  - intros Hm Hb. rewrite (api_create_url_unloaded E fuel request w _ Hm Hb).
    reflexivity.
  - intros e Hm Hb Hne. rewrite (api_create_url_unloaded E fuel request w e Hm Hb).
    destruct e; try reflexivity. exfalso. apply Hne. reflexivity.
  - intros j Hm Hb. rewrite (api_create_url_post E fuel request w j Hm Hb). split.
    + intros ->. reflexivity.
    + intros text -> ->. reflexivity.
Qed.

(** X10. [api_create_url] never lets an exception out.  A reply
    with status 200 means that exactly one link was appended in this call,
    and the reply quotes it: its code, its stored URL (the trimmed text of
    the body with the scheme completed) and the short URL made of the
    domain and the code.  Any other reply means that the world is as it
    was. *)
Theorem api_create_url_answers (E : Externals) (fuel : nat)
    (request : HttpRequest) (w : World) :
  (forall e w', api_create_url E fuel request w <> (Raise e, w'))
  /\ (forall reply status w',
         api_create_url E fuel request w
           = (Return (JsonResponse reply status), w') ->
         (status = 200%nat ->
          exists row text j,
            body_json request = Loaded j /\ json_url_text j = Some text
            /\ urls (db w') = (urls (db w) ++ [row])%list
            /\ clicks (db w') = clicks (db w)
            /\ original_url row = add_protocol (Py.strip text)
            /\ reply = J_created (get_short_url E row) (short_code row)
                                 (original_url row))
         /\ (status <> 200%nat -> w' = w)).
Proof.
  pose proof (api_create_url_outcomes E fuel request w) as H. split.
  - intros e w' Hrun. rewrite Hrun in H. exact H.
  - intros reply status w' Hrun. rewrite Hrun in H.
    destruct reply.
    + destruct H as (-> & -> & _). split; [discriminate | reflexivity].
    + destruct H as (-> & -> & _). split; [discriminate | reflexivity].
    + destruct H as (-> & -> & _). split; [discriminate | reflexivity].
    + destruct H as (-> & -> & _). split; [discriminate | reflexivity].
    + destruct H as (-> & _ & j & text & row & Hb & Hj & _ & Hdb & _ & _
                     & -> & -> & _ & -> & Ht).
      split; [|congruence]. intros _. exists row, text, j.
      rewrite Hdb. cbn. repeat split; auto.
Qed.

(** X11. A call of [api_create_url], whatever the request, on a
    store that satisfies the invariant of the views leaves a store that
    satisfies it, with every link's [click_count] still the number of its
    clicks. *)
Theorem api_create_url_keeps_store (E : Externals) (fuel : nat)
    (request : HttpRequest) (w : World) :
  store_inv (db w) -> counts_consistent (db w) ->
  store_inv (db (snd (api_create_url E fuel request w)))
  /\ counts_consistent (db (snd (api_create_url E fuel request w))).
Proof.
  intros Hinv Hcount.
  pose proof (api_create_url_outcomes E fuel request w) as H.
  destruct (api_create_url E fuel request w) as [[[]|e|] w']; cbn [snd];
    try contradiction.
  - destruct reply.
    + destruct H as (_ & -> & _). auto.
    + destruct H as (_ & -> & _). auto.
    + destruct H as (_ & -> & _). auto.
    + destruct H as (_ & -> & _). auto.
    + destruct H as (_ & _ & j & text & row & _ & _ & _ & -> & Hfresh & _).
      destruct Hfresh as (Hpk & Hne & Hfree & _ & Hzero & _). split.
      * apply store_inv_inserted; assumption.
      * apply counts_inserted; assumption.
  - destruct H as (-> & _). auto.
Qed.

(** ** The client address *)

Lemma split_comma_head_spec (s : string) :
  Py.contains_char "," (Py.split_comma_head s) = false
  /\ (s = Py.split_comma_head s
      \/ exists rest, s = Py.split_comma_head s ++ "," ++ rest).
Proof.
  induction s as [|c s (IH1 & IH2)]; [split; [reflexivity | left; reflexivity]|].
  cbn [Py.split_comma_head]. destruct (Ascii.eqb_spec c ",") as [-> | Hne].
  - split; [reflexivity|]. right. exists s. reflexivity.
  - cbn [Py.contains_char]. rewrite IH1, orb_false_r. split.
    + apply Ascii.eqb_neq. congruence.
    + destruct IH2 as [H | (rest & H)].
      * left. f_equal. exact H.
      * right. exists rest. cbn [append]. f_equal. exact H.
Qed.

(** X12. With a non-empty [X-Forwarded-For] header the client
    address is the text of the header before its first comma, taken as it
    is (it holds no comma, and may be empty), and [REMOTE_ADDR] is not
    looked at; without the header, or with an empty one, the address is
    [REMOTE_ADDR]. *)
Theorem client_ip_first_hop (request : HttpRequest) :
  (forall x,
      HTTP_X_FORWARDED_FOR (META request) = Some x -> x <> "" ->
      exists first,
        get_client_ip request = Some first
        /\ Py.contains_char "," first = false
        /\ (x = first \/ exists rest, x = first ++ "," ++ rest))
  /\ (HTTP_X_FORWARDED_FOR (META request) = None
      \/ HTTP_X_FORWARDED_FOR (META request) = Some "" ->
      get_client_ip request = REMOTE_ADDR (META request)).
Proof.
  unfold get_client_ip. split.
  - intros x -> Hx. rewrite (proj2 (truthy_true x) Hx).
    exists (Py.split_comma_head x). split; [reflexivity|].
    apply split_comma_head_spec.
  - intros [-> | ->]; reflexivity.
Qed.

(** ** The routes *)

Section Routes.

Lemma split_slash_app (a b : string) :
  Py.contains_char "/" a = false ->
  split_slash (a ++ "/" ++ b) = (a, Some b).
Proof.
  induction a as [|c a IH]; intros H; [reflexivity|].
  cbn [Py.contains_char] in H. apply orb_false_elim in H. destruct H as (Hc & Ha).
  cbn [append split_slash]. rewrite Ascii.eqb_sym, Hc.
  change (String "/" b) with ("/" ++ b). rewrite (IH Ha). reflexivity.
Qed.

Lemma split_slash_inv (s a b : string) :
  split_slash s = (a, Some b) ->
  s = a ++ "/" ++ b /\ Py.contains_char "/" a = false.
Proof.
  revert a. induction s as [|c s IH]; intros a H; [discriminate H|].
  cbn [split_slash] in H. destruct (Ascii.eqb_spec c "/") as [-> | Hne].
  - injection H as <- <-. split; reflexivity.
  - destruct (split_slash s) as [a' b'] eqn:Hs. injection H as <- ->.
    destruct (IH a' eq_refl) as (-> & Ha). split; [reflexivity|].
    cbn [Py.contains_char]. rewrite Ha, orb_false_r.
    apply Ascii.eqb_neq. congruence.
Qed.

Lemma str_converter_matches_spec (code : string) :
  str_converter_matches code = true
  <-> code <> "" /\ Py.contains_char "/" code = false.
Proof.
  unfold str_converter_matches. rewrite andb_true_iff, negb_true_iff, truthy_true.
  reflexivity.
Qed.

Lemma append_slash_inj (a b rest : string) :
  Py.contains_char "/" a = false -> Py.contains_char "/" b = false ->
  a ++ "/" = b ++ "/" ++ rest -> a = b /\ rest = "".
Proof.
  intros Ha Hb H.
  pose proof (split_slash_app a "" Ha) as H1.
  pose proof (split_slash_app b rest Hb) as H2.
  change ("/" ++ "") with "/" in H1. rewrite H in H1. rewrite H1 in H2.
  injection H2 as -> <-. auto.
Qed.

End Routes.

Lemma resolve_code_spec (path code : string) :
  (resolve path = Some (Call_redirect_url code)
   <-> path = code ++ "/"
       /\ str_converter_matches code = true
       /\ code <> "create" /\ code <> "analytics" /\ code <> "my-urls")
  /\ (resolve path = Some (Call_url_detail code)
      <-> path = code ++ "/stats/" /\ str_converter_matches code = true).
Proof.
  split; split.
  - unfold resolve. intros H.
    destruct (String.eqb_spec path "") as [|H0]; [discriminate H|].
    destruct (String.eqb_spec path "create/") as [|H1]; [discriminate H|].
    destruct (String.eqb_spec path "analytics/") as [|H2]; [discriminate H|].
    destruct (String.eqb_spec path "my-urls/") as [|H3]; [discriminate H|].
    destruct (String.eqb_spec path "api/create/") as [|H4]; [discriminate H|].
    destruct (split_slash path) as [seg [rest|]] eqn:Hs; [|discriminate H].
    destruct (Py.truthy seg) eqn:Ht; [|discriminate H].
    destruct (String.eqb_spec rest "") as [-> | Hr].
    + injection H as ->. apply split_slash_inv in Hs. destruct Hs as (-> & Hc).
      change ("/" ++ "") with "/" in *.
      split; [reflexivity|]. split.
      * apply str_converter_matches_spec. split; [apply truthy_true; exact Ht | exact Hc].
      * repeat split; intros ->; [apply H1 | apply H2 | apply H3]; reflexivity.
    + destruct (String.eqb rest "stats/"); discriminate H.
  - intros (-> & Hm & N1 & N2 & N3).
    apply str_converter_matches_spec in Hm. destruct Hm as (Hne & Hc).
    unfold resolve.
    assert (Hdiff : forall name rest,
               Py.contains_char "/" name = false ->
               (name <> code \/ rest <> "") ->
               String.eqb (code ++ "/") (name ++ "/" ++ rest) = false).
    { intros name rest Hn Hd. apply String.eqb_neq. intros Heq.
      destruct (append_slash_inj code name rest Hc Hn Heq) as (-> & ->).
      destruct Hd as [Hd | Hd]; apply Hd; reflexivity. }
    replace (String.eqb (code ++ "/") "") with false
      by (symmetry; apply String.eqb_neq; destruct code; [congruence | discriminate]).
    assert (E1 : String.eqb (code ++ "/") "create/" = false)
      by (apply (Hdiff "create" ""); [reflexivity | left; congruence]).
    assert (E2 : String.eqb (code ++ "/") "analytics/" = false)
      by (apply (Hdiff "analytics" ""); [reflexivity | left; congruence]).
    assert (E3 : String.eqb (code ++ "/") "my-urls/" = false)
      by (apply (Hdiff "my-urls" ""); [reflexivity | left; congruence]).
    assert (E4 : String.eqb (code ++ "/") "api/create/" = false)
      by (apply (Hdiff "api" "create/"); [reflexivity | right; discriminate]).
    rewrite E1, E2, E3, E4.
    pose proof (split_slash_app code "" Hc) as Hsp.
    change ("/" ++ "") with "/" in Hsp.
    rewrite Hsp, (proj2 (truthy_true code) Hne).
    reflexivity.
  - unfold resolve. intros H.
    destruct (String.eqb path ""); [discriminate H|].
    destruct (String.eqb path "create/"); [discriminate H|].
    destruct (String.eqb path "analytics/"); [discriminate H|].
    destruct (String.eqb path "my-urls/"); [discriminate H|].
    destruct (String.eqb path "api/create/"); [discriminate H|].
    destruct (split_slash path) as [seg [rest|]] eqn:Hs; [|discriminate H].
    destruct (Py.truthy seg) eqn:Ht; [|discriminate H].
    destruct (String.eqb_spec rest "") as [-> | Hr]; [discriminate H|].
    destruct (String.eqb_spec rest "stats/") as [-> | Hr']; [|discriminate H].
    injection H as ->. apply split_slash_inv in Hs. destruct Hs as (-> & Hc).
    split; [reflexivity|].
    apply str_converter_matches_spec. split; [apply truthy_true; exact Ht | exact Hc].
  - intros (-> & Hm).
    apply str_converter_matches_spec in Hm. destruct Hm as (Hne & Hc).
    unfold resolve.
    assert (Hdiff : forall name rest,
               Py.contains_char "/" name = false -> rest <> "stats/" ->
               String.eqb (code ++ "/stats/") (name ++ "/" ++ rest) = false).
    { intros name rest Hn Hd. apply String.eqb_neq. intros Heq.
      pose proof (split_slash_app code "stats/" Hc) as H1.
      pose proof (split_slash_app name rest Hn) as H2.
      change ("/" ++ "stats/") with "/stats/" in H1.
      rewrite Heq in H1. rewrite H1 in H2. injection H2 as _ H2.
      apply Hd. symmetry. exact H2. }
    replace (String.eqb (code ++ "/stats/") "") with false
      by (symmetry; apply String.eqb_neq; destruct code; [congruence | discriminate]).
    assert (E1 : String.eqb (code ++ "/stats/") "create/" = false)
      by (apply (Hdiff "create" ""); [reflexivity | discriminate]).
    assert (E2 : String.eqb (code ++ "/stats/") "analytics/" = false)
      by (apply (Hdiff "analytics" ""); [reflexivity | discriminate]).
    assert (E3 : String.eqb (code ++ "/stats/") "my-urls/" = false)
      by (apply (Hdiff "my-urls" ""); [reflexivity | discriminate]).
    assert (E4 : String.eqb (code ++ "/stats/") "api/create/" = false)
      by (apply (Hdiff "api" "create/"); [reflexivity | discriminate]).
    rewrite E1, E2, E3, E4.
    pose proof (split_slash_app code "stats/" Hc) as Hsp.
    change ("/" ++ "stats/") with "/stats/" in Hsp.
    rewrite Hsp, (proj2 (truthy_true code) Hne).
    reflexivity.
Qed.

(** ** The totals of the dashboard *)

Section Totals.

Lemma filter_has_pk_one (us : list URL) (q : nat) :
  NoDup (map pk us) -> existsb (has_pk q) us = true ->
  List.length (filter (has_pk q) us) = 1%nat.
Proof.
  intros Hnd Hex. apply existsb_exists in Hex. destruct Hex as (r & Hr & Hb).
  assert (Hp : pk r = Some q).
  { unfold has_pk in Hb. destruct (pk r) as [k|]; [|discriminate].
    apply Nat.eqb_eq in Hb. congruence. }
  rewrite (filter_pk_unique us r q Hnd Hr Hp). reflexivity.
Qed.

(** Counting the clicks link by link counts each click once. *)
Lemma clicks_by_link (us : list URL) (cs : list Click) :
  NoDup (map pk us) ->
  Forall (fun c => existsb (has_pk (url c)) us = true) cs ->
  fold_right (fun u acc =>
                (List.length (filter (fun c => has_pk (url c) u) cs) + acc)%nat)
             0%nat us
  = List.length cs.
Proof.
  intros Hnd Hfk. induction Hfk as [|c cs Hc Hfk IH].
  - induction us as [|u us IHu]; [reflexivity|].
    cbn. apply IHu. cbn in Hnd. inversion Hnd; assumption.
  - assert (Hstep :
      fold_right (fun u acc =>
                    (List.length (filter (fun c0 => has_pk (url c0) u) (c :: cs))
                     + acc)%nat) 0%nat us
      = (fold_right (fun u acc =>
                       (List.length (filter (fun c0 => has_pk (url c0) u) cs)
                        + acc)%nat) 0%nat us
         + List.length (filter (has_pk (url c)) us))%nat).
    { clear. induction us as [|u us IHu]; [reflexivity|].
      cbn [fold_right]. rewrite IHu. cbn [filter].
      destruct (has_pk (url c) u); cbn [List.length]; lia. }
    rewrite Hstep, IH, (filter_has_pk_one us (url c) Hnd Hc).
    cbn [List.length]. lia.
Qed.

End Totals.

(** X13. On a store that satisfies the invariant of the views and in
    which every counter is the number of the link's clicks, the total of
    clicks that [home] and [analytics_dashboard] show
    ([Click.objects.count()]) is the sum of the [click_count] of all
    links. *)
Theorem total_clicks_is_sum (d : DB) :
  store_inv d -> counts_consistent d ->
  Z.of_nat (total_clicks d) = sum_click_count (urls d).
Proof.
  intros ((_ & Hnd & Hset) & _ & _ & Hfk & _) Hcount.
  unfold total_clicks. rewrite <- (clicks_by_link (urls d) (clicks d) Hnd Hfk).
  unfold sum_click_count.
  assert (H : forall us,
             (forall u, In u us -> In u (urls d)) ->
             Z.of_nat (fold_right
                         (fun u acc =>
                            (List.length (filter (fun c => has_pk (url c) u)
                                                 (clicks d)) + acc)%nat)
                         0%nat us)
             = fold_right (fun u acc => click_count u + acc) 0 us).
  { induction us as [|u us IH]; intros Hsub; [reflexivity|].
    cbn [fold_right]. rewrite Nat2Z.inj_add, IH
      by (intros r Hr; apply Hsub; right; exact Hr).
    f_equal.
    assert (Hin : In u (urls d)) by (apply Hsub; left; reflexivity).
    rewrite Forall_forall in Hset.
    destruct (pk u) as [q|] eqn:Hq; [|exfalso; exact (Hset u Hin Hq)].
    rewrite (Hcount u q Hin Hq). unfold clicks_of. do 2 f_equal.
    apply filter_ext. intros c. unfold has_pk. rewrite Hq. reflexivity. }
  apply H. auto.
Qed.

(** ** Calls side by side, with refusals *)

Section AnySchedule.

Variable E : Externals.
Variable fuel : nat.
Variable w0 : World.
Variable u0 : URL.
Variable p : nat.

Hypothesis Hok : db_ok (db w0).
Hypothesis Hin : In u0 (urls (db w0)).
Hypothesis Hact : is_active u0 = true.
Hypothesis Hp : pk u0 = Some p.
Hypothesis Hcode : short_code u0 <> "".

Lemma record_click_cases (request : HttpRequest) (u : URL) (w : World) :
  pk u = Some p -> existsb (has_pk p) (urls (db w)) = true ->
  match record_click E request u w with
  | (Return (inr _), w') => w' = after_record E request u p w
  | (Return (inl r), w') => r = Render_expired u /\ db w' = db w
  | (Raise _, w') => db w' = db w
  | (Diverge, _) => False
  end.
Proof.
  intros Hpu Hex.
  assert (Hexp : (exists e, expires_at u = Some e /\ e < clock E (ticks w))
                 \/ (forall e, expires_at u = Some e -> clock E (ticks w) <= e)).
  { destruct (expires_at u) as [e|].
    - destruct (Z.lt_ge_cases e (clock E (ticks w))) as [H | H].
      + left. exists e. auto.
      + right. intros e' He'. injection He' as <-. exact H.
    - right. intros e He. discriminate He. }
  destruct Hexp as [(e & He & Hlt) | Hexp].
  - unfold record_click, bind. rewrite (is_expired_true E w u e He Hlt).
    split; reflexivity.
  - destruct (ip_address_prep E (get_client_ip request)) as [a|] eqn:Hip.
    + rewrite (record_click_spec E request w u p a Hpu Hex Hexp Hip). reflexivity.
    + unfold record_click, bind. rewrite (is_expired_false E w u Hexp).
      destruct (parse_user_agent E (or_default (HTTP_USER_AGENT (META request)) ""))
        as [[br os'] dev].
      rewrite (click_create_null E _ _ _ _ _ _ _ _ Hip). reflexivity.
Qed.

(** A refused statement writes nothing, ends the call, and does not make
    it a call that answered with the redirect. *)
Lemma thread_fail_cases (t : thread) (w : World) :
  db (snd (thread_fail E t w)) = db w
  /\ succeeded (fst (thread_fail E t w)) = succeeded t
  /\ is_done (fst (thread_fail E t w)) = true.
Proof.
  destruct t as [r c | r u | r u | o]; cbn [thread_fail].
  - auto.
  - unfold bind, is_expired, timezone_now, ret, raise.
    destruct (expires_at u) as [e|]; cbn;
      [destruct (e <? clock E (ticks w)); cbn; auto | auto].
  - unfold bind at 1. unfold timezone_now at 1.
    destruct (negb (Py.truthy (short_code u))).
    + unfold bind. rewrite random_string_spec. cbn. auto.
    + cbn. auto.
  - destruct o as [resp | e |]; cbn; auto.
Qed.

Lemma open_thread_mono (hi hi' : Z) (t : thread) :
  hi <= hi' -> open_thread u0 hi t -> open_thread u0 hi' t.
Proof.
  intros Hle. destruct t as [r c | r u | r u | o]; cbn; auto;
    intros (n & t' & Hu & Hb); exists n, t'; (split; [exact Hu | lia]).
Qed.

Lemma pool_inv_any_event (ev : event) (s : list thread * World) :
  pool_inv_any w0 u0 p s -> pool_inv_any w0 u0 p (exec_event E fuel ev s).
Proof.
  destruct s as [pool w]. intros Hinv.
  destruct Hinv as (k & Hgood & (n & t0 & Hurls & Hn)
                    & (new & Hclicks & Hnew & Hdk & Hlen)).
  destruct Hok as (Hokc & Hokp & _).
  assert (Hndc : NoDup (map short_code (urls (db w))))
    by (rewrite Hurls, map_code_with_click; exact Hokc).
  assert (Hcur : In (set_last_clicked t0 (set_click_count n u0)) (urls (db w)))
    by (rewrite Hurls; apply in_with_click; assumption).
  assert (Hex : existsb (has_pk p) (urls (db w)) = true)
    by (apply (existsb_has_pk _ _ p Hcur); exact Hp).
  destruct ev as [i | i]; cbn [exec_event];
    destruct (nth_error pool i) as [t|] eqn:Hnth;
    try (unfold pool_inv_any; exists k; split; [exact Hgood|];
         split; [exists n, t0; auto | exists new; auto]; fail).
  - (* the call moves *)
    pose proof (nth_error_Forall _ _ _ _ Hgood Hnth) as Ht.
    destruct t as [request code | request u | request u | r].
    + cbn in Ht. subst code.
      change (short_code u0)
        with (short_code (set_last_clicked t0 (set_click_count n u0))).
      rewrite (step_start E fuel request w _ Hndc Hcur Hact).
      pose proof (set_nth_count succeeded i _
                    (T_loaded request (set_last_clicked t0 (set_click_count n u0)))
                    pool Hnth) as Hd.
      pose proof (set_nth_count is_clicked i _
                    (T_loaded request (set_last_clicked t0 (set_click_count n u0)))
                    pool Hnth) as Hw.
      pose proof (set_nth_count has_clicked i _
                    (T_loaded request (set_last_clicked t0 (set_click_count n u0)))
                    pool Hnth) as Hc.
      cbn [succeeded is_clicked has_clicked] in Hd, Hw, Hc.
      rewrite !Nat.add_0_r in Hd, Hw, Hc.
      unfold pool_inv_any, clicked_count. rewrite Hd, Hw, Hc.
      exists k. split; [|split].
      * apply set_nth_Forall; [exact Hgood|]. cbn. exists n, t0. auto.
      * exists n, t0. auto.
      * exists new. auto.
    + destruct Ht as (n1 & t1 & Hu & Hb).
      assert (Hpu : pk u = Some p) by (rewrite Hu; exact Hp).
      pose proof (record_click_cases request u w Hpu Hex) as Hrec.
      cbn [thread_step].
      destruct (record_click E request u w) as [[[resp | c] | e |] w1];
        cbn [finish]; try contradiction.
      * (* expired: the page, nothing written *)
        destruct Hrec as (-> & Hrec).
        pose proof (set_nth_count succeeded i _
                      (T_done (Return (Render_expired u))) pool Hnth) as Hd.
        pose proof (set_nth_count is_clicked i _
                      (T_done (Return (Render_expired u))) pool Hnth) as Hw.
        pose proof (set_nth_count has_clicked i _
                      (T_done (Return (Render_expired u))) pool Hnth) as Hc.
        cbn [is_clicked has_clicked succeeded] in Hd, Hw, Hc.
        rewrite !Nat.add_0_r in Hd, Hw. rewrite Nat.add_0_r in Hc.
        unfold pool_inv_any, clicked_count in *. rewrite Hrec, Hd, Hw.
        exists k. split; [|split].
        -- apply set_nth_Forall; [exact Hgood | exact I].
        -- exists n, t0. auto.
        -- exists new. split; [exact Hclicks|]. split; [exact Hnew|]. lia.
      * (* the click is inserted *)
        subst w1.
        pose proof (set_nth_count succeeded i _ (T_clicked request u) pool Hnth)
          as Hd.
        pose proof (set_nth_count is_clicked i _ (T_clicked request u) pool Hnth)
          as Hw.
        pose proof (set_nth_count has_clicked i _ (T_clicked request u) pool Hnth)
          as Hc.
        cbn [is_clicked has_clicked succeeded] in Hd, Hw, Hc.
        rewrite !Nat.add_0_r in Hd. rewrite Nat.add_0_r in Hw, Hc.
        unfold pool_inv_any, clicked_count in *. rewrite Hd.
        exists k. split; [|split].
        -- apply set_nth_Forall; [exact Hgood|]. cbn. exists n1, t1. auto.
        -- exists n, t0. auto.
        -- exists (new ++ [click_row E request p (click_seq (db w))
                                    (clock E (ticks w + expiry_reads u))])%list.
           split; [|split; [|split]].
           ++ cbn. rewrite Hclicks, <- app_assoc. reflexivity.
           ++ apply Forall_app. split; [exact Hnew|].
              constructor; [apply url_click_row | constructor].
           ++ exact Hdk.
           ++ rewrite length_app. cbn [List.length]. lia.
      * (* the INSERT raised *)
        pose proof (set_nth_count succeeded i _ (T_done (Raise e)) pool Hnth) as Hd.
        pose proof (set_nth_count is_clicked i _ (T_done (Raise e)) pool Hnth) as Hw.
        pose proof (set_nth_count has_clicked i _ (T_done (Raise e)) pool Hnth) as Hc.
        cbn [is_clicked has_clicked succeeded] in Hd, Hw, Hc.
        rewrite !Nat.add_0_r in Hd, Hw. rewrite Nat.add_0_r in Hc.
        unfold pool_inv_any, clicked_count in *. rewrite Hrec, Hd, Hw.
        exists k. split; [|split].
        -- apply set_nth_Forall; [exact Hgood | exact I].
        -- exists n, t0. auto.
        -- exists new. split; [exact Hclicks|]. split; [exact Hnew|]. lia.
    + (* the UPDATE *)
      destruct Ht as (n1 & t1 & Hu & Hb).
      assert (Hpu : pk u = Some p) by (rewrite Hu; exact Hp).
      assert (Hcu : short_code u <> "") by (rewrite Hu; exact Hcode).
      rewrite (step_clicked E fuel request w u p Hpu Hcu Hex).
      pose proof (set_nth_count succeeded i _
                    (T_done (redirect_answer E (original_url u)))
                    pool Hnth) as Hd.
      pose proof (set_nth_count is_clicked i _
                    (T_done (redirect_answer E (original_url u)))
                    pool Hnth) as Hw.
      pose proof (set_nth_count has_clicked i _
                    (T_done (redirect_answer E (original_url u)))
                    pool Hnth) as Hc.
      cbn [is_clicked has_clicked] in Hd, Hw, Hc.
      change (succeeded (T_clicked request u)) with false in Hd.
      rewrite Nat.add_0_r in Hd, Hw. apply Nat.add_cancel_r in Hc.
      unfold pool_inv_any, clicked_count in *. rewrite Hc.
      exists (S k). split; [|split].
      * apply set_nth_Forall; [|exact I].
        eapply Forall_impl; [|exact Hgood].
        intros a. apply open_thread_mono. lia.
      * exists (click_count u + 1), (Some (clock E (ticks w))). split.
        -- cbn. rewrite Hurls, with_click_with_click. reflexivity.
        -- rewrite Hu. cbn. lia.
      * exists new. split; [exact Hclicks|]. split; [exact Hnew|].
        destruct (succeeded (T_done (redirect_answer E (original_url u)))); lia.
    + cbn [thread_step]. rewrite (set_nth_same i _ pool Hnth).
      unfold pool_inv_any. exists k. split; [exact Hgood|].
      split; [exists n, t0; auto | exists new; auto].
  - (* the store refuses the next statement of the call *)
    destruct (thread_fail_cases t w) as (Hdb & Hs & Hdone).
    destruct (thread_fail E t w) as [t' w1]. cbn [fst snd] in Hdb, Hs, Hdone.
    pose proof (set_nth_count succeeded i _ t' pool Hnth) as Hd.
    pose proof (set_nth_count is_clicked i _ t' pool Hnth) as Hw.
    pose proof (set_nth_count has_clicked i _ t' pool Hnth) as Hc.
    assert (Hk : is_clicked t' = false) by (destruct t'; [discriminate Hdone ..|reflexivity]).
    assert (Hh : has_clicked t' = true) by (destruct t'; [discriminate Hdone ..|reflexivity]).
    rewrite Hs in Hd. rewrite Hk in Hw. rewrite Hh in Hc.
    apply Nat.add_cancel_r in Hd.
    unfold pool_inv_any, clicked_count in *. rewrite Hd, Hdb.
    exists k. split; [|split].
    + apply set_nth_Forall; [exact Hgood|].
      destruct t'; [discriminate Hdone ..|exact I].
    + exists n, t0. auto.
    + exists new. split; [exact Hclicks|]. split; [exact Hnew|].
      split; [exact Hdk|].
      destruct (is_clicked t), (has_clicked t); lia.
Qed.

Lemma pool_inv_any_initial (requests : list HttpRequest) :
  pool_inv_any w0 u0 p (map (fun r => T_start r (short_code u0)) requests, w0).
Proof.
  assert (Hd : forall rs : list HttpRequest,
             filter succeeded (map (fun r => T_start r (short_code u0)) rs) = []
             /\ filter is_clicked (map (fun r => T_start r (short_code u0)) rs) = []
             /\ filter has_clicked (map (fun r => T_start r (short_code u0)) rs) = []).
  { induction rs as [|r rs IH]; [auto | exact IH]. }
  destruct (Hd requests) as (H1 & H2 & H3).
  unfold pool_inv_any, clicked_count. rewrite H1, H2, H3. cbn [List.length].
  exists 0%nat. split; [|split].
  - apply Forall_map. apply Forall_forall. intros r _. reflexivity.
  - exists (click_count u0), (last_clicked u0). split.
    + symmetry. apply with_click_self;
        [exact (proj1 (proj2 Hok)) | exact Hin | exact Hp].
    + cbn. lia.
  - exists []. rewrite app_nil_r. repeat split; auto.
Qed.

End AnySchedule.

(** X14. A path is dispatched to [redirect_url] with a code exactly
    when it is that code followed by a slash, the code is not empty and
    holds no slash, and the code is none of [create], [analytics] and
    [my-urls], whose paths the earlier routes take; it is dispatched to
    [url_detail] exactly when it is a non-empty code without a slash
    followed by [/stats/]. *)
Theorem routes_of_a_code (path code : string) :
  (resolve path = Some (Call_redirect_url code)
   <-> path = code ++ "/"
       /\ str_converter_matches code = true
       /\ code <> "create" /\ code <> "analytics" /\ code <> "my-urls")
  /\ (resolve path = Some (Call_url_detail code)
      <-> path = code ++ "/stats/" /\ str_converter_matches code = true).
Proof. exact (resolve_code_spec path code). Qed.

(** X15. A code that [generate_short_code] draws has its
    detail page routed to [url_detail], and its short path routed to
    [redirect_url] unless the code drawn is ["create"]: that one has six
    letters of the alphabet too, and its path belongs to the creation
    view. *)
Theorem generated_code_routes (E : Externals) (w : World) (k : nat) :
  let code := candidate E w k in
  resolve (code ++ "/stats/") = Some (Call_url_detail code)
  /\ (code <> "create" -> resolve (code ++ "/") = Some (Call_redirect_url code))
  /\ (code = "create" -> resolve (code ++ "/") = Some Call_create_short_url).
Proof.
  intros code.
  destruct (candidate_matches E w k) as (Hm & _). fold code in Hm.
  assert (Hlen : String.length code = 6%nat) by apply draw_string_length.
  split; [|split].
  - apply resolve_code_spec. auto.
  - intros Hne. apply resolve_code_spec. repeat split; auto;
      intros H; rewrite H in Hlen; discriminate Hlen.
  - intros ->. reflexivity.
Qed.

(** X16. Calls of [redirect_url] on one active link, with any
    requests, their statements interleaved in any order, each committed
    when it returns, and any of them refused by the store: the counter of
    the link never goes below its initial value and never runs ahead of
    the clicks, it has grown by at most the number of clicks inserted for
    the link; each call that answered with the redirect has its click in
    the table; and no more clicks are inserted than there are calls. *)
Theorem counter_never_ahead (E : Externals) (fuel : nat) (w : World) (u : URL)
    (p : nat) (requests : list HttpRequest) (evs : list event)
    (pool' : list thread) (w' : World) :
  db_ok (db w) ->
  In u (urls (db w)) -> is_active u = true -> pk u = Some p ->
  short_code u <> "" ->
  exec E fuel evs (map (fun r => T_start r (short_code u)) requests, w)
    = (pool', w') ->
  exists n inserted,
    count_of p (db w') = Some n
    /\ List.length (clicks_of p (db w'))
       = (List.length (clicks_of p (db w)) + inserted)%nat
    /\ click_count u <= n <= click_count u + Z.of_nat inserted
    /\ (List.length (filter succeeded pool') <= inserted
        <= List.length requests)%nat.
Proof.
  intros Hok Hin Hact Hp Hcode Hrun.
  pose proof (exec_invariant E fuel (pool_inv_any w u p)
                (fun ev s => pool_inv_any_event E fuel w u p Hok Hin Hact Hp
                               Hcode ev s)
                evs _ (pool_inv_any_initial w u p Hok Hin Hp requests)) as Hinv.
  rewrite Hrun in Hinv.
  destruct Hinv as (k & _ & (n & t & Hurls & Hn)
                    & (new & Hclicks & Hnew & Hdk & Hlen)).
  pose proof (exec_length E fuel evs _ _ _ _ Hrun) as Hlength.
  rewrite length_map in Hlength.
  assert (Hcc : (clicked_count pool' <= List.length pool')%nat)
    by (unfold clicked_count; apply filter_length_le).
  exists n, (List.length new). split; [|split; [|split]].
  - exact (count_of_tables p _ _ u _ _ Hurls (proj1 (proj2 Hok)) Hin Hp).
  - exact (clicks_of_app p (db w') _ _ Hclicks Hnew).
  - lia.
  - lia.
Qed.

(** X17. Once [create_short_url] has written a link under a custom
    code, a second POST with the same custom code, whatever its target
    URL (not empty), is refused with the message that the code exists and
    writes nothing. *)
Theorem custom_code_twice (E : Externals) (fuel fuel' : nat)
    (request again : HttpRequest) (w : World)
    (exp : option datetime) (n : nat) :
  method request = POST ->
  Py.strip (or_default (f_original_url (POST_data request)) "") <> "" ->
  let custom := Py.strip (or_default (f_custom_code (POST_data request)) "") in
  custom <> "" ->
  ~ code_in_use custom (db w) ->
  expiry_choice E w (f_expires_in_days (POST_data request)) exp n ->
  method again = POST ->
  Py.strip (or_default (f_original_url (POST_data again)) "") <> "" ->
  Py.strip (or_default (f_custom_code (POST_data again)) "") = custom ->
  let w1 := snd (create_short_url E fuel request w) in
  code_in_use custom (db w1)
  /\ create_short_url E fuel' again w1
     = (Return Redirect_home, flashed Msg_custom_code_exists w1).
Proof.
  intros Hm Ht custom Hne Hfree Hexp Hm2 Ht2 Hc2 w1.
  pose proof (create_short_url_saves E fuel request w custom 0 exp n Hm Ht
                (choice_custom E fuel w custom Hne Hfree) Hexp) as Hrun.
  cbv zeta in Hrun.
  assert (Huse : code_in_use custom (db w1)).
  { subst w1. rewrite Hrun.
    destruct (str_converter_matches custom); cbn;
      eexists; (split; [apply in_or_app; right; left; reflexivity | reflexivity]). }
  split; [exact Huse|].
  unfold create_short_url. rewrite Hm2. cbv zeta.
  rewrite (proj2 (truthy_true _) Ht2). cbn [negb].
  unfold try_except, bind at 1. rewrite Hc2.
  rewrite (handle_custom_code_taken w1 custom _ Hne Huse). reflexivity.
Qed.

(** ** Counters only grow *)

Lemma filter_has_pk_other (p q : nat) (n : Z) (t : option datetime)
    (us : list URL) :
  q <> p -> filter (has_pk q) (with_click p n t us) = filter (has_pk q) us.
Proof.
  intros Hne. unfold with_click. induction us as [|r us IH]; [reflexivity|].
  cbn [map filter]. destruct (has_pk p r) eqn:Hb.
  - assert (Hq : has_pk q r = false).
    { unfold has_pk in *. destruct (pk r) as [k|]; [|reflexivity].
      apply Nat.eqb_eq in Hb. subst k. apply Nat.eqb_neq. exact Hne. }
    match goal with
    | |- context [has_pk q ?x] => change (has_pk q x) with (has_pk q r)
    end.
    rewrite Hq. exact IH.
  - rewrite IH. reflexivity.
Qed.

(** X18. A call of [redirect_url] on a store that satisfies the
    invariant of the views leaves the counter of every link where it was
    or one higher: no counter ever goes down, and none jumps. *)
Theorem click_count_monotone (E : Externals) (fuel : nat)
    (request : HttpRequest) (code : string) (w : World) (q : nat) (n : Z) :
  store_inv (db w) ->
  count_of q (db w) = Some n ->
  exists n',
    count_of q (db (snd (redirect_url E fuel request code w))) = Some n'
    /\ n <= n' <= n + 1.
Proof.
  intros Hinv Hq.
  destruct (redirect_url_cases E fuel request code w Hinv)
    as [-> | (u & p & Hin & Hp & _ & ->)].
  - exists n. split; [exact Hq | lia].
  - rewrite after_click_db.
    destruct Hinv as ((_ & Hnd & _) & _).
    destruct (Nat.eq_dec q p) as [-> | Hne].
    + rewrite (count_of_unique (db w) u p Hnd Hin Hp) in Hq. injection Hq as <-.
      exists (click_count u + 1). split; [|lia].
      apply (count_of_with_click _ _ _ (db w) u); assumption.
    + exists n. split; [|lia].
      unfold count_of in *. cbn [urls].
      rewrite (filter_has_pk_other p q _ _ _ Hne). exact Hq.
Qed.

(** ** The short URL and the routes *)

Lemma split_slash_none (s : string) :
  Py.contains_char "/" s = false -> split_slash s = (s, None).
Proof.
  induction s as [|c s IH]; intros H; [reflexivity|].
  cbn [Py.contains_char] in H. apply orb_false_elim in H. destruct H as (Hc & Hs).
  cbn [split_slash]. rewrite Ascii.eqb_sym, Hc, (IH Hs). reflexivity.
Qed.

(** X19. The short URL that the views hand out for a link is the
    domain, a slash and the bare code; and the bare code of a link (not
    empty, without a slash) is a path that no route of [urls.py] takes:
    the route of [redirect_url] wants the code followed by a slash. *)
Theorem short_url_needs_slash (E : Externals) (self : URL) :
  str_converter_matches (short_code self) = true ->
  get_short_url E self
    = (match DOMAIN E with Some dmn => dmn | None => "http://localhost:8000" end)
      ++ "/" ++ short_code self
  /\ resolve (short_code self) = None.
Proof.
  intros Hm. split; [reflexivity|].
  apply str_converter_matches_spec in Hm. destruct Hm as (Hne & Hc).
  assert (Hno : forall name : string,
             Py.contains_char "/" name = true ->
             String.eqb (short_code self) name = false).
  { intros name Hn. apply String.eqb_neq. intros Heq. rewrite Heq in Hc.
    congruence. }
  unfold resolve.
  replace (String.eqb (short_code self) "") with false
    by (symmetry; apply String.eqb_neq; exact Hne).
  rewrite (Hno "create/"), (Hno "analytics/"), (Hno "my-urls/"),
    (Hno "api/create/") by reflexivity.
  rewrite (split_slash_none _ Hc). reflexivity.
Qed.

(** ** The further properties on the samples *)

(** Closing the side conditions of [store_inv] on an explicit store. *)
Ltac explicit_store :=
  unfold store_inv, db_ok; cbn;
  repeat match goal with
         | |- _ /\ _ => split
         | |- NoDup [] => apply NoDup_nil
         | |- Forall _ [] => apply Forall_nil
         | |- NoDup (_ :: _) => apply NoDup_cons; [simpl; intuition congruence|]
         | |- Forall _ (_ :: _) =>
             apply Forall_cons;
             [first [reflexivity | discriminate
                    | eexists; split; [reflexivity | lia]]|]
         end.

Lemma ledger_store_inv : store_inv Ledger.store.
Proof. explicit_store. Qed.

Lemma ledger_counts : counts_consistent Ledger.store.
Proof.
  intros u q Hin Hq. cbn in Hin.
  destruct Hin as [<- | [<- | []]]; injection Hq as <-; reflexivity.
Qed.

Lemma sample_store_inv : store_inv Sample.store.
Proof. explicit_store. Qed.

Lemma redirect_url_keeps_store_witness :
  store_inv (db (snd (redirect_url Sample.E 0 Sample.visit "docs" Ledger.world)))
  /\ counts_consistent
       (db (snd (redirect_url Sample.E 0 Sample.visit "docs" Ledger.world))).
Proof.
  apply (redirect_url_keeps_store Sample.E 0 Sample.visit "docs" Ledger.world).
  - exact ledger_store_inv.
  - exact ledger_counts.
Defined.

Lemma redirect_without_address_witness :
  exists w',
    redirect_url Sample.E 0 Sample.anonymous "docs" Ledger.world
      = (Raise IntegrityError, w')
    /\ db w' = Ledger.store.
Proof.
  apply (redirect_without_address Sample.E 0 Sample.anonymous Ledger.world
           (Sample.link 1 "docs" "https://example.com/docs" true None 1)).
  - exact (proj1 ledger_store_inv).
  - simpl. tauto.
  - reflexivity.
  - intros e He. discriminate He.
  - reflexivity.
Defined.

Lemma create_short_url_keeps_store_witness :
  store_inv (db (snd (create_short_url Sample.E 3
                        (Sample.form "example.com" (Some "new") (Some "7"))
                        Ledger.world)))
  /\ counts_consistent
       (db (snd (create_short_url Sample.E 3
                   (Sample.form "example.com" (Some "new") (Some "7"))
                   Ledger.world))).
Proof.
  apply (create_short_url_keeps_store Sample.E 3
           (Sample.form "example.com" (Some "new") (Some "7")) Ledger.world).
  - exact ledger_store_inv.
  - exact ledger_counts.
Defined.

Lemma create_short_url_answers_witness :
  exists row,
    urls (db (snd (create_short_url Sample.E 3
                     (Sample.form "example.com" None None) Sample.world)))
      = (urls Sample.store ++ [row])%list
    /\ short_code row = "ghijkl".
Proof.
  destruct (create_short_url_answers Sample.E 3
              (Sample.form "example.com" None None) Sample.world eq_refl)
    as (_ & Hok & _).
  destruct (Hok "ghijkl"
              (snd (create_short_url Sample.E 3
                      (Sample.form "example.com" None None) Sample.world))
              eq_refl)
    as (row & Hurls & Hcode & _).
  exists row. split; assumption.
Defined.

Lemma custom_code_with_slash_witness :
  exists row w',
    create_short_url Sample.E 3 (Sample.form "example.com" (Some "a/b") None)
                     Sample.world
      = (Return Redirect_home, w')
    /\ urls (db w') = (urls Sample.store ++ [row])%list
    /\ short_code row = "a/b"
    /\ flash w' = [Msg_created (get_short_url Sample.E row);
                   Msg_error_creating NoReverseMatch].
Proof.
  apply (custom_code_with_slash Sample.E 3
           (Sample.form "example.com" (Some "a/b") None) Sample.world None 0).
  - reflexivity.
  - vm_compute. discriminate.
  - reflexivity.
  - apply sample_free. reflexivity.
  - apply expiry_absent. reflexivity.
Defined.

Lemma create_then_redirect_witness :
  exists w2,
    redirect_url Sample.E 0 Sample.visit "ghijkl"
      (snd (create_short_url Sample.E 3
              (Sample.form " example.com/page " None (Some "30"))
              Sample.world))
      = (Return (HttpResponseRedirect "https://example.com/page"), w2)
    /\ count_of 5 (db w2) = Some 1
    /\ List.length (clicks_of 5 (db w2)) = 1%nat.
Proof.
  apply (create_then_redirect Sample.E 3 0
           (Sample.form " example.com/page " None (Some "30")) Sample.visit
           Sample.world "ghijkl" 12
           (Some (Sample.t0 + 30 * Py.us_per_day)) 1 "192.0.2.7" "192.0.2.7").
  - exact sample_store_inv.
  - reflexivity.
  - vm_compute. discriminate.
  - apply sample_choice_generated. lia.
  - apply (expiry_days Sample.E Sample.world (Some "30") 30).
    + discriminate.
    + reflexivity.
    + reflexivity.
  - intros e He. injection He as <-. vm_compute. discriminate.
  - reflexivity.
  - apply stored_plain; [reflexivity | discriminate].
  - reflexivity.
Defined.

Lemma api_create_url_keeps_store_witness :
  store_inv (db (snd (api_create_url Sample.E 3
                        (Sample.api (Loaded (JObject [("url", JString "example.com")])))
                        Ledger.world)))
  /\ counts_consistent
       (db (snd (api_create_url Sample.E 3
                   (Sample.api (Loaded (JObject [("url", JString "example.com")])))
                   Ledger.world))).
Proof.
  apply (api_create_url_keeps_store Sample.E 3
           (Sample.api (Loaded (JObject [("url", JString "example.com")])))
           Ledger.world).
  - exact ledger_store_inv.
  - exact ledger_counts.
Defined.

Lemma total_clicks_is_sum_witness :
  Z.of_nat (total_clicks Ledger.store) = sum_click_count (urls Ledger.store).
Proof.
  apply (total_clicks_is_sum Ledger.store).
  - exact ledger_store_inv.
  - exact ledger_counts.
Defined.

Lemma counter_never_ahead_witness :
  exists n inserted,
    count_of 1 (db (snd (exec Sample.E 0
                           [Ev_step 0; Ev_step 1; Ev_step 0; Ev_step 1;
                            Ev_fail 0; Ev_step 1]
                           ([T_start Sample.visit "docs";
                             T_start Sample.visit "docs"], Sample.world))))
      = Some n
    /\ List.length
         (clicks_of 1 (db (snd (exec Sample.E 0
                                  [Ev_step 0; Ev_step 1; Ev_step 0; Ev_step 1;
                                   Ev_fail 0; Ev_step 1]
                                  ([T_start Sample.visit "docs";
                                    T_start Sample.visit "docs"], Sample.world)))))
       = (0 + inserted)%nat
    /\ 4 <= n <= 4 + Z.of_nat inserted
    /\ (1 <= inserted <= 2)%nat.
Proof.
  apply (counter_never_ahead Sample.E 0 Sample.world
           (Sample.link 1 "docs" "https://example.com/docs" true None 4) 1
           [Sample.visit; Sample.visit]
           [Ev_step 0; Ev_step 1; Ev_step 0; Ev_step 1; Ev_fail 0; Ev_step 1]
           (fst (exec Sample.E 0
                   [Ev_step 0; Ev_step 1; Ev_step 0; Ev_step 1; Ev_fail 0; Ev_step 1]
                   ([T_start Sample.visit "docs"; T_start Sample.visit "docs"],
                    Sample.world)))).
  - exact sample_store_ok.
  - simpl. tauto.
  - reflexivity.
  - reflexivity.
  - discriminate.
  - reflexivity.
Defined.

Lemma custom_code_twice_witness :
  code_in_use "mine"
    (db (snd (create_short_url Sample.E 3
                (Sample.form "example.com" (Some "mine") None) Sample.world)))
  /\ create_short_url Sample.E 3 (Sample.form "example.org" (Some " mine") None)
       (snd (create_short_url Sample.E 3
               (Sample.form "example.com" (Some "mine") None) Sample.world))
     = (Return Redirect_home,
        flashed Msg_custom_code_exists
          (snd (create_short_url Sample.E 3
                  (Sample.form "example.com" (Some "mine") None) Sample.world))).
Proof.
  apply (custom_code_twice Sample.E 3 3
           (Sample.form "example.com" (Some "mine") None)
           (Sample.form "example.org" (Some " mine") None) Sample.world None 0).
  - reflexivity.
  - vm_compute. discriminate.
  - vm_compute. discriminate.
  - apply sample_free. reflexivity.
  - apply expiry_absent. reflexivity.
  - reflexivity.
  - vm_compute. discriminate.
  - reflexivity.
Defined.

(** The generator can draw ["create"]: the link is written, and its short
    path is the one of the creation view. *)
Example generated_create :
  candidate Ledger.E_create Sample.world 0 = "create"
  /\ resolve (candidate Ledger.E_create Sample.world 0 ++ "/")
     = Some Call_create_short_url.
Proof. split; reflexivity. Qed.

Lemma click_count_monotone_witness :
  exists n',
    count_of 1 (db (snd (redirect_url Sample.E 0 Sample.visit "docs" Ledger.world)))
      = Some n'
    /\ 1 <= n' <= 1 + 1.
Proof.
  apply (click_count_monotone Sample.E 0 Sample.visit "docs" Ledger.world 1 1).
  - exact ledger_store_inv.
  - reflexivity.
Defined.

Lemma short_url_needs_slash_witness :
  get_short_url Sample.E (Sample.link 1 "docs" "https://example.com/docs" true None 4)
    = "http://localhost:8000/docs"
  /\ resolve "docs" = None.
Proof.
  apply (short_url_needs_slash Sample.E
           (Sample.link 1 "docs" "https://example.com/docs" true None 4)).
  reflexivity.
Defined.
